(** * gmail-export: message parsing and redaction pipeline

    A shallow embedding of [src/parser.ts], [src/sanitizer.ts] and
    [src/address-detector.ts], together with the small part of the
    JavaScript runtime these files rely on (strings of UTF-16 code units,
    [String.prototype] methods and the backtracking [RegExp] matcher),
    and of the row builder of [src/exporter.ts] and the writer of
    [src/csv.ts] that use them.  [String.prototype.toLowerCase] reads
    the case data of the Unicode Character Database, given first. *)

From Stdlib Require Import Bool Arith NArith ZArith Lia List Ascii String.
From Stdlib Require Import DecimalString DecimalNat Sorted Permutation.
Import ListNotations.

Set Implicit Arguments.

(* ================================================================== *)
(** * Unicode case data *)
(* ================================================================== *)

(** The data of the Unicode Character Database (version 14.0) that
    [String.prototype.toLowerCase] reads: the simple lower-case mappings
    of [UnicodeData.txt] outside Basic Latin, and the derived properties
    Cased and Case_Ignorable that the condition Final_Sigma of
    [SpecialCasing.txt] tests.  The one unconditional special mapping,
    of U+0130, is written out in [JS.lower_points]. *)
Module Unicode.

Local Open Scope N_scope.

(** A code point and its lower-case mapping. *)
Definition LOWER : list (N * N) :=
  [
    (192, 224); (193, 225); (194, 226); (195, 227); (196, 228); (197, 229);
    (198, 230); (199, 231); (200, 232); (201, 233); (202, 234); (203, 235);
    (204, 236); (205, 237); (206, 238); (207, 239); (208, 240); (209, 241);
    (210, 242); (211, 243); (212, 244); (213, 245); (214, 246); (216, 248);
    (217, 249); (218, 250); (219, 251); (220, 252); (221, 253); (222, 254);
    (256, 257); (258, 259); (260, 261); (262, 263); (264, 265); (266, 267);
    (268, 269); (270, 271); (272, 273); (274, 275); (276, 277); (278, 279);
    (280, 281); (282, 283); (284, 285); (286, 287); (288, 289); (290, 291);
    (292, 293); (294, 295); (296, 297); (298, 299); (300, 301); (302, 303);
    (306, 307); (308, 309); (310, 311); (313, 314); (315, 316); (317, 318);
    (319, 320); (321, 322); (323, 324); (325, 326); (327, 328); (330, 331);
    (332, 333); (334, 335); (336, 337); (338, 339); (340, 341); (342, 343);
    (344, 345); (346, 347); (348, 349); (350, 351); (352, 353); (354, 355);
    (356, 357); (358, 359); (360, 361); (362, 363); (364, 365); (366, 367);
    (368, 369); (370, 371); (372, 373); (374, 375); (376, 255); (377, 378);
    (379, 380); (381, 382); (385, 595); (386, 387); (388, 389); (390, 596);
    (391, 392); (393, 598); (394, 599); (395, 396); (398, 477); (399, 601);
    (400, 603); (401, 402); (403, 608); (404, 611); (406, 617); (407, 616);
    (408, 409); (412, 623); (413, 626); (415, 629); (416, 417); (418, 419);
    (420, 421); (422, 640); (423, 424); (425, 643); (428, 429); (430, 648);
    (431, 432); (433, 650); (434, 651); (435, 436); (437, 438); (439, 658);
    (440, 441); (444, 445); (452, 454); (453, 454); (455, 457); (456, 457);
    (458, 460); (459, 460); (461, 462); (463, 464); (465, 466); (467, 468);
    (469, 470); (471, 472); (473, 474); (475, 476); (478, 479); (480, 481);
    (482, 483); (484, 485); (486, 487); (488, 489); (490, 491); (492, 493);
    (494, 495); (497, 499); (498, 499); (500, 501); (502, 405); (503, 447);
    (504, 505); (506, 507); (508, 509); (510, 511); (512, 513); (514, 515);
    (516, 517); (518, 519); (520, 521); (522, 523); (524, 525); (526, 527);
    (528, 529); (530, 531); (532, 533); (534, 535); (536, 537); (538, 539);
    (540, 541); (542, 543); (544, 414); (546, 547); (548, 549); (550, 551);
    (552, 553); (554, 555); (556, 557); (558, 559); (560, 561); (562, 563);
    (570, 11365); (571, 572); (573, 410); (574, 11366); (577, 578);
    (579, 384); (580, 649); (581, 652); (582, 583); (584, 585); (586, 587);
    (588, 589); (590, 591); (880, 881); (882, 883); (886, 887); (895, 1011);
    (902, 940); (904, 941); (905, 942); (906, 943); (908, 972); (910, 973);
    (911, 974); (913, 945); (914, 946); (915, 947); (916, 948); (917, 949);
    (918, 950); (919, 951); (920, 952); (921, 953); (922, 954); (923, 955);
    (924, 956); (925, 957); (926, 958); (927, 959); (928, 960); (929, 961);
    (931, 963); (932, 964); (933, 965); (934, 966); (935, 967); (936, 968);
    (937, 969); (938, 970); (939, 971); (975, 983); (984, 985); (986, 987);
    (988, 989); (990, 991); (992, 993); (994, 995); (996, 997); (998, 999);
    (1000, 1001); (1002, 1003); (1004, 1005); (1006, 1007); (1012, 952);
    (1015, 1016); (1017, 1010); (1018, 1019); (1021, 891); (1022, 892);
    (1023, 893); (1024, 1104); (1025, 1105); (1026, 1106); (1027, 1107);
    (1028, 1108); (1029, 1109); (1030, 1110); (1031, 1111); (1032, 1112);
    (1033, 1113); (1034, 1114); (1035, 1115); (1036, 1116); (1037, 1117);
    (1038, 1118); (1039, 1119); (1040, 1072); (1041, 1073); (1042, 1074);
    (1043, 1075); (1044, 1076); (1045, 1077); (1046, 1078); (1047, 1079);
    (1048, 1080); (1049, 1081); (1050, 1082); (1051, 1083); (1052, 1084);
    (1053, 1085); (1054, 1086); (1055, 1087); (1056, 1088); (1057, 1089);
    (1058, 1090); (1059, 1091); (1060, 1092); (1061, 1093); (1062, 1094);
    (1063, 1095); (1064, 1096); (1065, 1097); (1066, 1098); (1067, 1099);
    (1068, 1100); (1069, 1101); (1070, 1102); (1071, 1103); (1120, 1121);
    (1122, 1123); (1124, 1125); (1126, 1127); (1128, 1129); (1130, 1131);
    (1132, 1133); (1134, 1135); (1136, 1137); (1138, 1139); (1140, 1141);
    (1142, 1143); (1144, 1145); (1146, 1147); (1148, 1149); (1150, 1151);
    (1152, 1153); (1162, 1163); (1164, 1165); (1166, 1167); (1168, 1169);
    (1170, 1171); (1172, 1173); (1174, 1175); (1176, 1177); (1178, 1179);
    (1180, 1181); (1182, 1183); (1184, 1185); (1186, 1187); (1188, 1189);
    (1190, 1191); (1192, 1193); (1194, 1195); (1196, 1197); (1198, 1199);
    (1200, 1201); (1202, 1203); (1204, 1205); (1206, 1207); (1208, 1209);
    (1210, 1211); (1212, 1213); (1214, 1215); (1216, 1231); (1217, 1218);
    (1219, 1220); (1221, 1222); (1223, 1224); (1225, 1226); (1227, 1228);
    (1229, 1230); (1232, 1233); (1234, 1235); (1236, 1237); (1238, 1239);
    (1240, 1241); (1242, 1243); (1244, 1245); (1246, 1247); (1248, 1249);
    (1250, 1251); (1252, 1253); (1254, 1255); (1256, 1257); (1258, 1259);
    (1260, 1261); (1262, 1263); (1264, 1265); (1266, 1267); (1268, 1269);
    (1270, 1271); (1272, 1273); (1274, 1275); (1276, 1277); (1278, 1279);
    (1280, 1281); (1282, 1283); (1284, 1285); (1286, 1287); (1288, 1289);
    (1290, 1291); (1292, 1293); (1294, 1295); (1296, 1297); (1298, 1299);
    (1300, 1301); (1302, 1303); (1304, 1305); (1306, 1307); (1308, 1309);
    (1310, 1311); (1312, 1313); (1314, 1315); (1316, 1317); (1318, 1319);
    (1320, 1321); (1322, 1323); (1324, 1325); (1326, 1327); (1329, 1377);
    (1330, 1378); (1331, 1379); (1332, 1380); (1333, 1381); (1334, 1382);
    (1335, 1383); (1336, 1384); (1337, 1385); (1338, 1386); (1339, 1387);
    (1340, 1388); (1341, 1389); (1342, 1390); (1343, 1391); (1344, 1392);
    (1345, 1393); (1346, 1394); (1347, 1395); (1348, 1396); (1349, 1397);
    (1350, 1398); (1351, 1399); (1352, 1400); (1353, 1401); (1354, 1402);
    (1355, 1403); (1356, 1404); (1357, 1405); (1358, 1406); (1359, 1407);
    (1360, 1408); (1361, 1409); (1362, 1410); (1363, 1411); (1364, 1412);
    (1365, 1413); (1366, 1414); (4256, 11520); (4257, 11521); (4258, 11522);
    (4259, 11523); (4260, 11524); (4261, 11525); (4262, 11526); (4263, 11527);
    (4264, 11528); (4265, 11529); (4266, 11530); (4267, 11531); (4268, 11532);
    (4269, 11533); (4270, 11534); (4271, 11535); (4272, 11536); (4273, 11537);
    (4274, 11538); (4275, 11539); (4276, 11540); (4277, 11541); (4278, 11542);
    (4279, 11543); (4280, 11544); (4281, 11545); (4282, 11546); (4283, 11547);
    (4284, 11548); (4285, 11549); (4286, 11550); (4287, 11551); (4288, 11552);
    (4289, 11553); (4290, 11554); (4291, 11555); (4292, 11556); (4293, 11557);
    (4295, 11559); (4301, 11565); (5024, 43888); (5025, 43889); (5026, 43890);
    (5027, 43891); (5028, 43892); (5029, 43893); (5030, 43894); (5031, 43895);
    (5032, 43896); (5033, 43897); (5034, 43898); (5035, 43899); (5036, 43900);
    (5037, 43901); (5038, 43902); (5039, 43903); (5040, 43904); (5041, 43905);
    (5042, 43906); (5043, 43907); (5044, 43908); (5045, 43909); (5046, 43910);
    (5047, 43911); (5048, 43912); (5049, 43913); (5050, 43914); (5051, 43915);
    (5052, 43916); (5053, 43917); (5054, 43918); (5055, 43919); (5056, 43920);
    (5057, 43921); (5058, 43922); (5059, 43923); (5060, 43924); (5061, 43925);
    (5062, 43926); (5063, 43927); (5064, 43928); (5065, 43929); (5066, 43930);
    (5067, 43931); (5068, 43932); (5069, 43933); (5070, 43934); (5071, 43935);
    (5072, 43936); (5073, 43937); (5074, 43938); (5075, 43939); (5076, 43940);
    (5077, 43941); (5078, 43942); (5079, 43943); (5080, 43944); (5081, 43945);
    (5082, 43946); (5083, 43947); (5084, 43948); (5085, 43949); (5086, 43950);
    (5087, 43951); (5088, 43952); (5089, 43953); (5090, 43954); (5091, 43955);
    (5092, 43956); (5093, 43957); (5094, 43958); (5095, 43959); (5096, 43960);
    (5097, 43961); (5098, 43962); (5099, 43963); (5100, 43964); (5101, 43965);
    (5102, 43966); (5103, 43967); (5104, 5112); (5105, 5113); (5106, 5114);
    (5107, 5115); (5108, 5116); (5109, 5117); (7312, 4304); (7313, 4305);
    (7314, 4306); (7315, 4307); (7316, 4308); (7317, 4309); (7318, 4310);
    (7319, 4311); (7320, 4312); (7321, 4313); (7322, 4314); (7323, 4315);
    (7324, 4316); (7325, 4317); (7326, 4318); (7327, 4319); (7328, 4320);
    (7329, 4321); (7330, 4322); (7331, 4323); (7332, 4324); (7333, 4325);
    (7334, 4326); (7335, 4327); (7336, 4328); (7337, 4329); (7338, 4330);
    (7339, 4331); (7340, 4332); (7341, 4333); (7342, 4334); (7343, 4335);
    (7344, 4336); (7345, 4337); (7346, 4338); (7347, 4339); (7348, 4340);
    (7349, 4341); (7350, 4342); (7351, 4343); (7352, 4344); (7353, 4345);
    (7354, 4346); (7357, 4349); (7358, 4350); (7359, 4351); (7680, 7681);
    (7682, 7683); (7684, 7685); (7686, 7687); (7688, 7689); (7690, 7691);
    (7692, 7693); (7694, 7695); (7696, 7697); (7698, 7699); (7700, 7701);
    (7702, 7703); (7704, 7705); (7706, 7707); (7708, 7709); (7710, 7711);
    (7712, 7713); (7714, 7715); (7716, 7717); (7718, 7719); (7720, 7721);
    (7722, 7723); (7724, 7725); (7726, 7727); (7728, 7729); (7730, 7731);
    (7732, 7733); (7734, 7735); (7736, 7737); (7738, 7739); (7740, 7741);
    (7742, 7743); (7744, 7745); (7746, 7747); (7748, 7749); (7750, 7751);
    (7752, 7753); (7754, 7755); (7756, 7757); (7758, 7759); (7760, 7761);
    (7762, 7763); (7764, 7765); (7766, 7767); (7768, 7769); (7770, 7771);
    (7772, 7773); (7774, 7775); (7776, 7777); (7778, 7779); (7780, 7781);
    (7782, 7783); (7784, 7785); (7786, 7787); (7788, 7789); (7790, 7791);
    (7792, 7793); (7794, 7795); (7796, 7797); (7798, 7799); (7800, 7801);
    (7802, 7803); (7804, 7805); (7806, 7807); (7808, 7809); (7810, 7811);
    (7812, 7813); (7814, 7815); (7816, 7817); (7818, 7819); (7820, 7821);
    (7822, 7823); (7824, 7825); (7826, 7827); (7828, 7829); (7838, 223);
    (7840, 7841); (7842, 7843); (7844, 7845); (7846, 7847); (7848, 7849);
    (7850, 7851); (7852, 7853); (7854, 7855); (7856, 7857); (7858, 7859);
    (7860, 7861); (7862, 7863); (7864, 7865); (7866, 7867); (7868, 7869);
    (7870, 7871); (7872, 7873); (7874, 7875); (7876, 7877); (7878, 7879);
    (7880, 7881); (7882, 7883); (7884, 7885); (7886, 7887); (7888, 7889);
    (7890, 7891); (7892, 7893); (7894, 7895); (7896, 7897); (7898, 7899);
    (7900, 7901); (7902, 7903); (7904, 7905); (7906, 7907); (7908, 7909);
    (7910, 7911); (7912, 7913); (7914, 7915); (7916, 7917); (7918, 7919);
    (7920, 7921); (7922, 7923); (7924, 7925); (7926, 7927); (7928, 7929);
    (7930, 7931); (7932, 7933); (7934, 7935); (7944, 7936); (7945, 7937);
    (7946, 7938); (7947, 7939); (7948, 7940); (7949, 7941); (7950, 7942);
    (7951, 7943); (7960, 7952); (7961, 7953); (7962, 7954); (7963, 7955);
    (7964, 7956); (7965, 7957); (7976, 7968); (7977, 7969); (7978, 7970);
    (7979, 7971); (7980, 7972); (7981, 7973); (7982, 7974); (7983, 7975);
    (7992, 7984); (7993, 7985); (7994, 7986); (7995, 7987); (7996, 7988);
    (7997, 7989); (7998, 7990); (7999, 7991); (8008, 8000); (8009, 8001);
    (8010, 8002); (8011, 8003); (8012, 8004); (8013, 8005); (8025, 8017);
    (8027, 8019); (8029, 8021); (8031, 8023); (8040, 8032); (8041, 8033);
    (8042, 8034); (8043, 8035); (8044, 8036); (8045, 8037); (8046, 8038);
    (8047, 8039); (8072, 8064); (8073, 8065); (8074, 8066); (8075, 8067);
    (8076, 8068); (8077, 8069); (8078, 8070); (8079, 8071); (8088, 8080);
    (8089, 8081); (8090, 8082); (8091, 8083); (8092, 8084); (8093, 8085);
    (8094, 8086); (8095, 8087); (8104, 8096); (8105, 8097); (8106, 8098);
    (8107, 8099); (8108, 8100); (8109, 8101); (8110, 8102); (8111, 8103);
    (8120, 8112); (8121, 8113); (8122, 8048); (8123, 8049); (8124, 8115);
    (8136, 8050); (8137, 8051); (8138, 8052); (8139, 8053); (8140, 8131);
    (8152, 8144); (8153, 8145); (8154, 8054); (8155, 8055); (8168, 8160);
    (8169, 8161); (8170, 8058); (8171, 8059); (8172, 8165); (8184, 8056);
    (8185, 8057); (8186, 8060); (8187, 8061); (8188, 8179); (8486, 969);
    (8490, 107); (8491, 229); (8498, 8526); (8544, 8560); (8545, 8561);
    (8546, 8562); (8547, 8563); (8548, 8564); (8549, 8565); (8550, 8566);
    (8551, 8567); (8552, 8568); (8553, 8569); (8554, 8570); (8555, 8571);
    (8556, 8572); (8557, 8573); (8558, 8574); (8559, 8575); (8579, 8580);
    (9398, 9424); (9399, 9425); (9400, 9426); (9401, 9427); (9402, 9428);
    (9403, 9429); (9404, 9430); (9405, 9431); (9406, 9432); (9407, 9433);
    (9408, 9434); (9409, 9435); (9410, 9436); (9411, 9437); (9412, 9438);
    (9413, 9439); (9414, 9440); (9415, 9441); (9416, 9442); (9417, 9443);
    (9418, 9444); (9419, 9445); (9420, 9446); (9421, 9447); (9422, 9448);
    (9423, 9449); (11264, 11312); (11265, 11313); (11266, 11314);
    (11267, 11315); (11268, 11316); (11269, 11317); (11270, 11318);
    (11271, 11319); (11272, 11320); (11273, 11321); (11274, 11322);
    (11275, 11323); (11276, 11324); (11277, 11325); (11278, 11326);
    (11279, 11327); (11280, 11328); (11281, 11329); (11282, 11330);
    (11283, 11331); (11284, 11332); (11285, 11333); (11286, 11334);
    (11287, 11335); (11288, 11336); (11289, 11337); (11290, 11338);
    (11291, 11339); (11292, 11340); (11293, 11341); (11294, 11342);
    (11295, 11343); (11296, 11344); (11297, 11345); (11298, 11346);
    (11299, 11347); (11300, 11348); (11301, 11349); (11302, 11350);
    (11303, 11351); (11304, 11352); (11305, 11353); (11306, 11354);
    (11307, 11355); (11308, 11356); (11309, 11357); (11310, 11358);
    (11311, 11359); (11360, 11361); (11362, 619); (11363, 7549); (11364, 637);
    (11367, 11368); (11369, 11370); (11371, 11372); (11373, 593);
    (11374, 625); (11375, 592); (11376, 594); (11378, 11379); (11381, 11382);
    (11390, 575); (11391, 576); (11392, 11393); (11394, 11395);
    (11396, 11397); (11398, 11399); (11400, 11401); (11402, 11403);
    (11404, 11405); (11406, 11407); (11408, 11409); (11410, 11411);
    (11412, 11413); (11414, 11415); (11416, 11417); (11418, 11419);
    (11420, 11421); (11422, 11423); (11424, 11425); (11426, 11427);
    (11428, 11429); (11430, 11431); (11432, 11433); (11434, 11435);
    (11436, 11437); (11438, 11439); (11440, 11441); (11442, 11443);
    (11444, 11445); (11446, 11447); (11448, 11449); (11450, 11451);
    (11452, 11453); (11454, 11455); (11456, 11457); (11458, 11459);
    (11460, 11461); (11462, 11463); (11464, 11465); (11466, 11467);
    (11468, 11469); (11470, 11471); (11472, 11473); (11474, 11475);
    (11476, 11477); (11478, 11479); (11480, 11481); (11482, 11483);
    (11484, 11485); (11486, 11487); (11488, 11489); (11490, 11491);
    (11499, 11500); (11501, 11502); (11506, 11507); (42560, 42561);
    (42562, 42563); (42564, 42565); (42566, 42567); (42568, 42569);
    (42570, 42571); (42572, 42573); (42574, 42575); (42576, 42577);
    (42578, 42579); (42580, 42581); (42582, 42583); (42584, 42585);
    (42586, 42587); (42588, 42589); (42590, 42591); (42592, 42593);
    (42594, 42595); (42596, 42597); (42598, 42599); (42600, 42601);
    (42602, 42603); (42604, 42605); (42624, 42625); (42626, 42627);
    (42628, 42629); (42630, 42631); (42632, 42633); (42634, 42635);
    (42636, 42637); (42638, 42639); (42640, 42641); (42642, 42643);
    (42644, 42645); (42646, 42647); (42648, 42649); (42650, 42651);
    (42786, 42787); (42788, 42789); (42790, 42791); (42792, 42793);
    (42794, 42795); (42796, 42797); (42798, 42799); (42802, 42803);
    (42804, 42805); (42806, 42807); (42808, 42809); (42810, 42811);
    (42812, 42813); (42814, 42815); (42816, 42817); (42818, 42819);
    (42820, 42821); (42822, 42823); (42824, 42825); (42826, 42827);
    (42828, 42829); (42830, 42831); (42832, 42833); (42834, 42835);
    (42836, 42837); (42838, 42839); (42840, 42841); (42842, 42843);
    (42844, 42845); (42846, 42847); (42848, 42849); (42850, 42851);
    (42852, 42853); (42854, 42855); (42856, 42857); (42858, 42859);
    (42860, 42861); (42862, 42863); (42873, 42874); (42875, 42876);
    (42877, 7545); (42878, 42879); (42880, 42881); (42882, 42883);
    (42884, 42885); (42886, 42887); (42891, 42892); (42893, 613);
    (42896, 42897); (42898, 42899); (42902, 42903); (42904, 42905);
    (42906, 42907); (42908, 42909); (42910, 42911); (42912, 42913);
    (42914, 42915); (42916, 42917); (42918, 42919); (42920, 42921);
    (42922, 614); (42923, 604); (42924, 609); (42925, 620); (42926, 618);
    (42928, 670); (42929, 647); (42930, 669); (42931, 43859); (42932, 42933);
    (42934, 42935); (42936, 42937); (42938, 42939); (42940, 42941);
    (42942, 42943); (42944, 42945); (42946, 42947); (42948, 42900);
    (42949, 642); (42950, 7566); (42951, 42952); (42953, 42954);
    (42960, 42961); (42966, 42967); (42968, 42969); (42997, 42998);
    (65313, 65345); (65314, 65346); (65315, 65347); (65316, 65348);
    (65317, 65349); (65318, 65350); (65319, 65351); (65320, 65352);
    (65321, 65353); (65322, 65354); (65323, 65355); (65324, 65356);
    (65325, 65357); (65326, 65358); (65327, 65359); (65328, 65360);
    (65329, 65361); (65330, 65362); (65331, 65363); (65332, 65364);
    (65333, 65365); (65334, 65366); (65335, 65367); (65336, 65368);
    (65337, 65369); (65338, 65370); (66560, 66600); (66561, 66601);
    (66562, 66602); (66563, 66603); (66564, 66604); (66565, 66605);
    (66566, 66606); (66567, 66607); (66568, 66608); (66569, 66609);
    (66570, 66610); (66571, 66611); (66572, 66612); (66573, 66613);
    (66574, 66614); (66575, 66615); (66576, 66616); (66577, 66617);
    (66578, 66618); (66579, 66619); (66580, 66620); (66581, 66621);
    (66582, 66622); (66583, 66623); (66584, 66624); (66585, 66625);
    (66586, 66626); (66587, 66627); (66588, 66628); (66589, 66629);
    (66590, 66630); (66591, 66631); (66592, 66632); (66593, 66633);
    (66594, 66634); (66595, 66635); (66596, 66636); (66597, 66637);
    (66598, 66638); (66599, 66639); (66736, 66776); (66737, 66777);
    (66738, 66778); (66739, 66779); (66740, 66780); (66741, 66781);
    (66742, 66782); (66743, 66783); (66744, 66784); (66745, 66785);
    (66746, 66786); (66747, 66787); (66748, 66788); (66749, 66789);
    (66750, 66790); (66751, 66791); (66752, 66792); (66753, 66793);
    (66754, 66794); (66755, 66795); (66756, 66796); (66757, 66797);
    (66758, 66798); (66759, 66799); (66760, 66800); (66761, 66801);
    (66762, 66802); (66763, 66803); (66764, 66804); (66765, 66805);
    (66766, 66806); (66767, 66807); (66768, 66808); (66769, 66809);
    (66770, 66810); (66771, 66811); (66928, 66967); (66929, 66968);
    (66930, 66969); (66931, 66970); (66932, 66971); (66933, 66972);
    (66934, 66973); (66935, 66974); (66936, 66975); (66937, 66976);
    (66938, 66977); (66940, 66979); (66941, 66980); (66942, 66981);
    (66943, 66982); (66944, 66983); (66945, 66984); (66946, 66985);
    (66947, 66986); (66948, 66987); (66949, 66988); (66950, 66989);
    (66951, 66990); (66952, 66991); (66953, 66992); (66954, 66993);
    (66956, 66995); (66957, 66996); (66958, 66997); (66959, 66998);
    (66960, 66999); (66961, 67000); (66962, 67001); (66964, 67003);
    (66965, 67004); (68736, 68800); (68737, 68801); (68738, 68802);
    (68739, 68803); (68740, 68804); (68741, 68805); (68742, 68806);
    (68743, 68807); (68744, 68808); (68745, 68809); (68746, 68810);
    (68747, 68811); (68748, 68812); (68749, 68813); (68750, 68814);
    (68751, 68815); (68752, 68816); (68753, 68817); (68754, 68818);
    (68755, 68819); (68756, 68820); (68757, 68821); (68758, 68822);
    (68759, 68823); (68760, 68824); (68761, 68825); (68762, 68826);
    (68763, 68827); (68764, 68828); (68765, 68829); (68766, 68830);
    (68767, 68831); (68768, 68832); (68769, 68833); (68770, 68834);
    (68771, 68835); (68772, 68836); (68773, 68837); (68774, 68838);
    (68775, 68839); (68776, 68840); (68777, 68841); (68778, 68842);
    (68779, 68843); (68780, 68844); (68781, 68845); (68782, 68846);
    (68783, 68847); (68784, 68848); (68785, 68849); (68786, 68850);
    (71840, 71872); (71841, 71873); (71842, 71874); (71843, 71875);
    (71844, 71876); (71845, 71877); (71846, 71878); (71847, 71879);
    (71848, 71880); (71849, 71881); (71850, 71882); (71851, 71883);
    (71852, 71884); (71853, 71885); (71854, 71886); (71855, 71887);
    (71856, 71888); (71857, 71889); (71858, 71890); (71859, 71891);
    (71860, 71892); (71861, 71893); (71862, 71894); (71863, 71895);
    (71864, 71896); (71865, 71897); (71866, 71898); (71867, 71899);
    (71868, 71900); (71869, 71901); (71870, 71902); (71871, 71903);
    (93760, 93792); (93761, 93793); (93762, 93794); (93763, 93795);
    (93764, 93796); (93765, 93797); (93766, 93798); (93767, 93799);
    (93768, 93800); (93769, 93801); (93770, 93802); (93771, 93803);
    (93772, 93804); (93773, 93805); (93774, 93806); (93775, 93807);
    (93776, 93808); (93777, 93809); (93778, 93810); (93779, 93811);
    (93780, 93812); (93781, 93813); (93782, 93814); (93783, 93815);
    (93784, 93816); (93785, 93817); (93786, 93818); (93787, 93819);
    (93788, 93820); (93789, 93821); (93790, 93822); (93791, 93823);
    (125184, 125218); (125185, 125219); (125186, 125220); (125187, 125221);
    (125188, 125222); (125189, 125223); (125190, 125224); (125191, 125225);
    (125192, 125226); (125193, 125227); (125194, 125228); (125195, 125229);
    (125196, 125230); (125197, 125231); (125198, 125232); (125199, 125233);
    (125200, 125234); (125201, 125235); (125202, 125236); (125203, 125237);
    (125204, 125238); (125205, 125239); (125206, 125240); (125207, 125241);
    (125208, 125242); (125209, 125243); (125210, 125244); (125211, 125245);
    (125212, 125246); (125213, 125247); (125214, 125248); (125215, 125249);
    (125216, 125250); (125217, 125251)
  ].

(** Case_Ignorable, as inclusive ranges. *)
Definition CASE_IGNORABLE : list (N * N) :=
  [
    (39, 39); (46, 46); (58, 58); (94, 94); (96, 96); (168, 168); (173, 173);
    (175, 175); (180, 180); (183, 184); (688, 879); (884, 885); (890, 890);
    (900, 901); (903, 903); (1155, 1161); (1369, 1369); (1375, 1375);
    (1425, 1469); (1471, 1471); (1473, 1474); (1476, 1477); (1479, 1479);
    (1524, 1524); (1536, 1541); (1552, 1562); (1564, 1564); (1600, 1600);
    (1611, 1631); (1648, 1648); (1750, 1757); (1759, 1768); (1770, 1773);
    (1807, 1807); (1809, 1809); (1840, 1866); (1958, 1968); (2027, 2037);
    (2042, 2042); (2045, 2045); (2070, 2093); (2137, 2139); (2184, 2184);
    (2192, 2193); (2200, 2207); (2249, 2306); (2362, 2362); (2364, 2364);
    (2369, 2376); (2381, 2381); (2385, 2391); (2402, 2403); (2417, 2417);
    (2433, 2433); (2492, 2492); (2497, 2500); (2509, 2509); (2530, 2531);
    (2558, 2558); (2561, 2562); (2620, 2620); (2625, 2626); (2631, 2632);
    (2635, 2637); (2641, 2641); (2672, 2673); (2677, 2677); (2689, 2690);
    (2748, 2748); (2753, 2757); (2759, 2760); (2765, 2765); (2786, 2787);
    (2810, 2815); (2817, 2817); (2876, 2876); (2879, 2879); (2881, 2884);
    (2893, 2893); (2901, 2902); (2914, 2915); (2946, 2946); (3008, 3008);
    (3021, 3021); (3072, 3072); (3076, 3076); (3132, 3132); (3134, 3136);
    (3142, 3144); (3146, 3149); (3157, 3158); (3170, 3171); (3201, 3201);
    (3260, 3260); (3263, 3263); (3270, 3270); (3276, 3277); (3298, 3299);
    (3328, 3329); (3387, 3388); (3393, 3396); (3405, 3405); (3426, 3427);
    (3457, 3457); (3530, 3530); (3538, 3540); (3542, 3542); (3633, 3633);
    (3636, 3642); (3654, 3662); (3761, 3761); (3764, 3772); (3782, 3782);
    (3784, 3789); (3864, 3865); (3893, 3893); (3895, 3895); (3897, 3897);
    (3953, 3966); (3968, 3972); (3974, 3975); (3981, 3991); (3993, 4028);
    (4038, 4038); (4141, 4144); (4146, 4151); (4153, 4154); (4157, 4158);
    (4184, 4185); (4190, 4192); (4209, 4212); (4226, 4226); (4229, 4230);
    (4237, 4237); (4253, 4253); (4348, 4348); (4957, 4959); (5906, 5908);
    (5938, 5939); (5970, 5971); (6002, 6003); (6068, 6069); (6071, 6077);
    (6086, 6086); (6089, 6099); (6103, 6103); (6109, 6109); (6155, 6159);
    (6211, 6211); (6277, 6278); (6313, 6313); (6432, 6434); (6439, 6440);
    (6450, 6450); (6457, 6459); (6679, 6680); (6683, 6683); (6742, 6742);
    (6744, 6750); (6752, 6752); (6754, 6754); (6757, 6764); (6771, 6780);
    (6783, 6783); (6823, 6823); (6832, 6862); (6912, 6915); (6964, 6964);
    (6966, 6970); (6972, 6972); (6978, 6978); (7019, 7027); (7040, 7041);
    (7074, 7077); (7080, 7081); (7083, 7085); (7142, 7142); (7144, 7145);
    (7149, 7149); (7151, 7153); (7212, 7219); (7222, 7223); (7288, 7293);
    (7376, 7378); (7380, 7392); (7394, 7400); (7405, 7405); (7412, 7412);
    (7416, 7417); (7468, 7530); (7544, 7544); (7579, 7679); (8125, 8125);
    (8127, 8129); (8141, 8143); (8157, 8159); (8173, 8175); (8189, 8190);
    (8203, 8207); (8216, 8217); (8228, 8228); (8231, 8231); (8234, 8238);
    (8288, 8292); (8294, 8303); (8305, 8305); (8319, 8319); (8336, 8348);
    (8400, 8432); (11388, 11389); (11503, 11505); (11631, 11631);
    (11647, 11647); (11744, 11775); (11823, 11823); (12293, 12293);
    (12330, 12333); (12337, 12341); (12347, 12347); (12441, 12446);
    (12540, 12542); (40981, 40981); (42232, 42237); (42508, 42508);
    (42607, 42610); (42612, 42621); (42623, 42623); (42652, 42655);
    (42736, 42737); (42752, 42785); (42864, 42864); (42888, 42890);
    (42994, 42996); (43000, 43001); (43010, 43010); (43014, 43014);
    (43019, 43019); (43045, 43046); (43052, 43052); (43204, 43205);
    (43232, 43249); (43263, 43263); (43302, 43309); (43335, 43345);
    (43392, 43394); (43443, 43443); (43446, 43449); (43452, 43453);
    (43471, 43471); (43493, 43494); (43561, 43566); (43569, 43570);
    (43573, 43574); (43587, 43587); (43596, 43596); (43632, 43632);
    (43644, 43644); (43696, 43696); (43698, 43700); (43703, 43704);
    (43710, 43711); (43713, 43713); (43741, 43741); (43756, 43757);
    (43763, 43764); (43766, 43766); (43867, 43871); (43881, 43883);
    (44005, 44005); (44008, 44008); (44013, 44013); (64286, 64286);
    (64434, 64450); (65024, 65039); (65043, 65043); (65056, 65071);
    (65106, 65106); (65109, 65109); (65279, 65279); (65287, 65287);
    (65294, 65294); (65306, 65306); (65342, 65342); (65344, 65344);
    (65392, 65392); (65438, 65439); (65507, 65507); (65529, 65531);
    (66045, 66045); (66272, 66272); (66422, 66426); (67456, 67461);
    (67463, 67504); (67506, 67514); (68097, 68099); (68101, 68102);
    (68108, 68111); (68152, 68154); (68159, 68159); (68325, 68326);
    (68900, 68903); (69291, 69292); (69446, 69456); (69506, 69509);
    (69633, 69633); (69688, 69702); (69744, 69744); (69747, 69748);
    (69759, 69761); (69811, 69814); (69817, 69818); (69821, 69821);
    (69826, 69826); (69837, 69837); (69888, 69890); (69927, 69931);
    (69933, 69940); (70003, 70003); (70016, 70017); (70070, 70078);
    (70089, 70092); (70095, 70095); (70191, 70193); (70196, 70196);
    (70198, 70199); (70206, 70206); (70367, 70367); (70371, 70378);
    (70400, 70401); (70459, 70460); (70464, 70464); (70502, 70508);
    (70512, 70516); (70712, 70719); (70722, 70724); (70726, 70726);
    (70750, 70750); (70835, 70840); (70842, 70842); (70847, 70848);
    (70850, 70851); (71090, 71093); (71100, 71101); (71103, 71104);
    (71132, 71133); (71219, 71226); (71229, 71229); (71231, 71232);
    (71339, 71339); (71341, 71341); (71344, 71349); (71351, 71351);
    (71453, 71455); (71458, 71461); (71463, 71467); (71727, 71735);
    (71737, 71738); (71995, 71996); (71998, 71998); (72003, 72003);
    (72148, 72151); (72154, 72155); (72160, 72160); (72193, 72202);
    (72243, 72248); (72251, 72254); (72263, 72263); (72273, 72278);
    (72281, 72283); (72330, 72342); (72344, 72345); (72752, 72758);
    (72760, 72765); (72767, 72767); (72850, 72871); (72874, 72880);
    (72882, 72883); (72885, 72886); (73009, 73014); (73018, 73018);
    (73020, 73021); (73023, 73029); (73031, 73031); (73104, 73105);
    (73109, 73109); (73111, 73111); (73459, 73460); (78896, 78904);
    (92912, 92916); (92976, 92982); (92992, 92995); (94031, 94031);
    (94095, 94111); (94176, 94177); (94179, 94180); (110576, 110579);
    (110581, 110587); (110589, 110590); (113821, 113822); (113824, 113827);
    (118528, 118573); (118576, 118598); (119143, 119145); (119155, 119170);
    (119173, 119179); (119210, 119213); (119362, 119364); (121344, 121398);
    (121403, 121452); (121461, 121461); (121476, 121476); (121499, 121503);
    (121505, 121519); (122880, 122886); (122888, 122904); (122907, 122913);
    (122915, 122916); (122918, 122922); (123184, 123197); (123566, 123566);
    (123628, 123631); (125136, 125142); (125252, 125259); (127995, 127999);
    (917505, 917505); (917536, 917631); (917760, 917999)
  ].

(** Cased and not Case_Ignorable, as inclusive ranges. *)
Definition CASED : list (N * N) :=
  [
    (65, 90); (97, 122); (170, 170); (181, 181); (186, 186); (192, 214);
    (216, 246); (248, 442); (444, 447); (452, 659); (661, 687); (880, 883);
    (886, 887); (891, 893); (895, 895); (902, 902); (904, 906); (908, 908);
    (910, 929); (931, 1013); (1015, 1153); (1162, 1327); (1329, 1366);
    (1376, 1416); (4256, 4293); (4295, 4295); (4301, 4301); (4304, 4346);
    (4349, 4351); (5024, 5109); (5112, 5117); (7296, 7304); (7312, 7354);
    (7357, 7359); (7424, 7467); (7531, 7543); (7545, 7578); (7680, 7957);
    (7960, 7965); (7968, 8005); (8008, 8013); (8016, 8023); (8025, 8025);
    (8027, 8027); (8029, 8029); (8031, 8061); (8064, 8116); (8118, 8124);
    (8126, 8126); (8130, 8132); (8134, 8140); (8144, 8147); (8150, 8155);
    (8160, 8172); (8178, 8180); (8182, 8188); (8450, 8450); (8455, 8455);
    (8458, 8467); (8469, 8469); (8473, 8477); (8484, 8484); (8486, 8486);
    (8488, 8488); (8490, 8493); (8495, 8500); (8505, 8505); (8508, 8511);
    (8517, 8521); (8526, 8526); (8544, 8575); (8579, 8580); (9398, 9449);
    (11264, 11387); (11390, 11492); (11499, 11502); (11506, 11507);
    (11520, 11557); (11559, 11559); (11565, 11565); (42560, 42605);
    (42624, 42651); (42786, 42863); (42865, 42887); (42891, 42894);
    (42896, 42954); (42960, 42961); (42963, 42963); (42965, 42969);
    (42997, 42998); (43002, 43002); (43824, 43866); (43872, 43880);
    (43888, 43967); (64256, 64262); (64275, 64279); (65313, 65338);
    (65345, 65370); (66560, 66639); (66736, 66771); (66776, 66811);
    (66928, 66938); (66940, 66954); (66956, 66962); (66964, 66965);
    (66967, 66977); (66979, 66993); (66995, 67001); (67003, 67004);
    (68736, 68786); (68800, 68850); (71840, 71903); (93760, 93823);
    (119808, 119892); (119894, 119964); (119966, 119967); (119970, 119970);
    (119973, 119974); (119977, 119980); (119982, 119993); (119995, 119995);
    (119997, 120003); (120005, 120069); (120071, 120074); (120077, 120084);
    (120086, 120092); (120094, 120121); (120123, 120126); (120128, 120132);
    (120134, 120134); (120138, 120144); (120146, 120485); (120488, 120512);
    (120514, 120538); (120540, 120570); (120572, 120596); (120598, 120628);
    (120630, 120654); (120656, 120686); (120688, 120712); (120714, 120744);
    (120746, 120770); (120772, 120779); (122624, 122633); (122635, 122654);
    (125184, 125251); (127280, 127305); (127312, 127337); (127344, 127369)
  ].

End Unicode.

(* ================================================================== *)
(** * JavaScript strings *)
(* ================================================================== *)

Module JS.

(** A JavaScript string is a sequence of UTF-16 code units; [length] and
    [slice] count code units. *)
Definition char := N.
Definition jsstring := list char.
Bind Scope N_scope with char.

(** Literals of the development are written as ASCII Rocq strings. *)
Definition str (s : string) : jsstring :=
  List.map N_of_ascii (list_ascii_of_string s).

Definition in_range (lo hi c : N) : bool := (lo <=? c)%N && (c <=? hi)%N.

Fixpoint eqs (a b : jsstring) : bool :=
  match a, b with
  | [], [] => true
  | x :: a', y :: b' => (x =? y)%N && eqs a' b'
  | _, _ => false
  end.

(** Truthiness of a string: the empty string is the only falsy one. *)
Definition truthy (s : jsstring) : bool :=
  match s with [] => false | _ :: _ => true end.

(** WhiteSpace and LineTerminator code units: what [trim] strips and what
    the class escape [\s] matches. *)
Definition is_space (c : char) : bool :=
  in_range 9 13 c || (c =? 32)%N || (c =? 160)%N || (c =? 5760)%N
  || in_range 8192 8202 c || (c =? 8232)%N || (c =? 8233)%N
  || (c =? 8239)%N || (c =? 8287)%N || (c =? 12288)%N || (c =? 65279)%N.

Definition is_digit (c : char) : bool := in_range 48 57 c.

(** [\w]: ASCII letters, digits and underscore. *)
Definition is_word (c : char) : bool :=
  in_range 97 122 c || in_range 65 90 c || is_digit c || (c =? 95)%N.

Fixpoint trimStart (s : jsstring) : jsstring :=
  match s with
  | c :: s' => if is_space c then trimStart s' else s
  | [] => []
  end.

Definition trimEnd (s : jsstring) : jsstring := rev (trimStart (rev s)).

Definition trim (s : jsstring) : jsstring := trimEnd (trimStart s).

(** ** Case mapping *)

(** The case pairs of Basic Latin and of the Latin-1 Supplement, one unit
    to one unit: what [RegExp.canonicalize] reads for the [i] flag. *)
Definition lower_char (c : char) : char :=
  if in_range 65 90 c then (c + 32)%N
  else if in_range 192 222 c && negb (c =? 215)%N then (c + 32)%N
  else c.

Definition upper_char (c : char) : char :=
  if in_range 97 122 c then (c - 32)%N
  else if in_range 224 254 c && negb (c =? 247)%N then (c - 32)%N
  else c.

(** [String.prototype.toLowerCase] reads the string as code points (a
    high surrogate followed by a low one is one code point, any other
    surrogate stands for itself), maps each code point by the Unicode
    default case conversion, and writes the result back as units. *)

(** The two halves of a surrogate pair. *)
Definition is_high (c : N) : bool := in_range 55296 56319 c.
Definition is_low (c : N) : bool := in_range 56320 57343 c.

(** StringToCodePoints. *)
Fixpoint code_points (s : jsstring) : list N :=
  match s with
  | [] => []
  | c :: r =>
      match r with
      | d :: r' =>
          if is_high c && is_low d
          then (65536 + (c - 55296) * 1024 + (d - 56320))%N :: code_points r'
          else c :: code_points r
      | [] => [c]
      end
  end.

(** The units of one code point. *)
Definition units_of (cp : N) : jsstring :=
  if (65535 <? cp)%N && (cp <=? 1114111)%N
  then let v := (cp - 65536)%N in
       [(55296 + N.shiftr v 10)%N; (56320 + N.land v 1023)%N]
  else [cp].

(** CodePointsToString. *)
Definition from_code_points (cps : list N) : jsstring :=
  flat_map units_of cps.

Definition in_ranges (table : list (N * N)) (c : N) : bool :=
  existsb (fun r => in_range (fst r) (snd r) c) table.

(** The simple lower-case mapping of a code point. *)
Definition lower_point (c : N) : N :=
  if (c <? 128)%N then (if in_range 65 90 c then (c + 32)%N else c)
  else match find (fun p => (fst p =? c)%N) Unicode.LOWER with
       | Some p => snd p
       | None => c
       end.

(** The next code point that is not case-ignorable is cased.  The same
    scan serves both directions of the condition Final_Sigma. *)
Fixpoint cased_next (cps : list N) : bool :=
  match cps with
  | [] => false
  | c :: r =>
      if in_ranges Unicode.CASE_IGNORABLE c then cased_next r
      else in_ranges Unicode.CASED c
  end.

(** The mapping of the code point [c], between the code points [before]
    it (the nearest first) and the code points [after] it: U+03A3 is
    U+03C2 where Final_Sigma holds and U+03C3 elsewhere, U+0130 is
    U+0069 U+0307, any other code point has its simple mapping. *)
Definition lower_of (before : list N) (c : N) (after : list N) : list N :=
  if (c =? 931)%N then
    [if cased_next before && negb (cased_next after) then 962%N else 963%N]
  else if (c =? 304)%N then [105%N; 775%N]
  else [lower_point c].

Fixpoint lower_points (before : list N) (cps : list N) : list N :=
  match cps with
  | [] => []
  | c :: r => lower_of before c r ++ lower_points (c :: before) r
  end.

Definition toLowerCase (s : jsstring) : jsstring :=
  from_code_points (lower_points [] (code_points s)).

(** [s.slice(0, n)] for an integral [n >= 0]. *)
Definition slice0 (s : jsstring) (n : Z) : jsstring := firstn (Z.to_nat n) s.

(** [s.slice(n)] for an index [0 <= n]. *)
Definition sliceFrom (s : jsstring) (n : nat) : jsstring := skipn n s.

(** [s.indexOf(c)] for a one-unit needle; [None] is JavaScript's [-1]. *)
Fixpoint indexOf_char (c : char) (s : jsstring) : option nat :=
  match s with
  | [] => None
  | x :: s' => if (x =? c)%N then Some 0
               else option_map S (indexOf_char c s')
  end.

Fixpoint starts_with (p s : jsstring) : bool :=
  match p, s with
  | [], _ => true
  | x :: p', y :: s' => (x =? y)%N && starts_with p' s'
  | _ :: _, [] => false
  end.

(** [s.includes(p)]. *)
Fixpoint includes (s p : jsstring) : bool :=
  starts_with p s ||
  match s with
  | [] => false
  | _ :: s' => includes s' p
  end.

(** [s.replace(p, r)] with a string pattern: the first occurrence only.
    The replacements used by the sources contain no [$]. *)
Fixpoint replace_first (s p r : jsstring) : jsstring :=
  if starts_with p s then r ++ skipn (List.length p) s
  else match s with
       | [] => []
       | c :: s' => c :: replace_first s' p r
       end.

(** [xs.join(sep)]. *)
Fixpoint join (sep : jsstring) (xs : list jsstring) : jsstring :=
  match xs with
  | [] => []
  | [x] => x
  | x :: xs' => x ++ sep ++ join sep xs'
  end.

(** [s.split(c)] for a one-unit separator. *)
Fixpoint split_char (c : char) (s : jsstring) : list jsstring :=
  match s with
  | [] => [[]]
  | x :: s' =>
      if (x =? c)%N then [] :: split_char c s'
      else match split_char c s' with
           | l :: ls => (x :: l) :: ls
           | [] => [[x]]
           end
  end.

(** [c.repeat(n)]: a [RangeError] (here [None]) for a negative count. *)
Definition repeat_str (s : jsstring) (n : Z) : option jsstring :=
  if (n <? 0)%Z then None
  else Some (List.concat (List.repeat s (Z.to_nat n))).

(** [String.fromCodePoint(n)]: a [RangeError] above U+10FFFF, a surrogate
    pair above U+FFFF. *)
Definition fromCodePoint (n : N) : option jsstring :=
  if (1114111 <? n)%N then None
  else if (n <=? 65535)%N then Some [n]
  else let v := (n - 65536)%N in
       Some [(55296 + N.shiftr v 10)%N; (56320 + N.land v 1023)%N].

(** Value of a hexadecimal or decimal digit. *)
Definition digit_value (c : char) : option N :=
  if in_range 48 57 c then Some (c - 48)%N
  else if in_range 97 102 c then Some (c - 87)%N
  else if in_range 65 70 c then Some (c - 55)%N
  else None.

(** [parseInt(s, radix)] on a string made of digits of that radix. *)
Definition parseInt (radix : N) (s : jsstring) : N :=
  fold_left (fun acc c =>
               match digit_value c with
               | Some d => (acc * radix + d)%N
               | None => acc
               end) s 0%N.

(** Comparison of strings by code units, the default order of
    [Array.prototype.sort]. *)
Fixpoint ltb_str (a b : jsstring) : bool :=
  match a, b with
  | [], [] => false
  | [], _ :: _ => true
  | _ :: _, [] => false
  | x :: a', y :: b' =>
      if (x <? y)%N then true
      else if (y <? x)%N then false
      else ltb_str a' b'
  end.

(** Stable insertion sort for a "less or equal" test: the result of
    [Array.prototype.sort] for a consistent comparator. *)
Section Sort.

Variable A : Type.
Variable leb : A -> A -> bool.

Fixpoint insert_sorted (x : A) (l : list A) : list A :=
  match l with
  | [] => [x]
  | y :: l' => if leb x y then x :: l else y :: insert_sorted x l'
  end.

Definition sort (l : list A) : list A :=
  fold_right insert_sorted [] l.

End Sort.

End JS.

(* ================================================================== *)
(** * Regular expressions *)
(* ================================================================== *)

(** The backtracking matcher of ECMAScript (non-unicode mode) for the
    syntax the sources use: characters, classes, groups, alternation,
    greedy and lazy quantifiers, back-references, [^], [$], [\b], and the
    flags [g] and [i]. *)
Module RegExp.
Import JS.

Inductive citem : Type :=
| CRange (lo hi : char)          (* a single unit is [CRange c c] *)
| CDigit (neg : bool)            (* \d, \D *)
| CWord (neg : bool)             (* \w, \W *)
| CSpace (neg : bool).           (* \s, \S *)

Inductive node : Type :=
| NEmpty
| NChar (c : char)
| NAny                                           (* . *)
| NClass (neg : bool) (items : list citem)
| NSeq (a b : node)
| NAlt (a b : node)
| NRep (min : nat) (max : option nat) (greedy : bool) (a : node)
| NGroup (idx : nat) (a : node)
| NBackref (idx : nat)
| NBol
| NEol
| NWordB (neg : bool).

Record t : Type := mk {
  prog : option node;      (* [None]: the source is not a valid pattern *)
  global : bool;
  ignoreCase : bool
}.

(** ** Matching *)

Record mstate : Type := mkst {
  m_prev : option char;               (* the unit before the position *)
  m_rest : jsstring;                  (* the input from the position on *)
  m_pos : nat;
  m_caps : list (nat * jsstring)
}.

Definition cont := mstate -> option mstate.

(** Canonicalize of the [i] flag: the upper-case form, one unit to one
    unit.  A unit outside ASCII never canonicalizes to an ASCII one, and
    the letters outside ASCII that the patterns of the repository name
    lie in the Latin-1 Supplement, whose case pairs [upper_char] has. *)
Definition canonicalize (ic : bool) (c : char) : char :=
  if ic then upper_char c else c.

Definition in_range_ic (ic : bool) (lo hi c : char) : bool :=
  in_range lo hi c ||
  (ic && (in_range lo hi (upper_char c) || in_range lo hi (lower_char c))).

Definition citem_match (ic : bool) (c : char) (it : citem) : bool :=
  match it with
  | CRange lo hi => in_range_ic ic lo hi c
  | CDigit neg => xorb neg (is_digit c)
  | CWord neg => xorb neg (is_word c)
  | CSpace neg => xorb neg (is_space c)
  end.

Definition class_match (ic : bool) (neg : bool) (items : list citem)
  (c : char) : bool :=
  xorb neg (existsb (citem_match ic c) items).

Definition is_line_terminator (c : char) : bool :=
  (c =? 10)%N || (c =? 13)%N || (c =? 8232)%N || (c =? 8233)%N.

Definition step_char (p : char -> bool) (st : mstate) (k : cont)
  : option mstate :=
  match m_rest st with
  | [] => None
  | c :: r =>
      if p c then k (mkst (Some c) r (S (m_pos st)) (m_caps st)) else None
  end.

Definition word_before (st : mstate) : bool :=
  match m_prev st with Some c => is_word c | None => false end.

Definition word_after (st : mstate) : bool :=
  match m_rest st with c :: _ => is_word c | [] => false end.

Fixpoint lookup_cap (i : nat) (caps : list (nat * jsstring))
  : option jsstring :=
  match caps with
  | [] => None
  | (j, s) :: caps' => if Nat.eqb i j then Some s else lookup_cap i caps'
  end.

Definition clear_caps (grp : list nat) (st : mstate) : mstate :=
  match grp with
  | [] => st
  | _ => mkst (m_prev st) (m_rest st) (m_pos st)
           (filter (fun p => negb (existsb (Nat.eqb (fst p)) grp))
              (m_caps st))
  end.

(** Indices of the capturing groups inside a node. *)
Fixpoint groups (r : node) : list nat :=
  match r with
  | NSeq a b | NAlt a b => groups a ++ groups b
  | NRep _ _ _ a => groups a
  | NGroup i a => i :: groups a
  | _ => []
  end.

(** Consume a literal sequence of units (a back-reference). *)
Fixpoint step_string (ic : bool) (s : jsstring) (st : mstate) (k : cont)
  : option mstate :=
  match s with
  | [] => k st
  | c :: s' =>
      step_char (fun x => (canonicalize ic x =? canonicalize ic c)%N) st
        (fun st' => step_string ic s' st' k)
  end.

(** RepeatMatcher.  [fuel] bounds the number of iterations: the first
    [min] may be empty, each later one consumes at least one unit. *)
Fixpoint rep_loop (step : mstate -> cont -> option mstate)
  (grp : list nat) (greedy : bool) (fuel : nat)
  (min : nat) (max : option nat) (st : mstate) (k : cont)
  : option mstate :=
  match fuel with
  | O => None
  | S fuel' =>
      match max with
      | Some O => k st
      | _ =>
          let max' := option_map Nat.pred max in
          let st0 := clear_caps grp st in
          match min with
          | S min' =>
              step st0 (fun st1 =>
                rep_loop step grp greedy fuel' min' max' st1 k)
          | O =>
              let iter :=
                step st0 (fun st1 =>
                  if Nat.eqb (m_pos st1) (m_pos st) then None
                  else rep_loop step grp greedy fuel' O max' st1 k) in
              if greedy then
                match iter with Some r => Some r | None => k st end
              else
                match k st with Some r => Some r | None => iter end
          end
      end
  end.

Fixpoint m (ic : bool) (r : node) (st : mstate) (k : cont)
  : option mstate :=
  match r with
  | NEmpty => k st
  | NChar c =>
      step_char (fun x => (canonicalize ic x =? canonicalize ic c)%N) st k
  | NAny => step_char (fun x => negb (is_line_terminator x)) st k
  | NClass neg items => step_char (class_match ic neg items) st k
  | NSeq a b => m ic a st (fun st' => m ic b st' k)
  | NAlt a b =>
      match m ic a st k with
      | Some res => Some res
      | None => m ic b st k
      end
  | NRep min max greedy a =>
      rep_loop (m ic a) (groups a) greedy
        (min + List.length (m_rest st) + 1) min max st k
  | NGroup i a =>
      m ic a st (fun st' =>
        k (mkst (m_prev st') (m_rest st') (m_pos st')
             ((i, firstn (m_pos st' - m_pos st) (m_rest st))
                :: m_caps st')))
  | NBackref i =>
      match lookup_cap i (m_caps st) with
      | None => k st
      | Some s => step_string ic s st k
      end
  | NBol => match m_prev st with None => k st | Some _ => None end
  | NEol => match m_rest st with [] => k st | _ :: _ => None end
  | NWordB neg =>
      if xorb neg (xorb (word_before st) (word_after st)) then k st
      else None
  end.

(** One match: where it starts, the matched units, the captures. *)
Record mresult : Type := mkres {
  r_index : nat;
  r_text : jsstring;
  r_caps : list (nat * jsstring);
  r_end : mstate
}.

(** A match attempt at one position. *)
Definition match_at (re : t) (prev : option char) (rest : jsstring)
  (pos : nat) : option mresult :=
  match prog re with
  | None => None
  | Some p =>
      match m (ignoreCase re) p (mkst prev rest pos []) Some with
      | None => None
      | Some e =>
          Some (mkres pos (firstn (m_pos e - pos) rest) (m_caps e) e)
      end
  end.

(** [RegExp.prototype.exec] from a position: the leftmost match. *)
Fixpoint search_from (re : t) (prev : option char) (rest : jsstring)
  (pos : nat) : option mresult :=
  match match_at re prev rest pos with
  | Some res => Some res
  | None =>
      match rest with
      | [] => None
      | c :: rest' => search_from re (Some c) rest' (S pos)
      end
  end.

Definition exec (re : t) (s : jsstring) : option mresult :=
  search_from re None s 0.

(** Capture [i] of a match; [None] is [undefined]. *)
Definition group (i : nat) (res : mresult) : option jsstring :=
  match i with
  | O => Some (r_text res)
  | _ => lookup_cap i (r_caps res)
  end.

(** The successive matches of a [g] pattern.  [lastIndex] starts at 0 in
    both [String.prototype.match] and [String.prototype.replace], and an
    empty match advances it by one unit. *)
Inductive segment : Type :=
| Lit (c : char)
| Hit (res : mresult).

Fixpoint scan (fuel : nat) (re : t) (prev : option char)
  (rest : jsstring) (pos : nat) : list segment :=
  match fuel with
  | O => List.map Lit rest
  | S fuel' =>
      let advance :=
        match rest with
        | [] => []
        | c :: rest' => Lit c :: scan fuel' re (Some c) rest' (S pos)
        end in
      match match_at re prev rest pos with
      | None => advance
      | Some res =>
          let e := r_end res in
          if Nat.eqb (m_pos e) pos then Hit res :: advance
          else Hit res :: scan fuel' re (m_prev e) (m_rest e) (m_pos e)
      end
  end.

Definition scan_all (re : t) (s : jsstring) : list segment :=
  scan (S (List.length s)) re None s 0.

Definition hits (segs : list segment) : list mresult :=
  flat_map (fun sg => match sg with Hit r => [r] | Lit _ => [] end) segs.

(** [s.match(re)] for a [g] pattern: the matched substrings ([[]] stands
    for [null]). *)
Definition match_all (re : t) (s : jsstring) : list jsstring :=
  List.map r_text (hits (scan_all re s)).

(** [s.replace(re, f)]: every match for a [g] pattern, the first one
    otherwise.  [f] may raise. *)
Fixpoint rebuild (f : mresult -> option jsstring) (segs : list segment)
  : option jsstring :=
  match segs with
  | [] => Some []
  | Lit c :: segs' => option_map (cons c) (rebuild f segs')
  | Hit r :: segs' =>
      match f r, rebuild f segs' with
      | Some x, Some y => Some (x ++ y)
      | _, _ => None
      end
  end.

Definition replace_fn (re : t) (f : mresult -> option jsstring)
  (s : jsstring) : option jsstring :=
  if global re then rebuild f (scan_all re s)
  else match exec re s with
       | None => Some s
       | Some res =>
           option_map
             (fun x => firstn (r_index res) s ++ x
                       ++ skipn (r_index res + List.length (r_text res)) s)
             (f res)
       end.

(** [s.replace(re, r)] with a replacement string free of [$]. *)
Fixpoint rebuild_const (r : jsstring) (segs : list segment) : jsstring :=
  match segs with
  | [] => []
  | Lit c :: segs' => c :: rebuild_const r segs'
  | Hit _ :: segs' => r ++ rebuild_const r segs'
  end.

Definition replace (re : t) (r : jsstring) (s : jsstring) : jsstring :=
  if global re then rebuild_const r (scan_all re s)
  else match exec re s with
       | None => s
       | Some res =>
           firstn (r_index res) s ++ r
           ++ skipn (r_index res + List.length (r_text res)) s
       end.

End RegExp.

(** ** Pattern syntax *)

(** Reading a pattern source, as [new RegExp(source, flags)] and the
    literal [/source/flags] do.  In the sources below a double quote is
    written [\x22] and a unit outside ASCII [\uXXXX]; both are escapes of
    the pattern language itself, so the pattern read is the same.  A
    source that is no pattern gives [prog = None] (JavaScript raises a
    [SyntaxError] when the module loads); the patterns of the repository
    are all well formed. *)
Module RegExpSyntax.
Import JS RegExp.
Local Open Scope char_scope.

Definition code (a : ascii) : char := N_of_ascii a.

Inductive escape : Type :=
| EChar (c : char)
| EItem (it : citem)
| EWordB (neg : bool)
| EBackref (i : nat).

Definition hex2 (a b : ascii) : option char :=
  match digit_value (code a), digit_value (code b) with
  | Some x, Some y => Some (x * 16 + y)%N
  | _, _ => None
  end.

Definition hex4 (a b c d : ascii) : option char :=
  match hex2 a b, hex2 c d with
  | Some x, Some y => Some (x * 256 + y)%N
  | _, _ => None
  end.

Definition is_alnum (a : ascii) : bool :=
  let c := code a in
  in_range 97 122 c || in_range 65 90 c || in_range 48 57 c.

(** What follows a backslash. *)
Definition parse_escape (in_class : bool) (inp : list ascii)
  : option (escape * list ascii) :=
  match inp with
  | "d" :: r => Some (EItem (CDigit false), r)
  | "D" :: r => Some (EItem (CDigit true), r)
  | "w" :: r => Some (EItem (CWord false), r)
  | "W" :: r => Some (EItem (CWord true), r)
  | "s" :: r => Some (EItem (CSpace false), r)
  | "S" :: r => Some (EItem (CSpace true), r)
  | "b" :: r => Some (if in_class then EChar 8%N else EWordB false, r)
  | "B" :: r => if in_class then None else Some (EWordB true, r)
  | "n" :: r => Some (EChar 10%N, r)
  | "r" :: r => Some (EChar 13%N, r)
  | "t" :: r => Some (EChar 9%N, r)
  | "f" :: r => Some (EChar 12%N, r)
  | "v" :: r => Some (EChar 11%N, r)
  | "x" :: a :: b :: r =>
      match hex2 a b with Some c => Some (EChar c, r) | None => None end
  | "u" :: a :: b :: c :: d :: r =>
      match hex4 a b c d with Some u => Some (EChar u, r) | None => None end
  | a :: r =>
      if in_range 49 57 (code a) then
        if in_class then None
        else Some (EBackref (N.to_nat (code a - 48)), r)
      else if is_alnum a then None
      else Some (EChar (code a), r)
  | [] => None
  end.

Definition parse_class_atom (inp : list ascii)
  : option (escape * list ascii) :=
  match inp with
  | "\" :: r => parse_escape true r
  | a :: r => Some (EChar (code a), r)
  | [] => None
  end.

(** The items of a class, up to the closing bracket. *)
Fixpoint parse_class (fuel : nat) (inp : list ascii) (acc : list citem)
  : option (list citem * list ascii) :=
  match fuel with
  | O => None
  | S fuel' =>
      match inp with
      | "]" :: r => Some (rev acc, r)
      | _ =>
          match parse_class_atom inp with
          | Some (EChar lo, "-" :: "]" :: r) =>
              parse_class fuel' ("-" :: "]" :: r) (CRange lo lo :: acc)
          | Some (EChar lo, "-" :: r) =>
              match parse_class_atom r with
              | Some (EChar hi, r') =>
                  if (lo <=? hi)%N
                  then parse_class fuel' r' (CRange lo hi :: acc)
                  else None
              | Some (EItem it, r') =>
                  parse_class fuel' r'
                    (it :: CRange 45%N 45%N :: CRange lo lo :: acc)
              | _ => None
              end
          | Some (EChar c, r) => parse_class fuel' r (CRange c c :: acc)
          | Some (EItem it, r) => parse_class fuel' r (it :: acc)
          | _ => None
          end
      end
  end.

Fixpoint parse_nat (inp : list ascii) (acc : option nat)
  : option nat * list ascii :=
  match inp with
  | a :: r =>
      if is_digit (code a)
      then parse_nat r
             (Some (10 * match acc with Some n => n | None => 0 end
                    + N.to_nat (code a - 48)))
      else (acc, inp)
  | [] => (acc, inp)
  end.

(** [{n}], [{n,}] and [{n,m}]. *)
Definition parse_braces (inp : list ascii)
  : option (nat * option nat * list ascii) :=
  match parse_nat inp None with
  | (Some lo, "}" :: r) => Some (lo, Some lo, r)
  | (Some lo, "," :: r) =>
      match parse_nat r None with
      | (None, "}" :: r') => Some (lo, None, r')
      | (Some hi, "}" :: r') => Some (lo, Some hi, r')
      | _ => None
      end
  | _ => None
  end.

Definition lazy_suffix (min : nat) (max : option nat) (a : node)
  (inp : list ascii) : node * list ascii :=
  match inp with
  | "?" :: r => (NRep min max false a, r)
  | _ => (NRep min max true a, inp)
  end.

(** An optional quantifier after an atom. *)
Definition parse_quant (a : node) (inp : list ascii) : node * list ascii :=
  match inp with
  | "*" :: r => lazy_suffix 0 None a r
  | "+" :: r => lazy_suffix 1 None a r
  | "?" :: r => lazy_suffix 0 (Some 1) a r
  | "{" :: r =>
      match parse_braces r with
      | Some (lo, hi, r') => lazy_suffix lo hi a r'
      | None => (a, inp)
      end
  | _ => (a, inp)
  end.

Definition seq (a b : node) : node :=
  match b with NEmpty => a | _ => NSeq a b end.

Definition quantified (a : node) (inp : list ascii) (gi : nat)
  : option (node * list ascii * nat) :=
  let (q, r) := parse_quant a inp in Some (q, r, gi).

(** Disjunction, Alternative and Term; [gi] counts the capturing groups
    opened so far. *)
Fixpoint parse_disj (fuel : nat) (inp : list ascii) (gi : nat)
  : option (node * list ascii * nat) :=
  match fuel with
  | O => None
  | S fuel' =>
      match parse_alt fuel' inp gi with
      | Some (a, "|" :: r, gi') =>
          match parse_disj fuel' r gi' with
          | Some (b, r', gi'') => Some (NAlt a b, r', gi'')
          | None => None
          end
      | other => other
      end
  end
with parse_alt (fuel : nat) (inp : list ascii) (gi : nat)
  : option (node * list ascii * nat) :=
  match fuel with
  | O => None
  | S fuel' =>
      match inp with
      | [] => Some (NEmpty, inp, gi)
      | "|" :: _ => Some (NEmpty, inp, gi)
      | ")" :: _ => Some (NEmpty, inp, gi)
      | _ =>
          match parse_term fuel' inp gi with
          | Some (a, r, gi') =>
              match parse_alt fuel' r gi' with
              | Some (b, r', gi'') => Some (seq a b, r', gi'')
              | None => None
              end
          | None => None
          end
      end
  end
with parse_term (fuel : nat) (inp : list ascii) (gi : nat)
  : option (node * list ascii * nat) :=
  match fuel with
  | O => None
  | S fuel' =>
      match inp with
      | "^" :: r => Some (NBol, r, gi)
      | "$" :: r => Some (NEol, r, gi)
      | "." :: r => quantified NAny r gi
      | "\" :: r =>
          match parse_escape false r with
          | Some (EWordB neg, r') => Some (NWordB neg, r', gi)
          | Some (EChar c, r') => quantified (NChar c) r' gi
          | Some (EItem it, r') => quantified (NClass false [it]) r' gi
          | Some (EBackref i, r') => quantified (NBackref i) r' gi
          | None => None
          end
      | "(" :: "?" :: ":" :: r =>
          match parse_disj fuel' r gi with
          | Some (d, ")" :: r', gi') => quantified d r' gi'
          | _ => None
          end
      | "(" :: r =>
          match parse_disj fuel' r (S gi) with
          | Some (d, ")" :: r', gi') => quantified (NGroup (S gi) d) r' gi'
          | _ => None
          end
      | "[" :: "^" :: r =>
          match parse_class (S (List.length r)) r [] with
          | Some (items, r') => quantified (NClass true items) r' gi
          | None => None
          end
      | "[" :: r =>
          match parse_class (S (List.length r)) r [] with
          | Some (items, r') => quantified (NClass false items) r' gi
          | None => None
          end
      | "*" :: _ => None
      | "+" :: _ => None
      | "?" :: _ => None
      | a :: r => quantified (NChar (code a)) r gi
      | [] => None
      end
  end.

Definition parse (src : string) : option node :=
  let inp := list_ascii_of_string src in
  match parse_disj (3 * List.length inp + 3) inp 0 with
  | Some (n, [], _) => Some n
  | _ => None
  end.

Fixpoint has_flag (f : ascii) (flags : list ascii) : bool :=
  match flags with
  | [] => false
  | a :: r => Ascii.eqb a f || has_flag f r
  end.

Definition compile (src flags : string) : RegExp.t :=
  let fl := list_ascii_of_string flags in
  RegExp.mk (parse src) (has_flag "g" fl) (has_flag "i" fl).

End RegExpSyntax.

(* ================================================================== *)
(** * A reference decoder *)
(* ================================================================== *)

(** [Buffer.from(s, 'base64').toString('utf8')] belongs to the Node
    runtime.  The functions of [src/parser.ts] are modelled over an
    arbitrary decoder; this one instantiates it in the examples.  It reads
    base64 the lenient way (a unit is read by its low byte, a byte
    outside the alphabet is skipped, [=] ends the data) and decodes the
    bytes as UTF-8, U+FFFD standing for an ill-formed sequence. *)
Module NodeBuffer.
Import JS.

Definition b64_value (c : char) : option N :=
  if in_range 65 90 c then Some (c - 65)%N
  else if in_range 97 122 c then Some (c - 71)%N
  else if in_range 48 57 c then Some (c + 4)%N
  else if (c =? 43)%N || (c =? 45)%N then Some 62%N
  else if (c =? 47)%N || (c =? 95)%N then Some 63%N
  else None.

Fixpoint sextets (s : jsstring) : list N :=
  match s with
  | [] => []
  | c :: r =>
      let b := N.land c 255 in
      if (b =? 61)%N then []
      else match b64_value b with
           | Some v => v :: sextets r
           | None => sextets r
           end
  end.

Fixpoint bytes_of (l : list N) : list N :=
  match l with
  | a :: b :: c :: d :: r =>
      (a * 4 + b / 16)%N :: ((b mod 16) * 16 + c / 4)%N
      :: ((c mod 4) * 64 + d)%N :: bytes_of r
  | [a; b; c] => [(a * 4 + b / 16)%N; ((b mod 16) * 16 + c / 4)%N]
  | [a; b] => [(a * 4 + b / 16)%N]
  | _ => []
  end.

Definition from_base64 (s : jsstring) : list N := bytes_of (sextets s).

(** The state of the UTF-8 decoder: continuation bytes still needed, the
    code point so far, and the bounds of the next continuation byte. *)
Record utf8_state : Type := mkU {
  needed : nat;
  cp : N;
  lower : N;
  upper : N
}.

Definition idle : utf8_state := mkU 0 0 128 191.

Definition emit (n : N) : jsstring :=
  match fromCodePoint n with Some s => s | None => [65533%N] end.

(** A byte read with no sequence in progress. *)
Definition lead (b : N) : utf8_state * jsstring :=
  if (b <=? 127)%N then (idle, [b])
  else if in_range 194 223 b then (mkU 1 (N.land b 31) 128 191, [])
  else if in_range 224 239 b then
    (mkU 2 (N.land b 15) (if (b =? 224)%N then 160 else 128)
        (if (b =? 237)%N then 159 else 191), [])
  else if in_range 240 244 b then
    (mkU 3 (N.land b 7) (if (b =? 240)%N then 144 else 128)
        (if (b =? 244)%N then 143 else 191), [])
  else (idle, [65533%N]).

Definition utf8_step (st : utf8_state) (b : N) : utf8_state * jsstring :=
  match needed st with
  | O => lead b
  | S n =>
      if in_range (lower st) (upper st) b then
        let c := (cp st * 64 + N.land b 63)%N in
        match n with
        | O => (idle, emit c)
        | S _ => (mkU n c 128 191, [])
        end
      else let (st', out) := lead b in (st', 65533%N :: out)
  end.

Fixpoint utf8_decode (st : utf8_state) (bytes : list N) : jsstring :=
  match bytes with
  | [] => match needed st with O => [] | S _ => [65533%N] end
  | b :: r => let (st', out) := utf8_step st b in out ++ utf8_decode st' r
  end.

Definition base64_utf8 (s : jsstring) : jsstring :=
  utf8_decode idle (from_base64 s).

End NodeBuffer.

(* ================================================================== *)
(** * src/parser.ts *)
(* ================================================================== *)

Module Parser.
Import JS.

Definition RE := RegExpSyntax.compile.

(** Raising code is modelled in the error monad [option]: [None] is a
    thrown exception. *)
Definition bind {A B : Type} (x : option A) (f : A -> option B)
  : option B :=
  match x with Some a => f a | None => None end.

Notation "x >>= f" := (bind x f) (at level 50, left associativity).

Definition or_else {A : Type} (x : option A) (d : A) : A :=
  match x with Some a => a | None => d end.

(** ** Data model *)

(** [gmail_v1.Schema$MessagePartBody]: every field may be absent. *)
Record MessagePartBody : Type := mkBody {
  data : option jsstring;
  size : option Z;
  attachmentId : option jsstring
}.

(** [gmail_v1.Schema$MessagePart].  An absent [parts] is read as the empty
    array by both walkers ([part.parts ?? []]). *)
#[warnings="-register-all"]
Inductive MessagePart : Type :=
  mkPart (mimeType : option jsstring) (filename : option jsstring)
         (body : option MessagePartBody) (parts : list MessagePart).

Definition mimeType (p : MessagePart) : option jsstring :=
  match p with mkPart m _ _ _ => m end.
Definition filename (p : MessagePart) : option jsstring :=
  match p with mkPart _ f _ _ => f end.
Definition body (p : MessagePart) : option MessagePartBody :=
  match p with mkPart _ _ b _ => b end.
Definition parts (p : MessagePart) : list MessagePart :=
  match p with mkPart _ _ _ ps => ps end.

Record Header : Type := mkHeader {
  h_name : option jsstring;
  h_value : option jsstring
}.

Record ParsedAddress : Type := mkAddress {
  name : jsstring;
  email : jsstring
}.

(** ** parseEmail, domainFromEmail, getHeader *)

Definition re_angle := RE "^(.*)<([^>]+)>$" "".
Definition re_email := RE "[A-Z0-9._%+-]+@[A-Z0-9.-]+\.[A-Z]{2,}" "i".
Definition re_quote := RE "\x22" "g".
Definition re_brackets := RE "[<>\x22]" "g".

(** The two captures of the angle-bracket form, when both are truthy. *)
Definition angle_form (s : jsstring) : option (jsstring * jsstring) :=
  match RegExp.exec re_angle s with
  | Some m =>
      match RegExp.group 1 m, RegExp.group 2 m with
      | Some m1, Some m2 =>
          if truthy m1 && truthy m2 then Some (m1, m2) else None
      | _, _ => None
      end
  | None => None
  end.

Definition parseEmail (raw : jsstring) : ParsedAddress :=
  let s := trim raw in
  match angle_form s with
  | Some (m1, m2) =>
      mkAddress (trim (RegExp.replace re_quote [] m1))
                (toLowerCase (trim m2))
  | None =>
      let email :=
        or_else (option_map (fun m => toLowerCase (RegExp.r_text m))
                   (RegExp.exec re_email s)) [] in
      let name :=
        if truthy email
        then trim (RegExp.replace re_brackets [] (replace_first s email []))
        else [] in
      mkAddress name email
  end.

Definition domainFromEmail (email : jsstring) : jsstring :=
  match indexOf_char 64 email with
  | Some at_ => toLowerCase (sliceFrom email (at_ + 1))
  | None => []
  end.

Definition getHeader (headers : list Header) (name : jsstring) : jsstring :=
  let key := toLowerCase name in
  match find (fun h => eqs (toLowerCase (or_else (h_name h) [])) key)
          headers with
  | Some hit => or_else (h_value hit) []
  | None => []
  end.

(** ** collectAttachmentTypes *)

Record AttachmentInfo : Type := mkInfo {
  hasAttachment : bool;
  types : list jsstring;
  count : nat
}.

(** [Set.prototype.add] on an insertion-ordered set. *)
Definition set_add (x : jsstring) (s : list jsstring) : list jsstring :=
  if existsb (eqs x) s then s else s ++ [x].

Definition re_ext := RE "\.([a-z0-9]{1,10})$" "".

(** The locals [filename], [attachmentId] and [size] of [walk]. *)
Definition part_filename (p : MessagePart) : jsstring :=
  trim (or_else (filename p) []).

Definition part_attachmentId (p : MessagePart) : option jsstring :=
  body p >>= attachmentId.

Definition part_size (p : MessagePart) : Z :=
  match body p >>= size with Some n => n | None => 0%Z end.

Definition truthy_opt (x : option jsstring) : bool :=
  match x with Some s => truthy s | None => false end.

Definition looksLikeAttachment (p : MessagePart) : bool :=
  (0 <? List.length (part_filename p)) &&
  (truthy_opt (part_attachmentId p) || (0 <? part_size p)%Z).

(** The entry added to [types] for an attachment. *)
Definition attachment_type (p : MessagePart) : jsstring :=
  let ext := RegExp.exec re_ext (toLowerCase (part_filename p))
             >>= RegExp.group 1 in
  if truthy_opt ext then or_else ext []
  else if truthy_opt (mimeType p)
       then toLowerCase (or_else (mimeType p) [])
       else str "unknown".

Definition attach_visit (p : MessagePart) (st : list jsstring * nat)
  : list jsstring * nat :=
  if looksLikeAttachment p
  then (set_add (attachment_type p) (fst st), S (snd st))
  else st.

Fixpoint attach_walk (p : MessagePart) (st : list jsstring * nat)
  : list jsstring * nat :=
  match p with
  | mkPart _ _ _ ps =>
      fold_left (fun acc q => attach_walk q acc) ps (attach_visit p st)
  end.

Definition collectAttachmentTypes (payload : option MessagePart)
  : AttachmentInfo :=
  let st :=
    match payload with
    | Some p => attach_walk p ([], 0)
    | None => ([], 0)
    end in
  mkInfo (0 <? List.length (fst st))
         (sort (fun a b => negb (ltb_str b a)) (fst st))
         (snd st).

(** ** decodeBase64Url and the HTML conversion *)

Section Decoder.

(** [Buffer.from(s, 'base64').toString('utf8')] of the Node runtime: a
    total function of the string. *)
Variable base64_utf8 : jsstring -> jsstring.

Definition re_minus := RE "-" "g".
Definition re_underscore := RE "_" "g".

Definition decodeBase64Url (data : jsstring) : option jsstring :=
  let b64 :=
    RegExp.replace re_underscore (str "/")
      (RegExp.replace re_minus (str "+") data) in
  let len := Z.of_nat (List.length b64) in
  (if (len mod 4 =? 0)%Z then Some []
   else repeat_str (str "=") (4 - len mod 4))
  >>= fun pad => Some (base64_utf8 (b64 ++ pad)).

Definition entity (radix : N) (m : RegExp.mresult) : option jsstring :=
  fromCodePoint (parseInt radix (or_else (RegExp.group 1 m) [])).

Definition decodeHtmlEntities (s : jsstring) : option jsstring :=
  RegExp.replace_fn (RE "&#x([0-9a-fA-F]+);" "g") (entity 16) s
  >>= RegExp.replace_fn (RE "&#([0-9]+);" "g") (entity 10)
  >>= fun s =>
  Some
    (RegExp.replace (RE "&zwnj;|&zwj;|&lrm;|&rlm;" "gi") []
    (RegExp.replace (RE "&apos;" "gi") (str "'")
    (RegExp.replace (RE "&quot;" "gi") [34%N]
    (RegExp.replace (RE "&gt;" "gi") (str ">")
    (RegExp.replace (RE "&lt;" "gi") (str "<")
    (RegExp.replace (RE "&amp;" "gi") (str "&")
    (RegExp.replace (RE "&nbsp;" "gi") (str " ") s))))))).

Definition first_group (re : RegExp.t) (s : jsstring) : option jsstring :=
  RegExp.exec re s >>= RegExp.group 1.

(** The callback of the anchor rewrite. *)
Definition link_text (m : RegExp.mresult) : jsstring :=
  let a := or_else (RegExp.group 1 m) [] in
  let inner := or_else (RegExp.group 2 m) [] in
  let href :=
    match first_group (RE "\bhref\s*=\s*\x22([^\x22]+)\x22" "i") a with
    | Some h => h
    | None =>
        match first_group (RE "\bhref\s*=\s*'([^']+)'" "i") a with
        | Some h => h
        | None =>
            or_else (first_group (RE "\bhref\s*=\s*([^\s>]+)" "i") a) []
        end
    end in
  let innerText :=
    trim (RegExp.replace (RE "\s+" "g") (str " ")
            (RegExp.replace (RE "<[^>]+>" "g") (str " ") inner)) in
  if negb (truthy href) then
    (if truthy innerText then innerText else str "link")
  else if negb (truthy innerText) then href
  else if includes innerText href then innerText
  else innerText ++ str " (" ++ href ++ str ")".

(** The replacement of [<li>] as the source file has it: the units
    U+00E2, U+20AC, U+00A2 and a space. *)
Definition li_bullet : jsstring := [226; 8364; 162; 32]%N.

Definition htmlToTextKeepingLinks (html : jsstring) : option jsstring :=
  let s :=
    RegExp.replace
      (RE "<\s*(script|style|noscript|head|svg)[^>]*>[\s\S]*?<\s*\/\s*\1\s*>"
          "gi") (str " ")
      (RegExp.replace (RE "<!--[\s\S]*?-->" "g") (str " ") html) in
  RegExp.replace_fn (RE "<a\b([^>]*?)>([\s\S]*?)<\/a>" "gi")
    (fun m => Some (link_text m)) s
  >>= fun s =>
  let s :=
    RegExp.replace (RE "<\s*li\s*>" "gi") li_bullet
    (RegExp.replace (RE "<\s*\/li\s*>" "gi") [10%N]
    (RegExp.replace (RE "<\s*\/div\s*>" "gi") [10%N]
    (RegExp.replace (RE "<\s*\/p\s*>" "gi") [10%N; 10%N]
    (RegExp.replace (RE "<\s*br\s*\/?>" "gi") [10%N] s)))) in
  let s := RegExp.replace (RE "<[^>]+>" "g") (str " ") s in
  decodeHtmlEntities s
  >>= fun s =>
  Some
    (trim
       (RegExp.replace (RE "\n{3,}" "g") [10%N; 10%N]
          (join [10%N]
             (List.map
                (fun line =>
                   trim (RegExp.replace (RE "\s+" "g") (str " ") line))
                (split_char 10 s))))).

(** ** extractBodyText *)

Record Segments : Type := mkSeg {
  plainParts : list jsstring;
  htmlParts : list jsstring
}.

(** The local [isAttachment] of the body walker. *)
Definition isAttachment (p : MessagePart) : bool :=
  (0 <? List.length (part_filename p)) ||
  truthy_opt (part_attachmentId p).

Definition part_mimeType (p : MessagePart) : jsstring :=
  toLowerCase (or_else (mimeType p) []).

Definition part_data (p : MessagePart) : jsstring :=
  or_else (body p >>= data) [].

Definition body_visit (p : MessagePart) (st : Segments) : option Segments :=
  if negb (isAttachment p) && truthy (part_data p) then
    decodeBase64Url (part_data p) >>= fun text =>
    if eqs (part_mimeType p) (str "text/plain")
    then Some (mkSeg (plainParts st ++ [text]) (htmlParts st))
    else if eqs (part_mimeType p) (str "text/html")
    then Some (mkSeg (plainParts st) (htmlParts st ++ [text]))
    else Some st
  else Some st.

Fixpoint body_walk (p : MessagePart) (st : Segments) : option Segments :=
  match p with
  | mkPart _ _ _ ps =>
      fold_left (fun acc q => acc >>= body_walk q) ps (body_visit p st)
  end.

(** [walk(payload)] on the two empty arrays. *)
Definition collect_segments (payload : option MessagePart)
  : option Segments :=
  match payload with
  | Some p => body_walk p (mkSeg [] [])
  | None => Some (mkSeg [] [])
  end.

Definition extractBodyText (payload : option MessagePart) (maxChars : Z)
  : option jsstring :=
  collect_segments payload
  >>= fun st =>
  let out := trim (join [10%N] (plainParts st)) in
  (if negb (truthy out) then
     let html := trim (join [10%N] (htmlParts st)) in
     if truthy html then htmlToTextKeepingLinks html else Some []
   else Some out)
  >>= fun out =>
  if (0 <? maxChars)%Z && (maxChars <? Z.of_nat (List.length out))%Z
  then Some (slice0 out maxChars)
  else Some out.

End Decoder.

End Parser.

(* ================================================================== *)
(** * src/address-detector.ts *)
(* ================================================================== *)

Module AddressDetector.
Import JS.
Local Open Scope string_scope.

Definition RE := RegExpSyntax.compile.

(** Pattern sources are ASCII: one byte of a Rocq string is one unit. *)
Definition unstr (s : jsstring) : string :=
  string_of_list_ascii (List.map ascii_of_N s).

Definition US_STATES : list string :=
  ["AL"; "AK"; "AZ"; "AR"; "CA"; "CO"; "CT"; "DE"; "FL"; "GA"; "HI"; "ID"
   ; "IL"; "IN"; "IA"; "KS"; "KY"; "LA"; "ME"; "MD"; "MA"; "MI"; "MN"; "MS"
   ; "MO"; "MT"; "NE"; "NV"; "NH"; "NJ"; "NM"; "NY"; "NC"; "ND"; "OH"; "OK"
   ; "OR"; "PA"; "RI"; "SC"; "SD"; "TN"; "TX"; "UT"; "VT"; "VA"; "WA"; "WV"
   ; "WI"; "WY"; "DC"; "Alabama"; "Alaska"; "Arizona"; "Arkansas"
   ; "California"; "Colorado"; "Connecticut"; "Delaware"; "Florida"
   ; "Georgia"; "Hawaii"; "Idaho"; "Illinois"; "Indiana"; "Iowa"; "Kansas"
   ; "Kentucky"; "Louisiana"; "Maine"; "Maryland"; "Massachusetts"
   ; "Michigan"; "Minnesota"; "Mississippi"; "Missouri"; "Montana"
   ; "Nebraska"; "Nevada"; "New Hampshire"; "New Jersey"; "New Mexico"
   ; "New York"; "North Carolina"; "North Dakota"; "Ohio"; "Oklahoma"
   ; "Oregon"; "Pennsylvania"; "Rhode Island"; "South Carolina"
   ; "South Dakota"; "Tennessee"; "Texas"; "Utah"; "Vermont"; "Virginia"
   ; "Washington"; "West Virginia"; "Wisconsin"; "Wyoming"].

Definition STREET_TYPES : list string :=
  ["Street"; "St"; "Avenue"; "Ave"; "Road"; "Rd"; "Drive"; "Dr"; "Lane"
   ; "Ln"; "Way"; "Court"; "Ct"; "Circle"; "Cir"; "Boulevard"; "Blvd"
   ; "Place"; "Pl"; "Terrace"; "Ter"; "Parkway"; "Pkwy"; "Highway"; "Hwy"
   ; "Freeway"; "Fwy"; "Expressway"; "Expy"; "Trail"; "Trl"; "Path"; "Pass"
   ; "Pike"; "Plaza"; "Plz"; "Alley"; "Aly"; "Center"; "Ctr"; "Commons"
   ; "Crossing"; "Xing"; "Estate"; "Est"; "Glen"; "Green"; "Grove"
   ; "Heights"; "Hts"; "Hill"; "Hollow"; "Junction"; "Jct"; "Knoll"; "Lake"
   ; "Landing"; "Loop"; "Mall"; "Manor"; "Meadow"; "Mill"; "Park"; "Passage"
   ; "Point"; "Pt"; "Ridge"; "Row"; "Run"; "Square"; "Sq"; "Station"
   ; "Summit"; "Trace"; "Track"; "Turnpike"; "Tpke"; "Valley"; "View"
   ; "Village"; "Vista"; "Walk"; "Way"].

Definition INTERNATIONAL_STREET_TYPES : list string :=
  ["Corte"; "Calle"; "Via"; "Camino"; "Avenida"; "Paseo"; "Plaza"; "Cerrada"
   ; "Circulo"; "Entrada"; "Vereda"; "Sendero"; "Callejon"; "Rue"; "Strasse"
   ; "Stra\u00DFe"; "Gasse"; "Weg"; "Platz"].

Definition UNIT_TYPES : list string :=
  ["Apt"; "Apartment"; "Suite"; "Ste"; "Unit"; "Bldg"; "Building"; "Floor"
   ; "Fl"; "Room"; "Rm"; "Dept"; "Department"; "Lot"; "Space"; "Spc"; "Slip"
   ; "Pier"; "Hangar"; "Trlr"; "Trailer"].

Definition DIRECTIONS : list string :=
  ["N"; "S"; "E"; "W"; "NE"; "NW"; "SE"; "SW"; "North"; "South"; "East"
   ; "West"; "Northeast"; "Northwest"; "Southeast"; "Southwest"].

Definition MAJOR_CITIES : list string :=
  ["New York"; "Los Angeles"; "Chicago"; "Houston"; "Phoenix"
   ; "Philadelphia"; "San Antonio"; "San Diego"; "Dallas"; "San Jose"
   ; "Austin"; "Jacksonville"; "Fort Worth"; "Columbus"; "Charlotte"
   ; "San Francisco"; "Indianapolis"; "Seattle"; "Denver"; "Boston"
   ; "El Paso"; "Nashville"; "Detroit"; "Portland"; "Memphis"
   ; "Oklahoma City"; "Las Vegas"; "Louisville"; "Baltimore"; "Milwaukee"
   ; "Albuquerque"; "Tucson"; "Fresno"; "Sacramento"; "Kansas City"; "Mesa"
   ; "Atlanta"; "Omaha"; "Colorado Springs"; "Raleigh"; "Long Beach"
   ; "Virginia Beach"; "Miami"; "Oakland"; "Minneapolis"; "Tulsa"
   ; "Bakersfield"; "Wichita"; "Arlington"; "Aurora"; "Tampa"; "New Orleans"
   ; "Cleveland"; "Honolulu"; "Anaheim"; "Lexington"; "Stockton"
   ; "Corpus Christi"; "Henderson"; "Riverside"; "Newark"; "Saint Paul"
   ; "Santa Ana"; "Cincinnati"; "Irvine"; "Orlando"; "Pittsburgh"
   ; "St. Louis"; "Greensboro"; "Jersey City"; "Anchorage"; "Lincoln"
   ; "Plano"; "Durham"; "Buffalo"; "Chandler"; "Chula Vista"; "Toledo"
   ; "Madison"; "Gilbert"; "Reno"; "Fort Wayne"; "North Las Vegas"
   ; "St. Petersburg"; "Lubbock"; "Irving"; "Laredo"; "Winston-Salem"
   ; "Chesapeake"; "Glendale"; "Garland"; "Scottsdale"; "Norfolk"; "Boise"
   ; "Fremont"; "Spokane"; "Santa Clarita"; "Baton Rouge"; "Richmond"
   ; "Hialeah"; "Carlsbad"; "Oceanside"; "Escondido"; "Vista"; "Encinitas"
   ; "San Marcos"; "Poway"; "La Jolla"; "Del Mar"; "Solana Beach"
   ; "Rancho Santa Fe"; "Coronado"; "Chula Vista"; "National City"
   ; "Imperial Beach"; "La Mesa"; "El Cajon"; "Santee"; "Lakeside"].

(** [t.replace(/\./g, '\\.')]. *)
Definition escape_dots (t : string) : string :=
  unstr (RegExp.replace (RE "\." "g") (str "\.") (str t)).

Definition by_length_desc (a b : string) : bool :=
  (String.length b <=? String.length a)%nat.

Definition buildStreetTypePattern : string :=
  let allTypes := (STREET_TYPES ++ INTERNATIONAL_STREET_TYPES)%list in
  String.concat "|" (List.map escape_dots allTypes).

Definition buildUnitTypePattern : string :=
  String.concat "|" (List.map escape_dots UNIT_TYPES).

Definition buildStatePattern : string :=
  let sorted := sort by_length_desc US_STATES in
  String.concat "|" sorted.

Definition buildDirectionPattern : string :=
  String.concat "|" DIRECTIONS.

Definition getAddressPatterns : list RegExp.t :=
  let streetTypes := buildStreetTypePattern in
  let unitTypes := buildUnitTypePattern in
  let states := buildStatePattern in
  let directions := buildDirectionPattern in
  [ RE (String.concat ""
        ["\b[0-9]{1,6}\s+(?:(?:";
         directions;
         ")\.?\s+)?[A-Za-z0-9\s]{1,30}(?:";
         streetTypes;
         ")\.?(?:\s*[,.]?\s*(?:";
         unitTypes;
         ")\.?\s*#?\s*[A-Za-z0-9\-]+)?\b"])
       "gi"
  ; RE (String.concat ""
        ["\b[0-9]{1,6}\s+(?:";
         directions;
         "\.?\s+)?[A-Za-z]+(?:\s+[A-Za-z]+)?\s+(?:";
         streetTypes;
         ")\b"])
       "gi"
  ; RE (String.concat ""
        ["\b(?:";
         unitTypes;
         ")\.?\s*#?\s*[0-9A-Z]{1,6}\b"])
       "gi"
  ; RE "\b#\s*[0-9]{1,5}[A-Z]?\b"
       "gi"
  ; RE "\b(?:P\.?\s*O\.?\s*Box|Post\s*Office\s*Box|POB)\s*#?\s*[0-9]+\b"
       "gi"
  ; RE (String.concat ""
        ["\b[A-Z][a-z]+(?:\s+[A-Z][a-z]+)*[,.]?\s*(?:";
         states;
         ")\s*[0-9]{5}(?:-[0-9]{4})?\b"])
       "gi"
  ; RE (String.concat ""
        ["\b(?:";
         states;
         ")\s+[0-9]{5}(?:-[0-9]{4})?\b"])
       "g"
  ; RE "\b[0-9]{5}(?:-[0-9]{4})?\b"
       "g"
  ; RE "\b[A-Z]{1,2}[0-9][A-Z0-9]?\s*[0-9][A-Z]{2}\b"
       "gi"
  ; RE "\b[A-Z][0-9][A-Z]\s*[0-9][A-Z][0-9]\b"
       "gi"
  ; RE "\b(?:NSW|VIC|QLD|SA|WA|TAS|NT|ACT)\s*[0-9]{4}\b"
       "gi"
  ; RE "\b(?:address|ship(?:ping)?|deliver(?:y)?|mail(?:ing)?|located?\s*at|residence|home)\s*(?:to|at|is)?:?\s*[0-9]{1,6}\s+[A-Za-z0-9\s,\.]{10,100}"
       "gi"
  ; RE "\bat\s+[0-9]{1,6}\s+[A-Za-z]+(?:\s+[A-Za-z]+){0,3}\s+(?:Street|St|Avenue|Ave|Road|Rd|Drive|Dr|Lane|Ln|Way|Court|Ct|Boulevard|Blvd)\b"
       "gi"
  ; RE "\b[A-Za-z0-9]+\s+(?:Street|St|Avenue|Ave|Road|Rd|Drive|Dr)\s*(?:&|and)\s*[A-Za-z0-9]+\s+(?:Street|St|Avenue|Ave|Road|Rd|Drive|Dr)\b"
       "gi"
  ; RE "\b(?:Floor|Level|Fl)\s*#?\s*[0-9]{1,3}\b"
       "gi"
  ; RE "\b[0-9]{1,2}(?:st|nd|rd|th)\s+(?:Floor|Level)\b"
       "gi"
  ; RE "\b(?:Building|Bldg)\s*#?\s*[A-Z0-9]{1,5}\b"
       "gi"
  ; RE "\bC\/O\s+[A-Za-z\s]+"
       "gi"
  ; RE "\bAttn:?\s+[A-Za-z\s]+"
       "gi"
  ; RE "\b[A-Za-z\u00E4\u00F6\u00FC\u00C4\u00D6\u00DC\u00DF]+(?:stra\u00DFe|strasse|gasse|weg|platz|allee)\s*[0-9]+[A-Za-z]?\b"
       "gi"
  ; RE "\b[0-9]+\s+(?:Rue|Avenue|Boulevard|Place|Chemin|All\u00E9e)\s+[A-Za-z\s]+"
       "gi"
  ].

(** [city.replace(/[.*+?^${}()|[\]\\]/g, '\\$&')]. *)
Definition escape_city (city : string) : string :=
  unstr
    (Parser.or_else
       (RegExp.replace_fn (RE "[.*+?^${}()|[\]\\]" "g")
          (fun m => Some (str "\" ++ RegExp.r_text m)%list) (str city))
       []).

Definition getCityPatterns : list RegExp.t :=
  let sortedCities := sort by_length_desc MAJOR_CITIES in
  List.map
    (fun city =>
       let escaped := escape_city city in
       RE (String.concat ""
             ["\b"; escaped;
              "\s*[,.]?\s*(?:[A-Z]{2}\s*)?[0-9]{5}(?:-[0-9]{4})?\b"])
          "gi")
    sortedCities.

Definition ADDRESS_PATTERNS := getAddressPatterns.
Definition CITY_PATTERNS := getCityPatterns.

End AddressDetector.

(* ================================================================== *)
(** * src/sanitizer.ts *)
(* ================================================================== *)

Module Sanitizer.
Import JS.
Import AddressDetector.

Inductive RedactionCategory : Type :=
| credit_cards | bank_accounts | tax_ids | passwords | api_keys
| otp_codes | phone_numbers | physical_addresses | ip_addresses
| government_ids | token_urls | case_numbers | claim_numbers
| auth_codes | device_ids | employee_ids
| dates_of_birth | ages | member_ids | vehicle_ids | medical_ids
| email_addresses | order_numbers | tracking_numbers
| booking_references | financial_amounts | regular_urls.

Definition RedactionCategory_eq_dec (a b : RedactionCategory)
  : {a = b} + {a <> b}.
Proof. decide equality. Defined.

Definition cat_eqb (a b : RedactionCategory) : bool :=
  if RedactionCategory_eq_dec a b then true else false.

(** The keys of [REDACTION_CATEGORIES] with their [default] flag, in the
    order of the object literal. *)
Definition REDACTION_CATEGORIES : list (RedactionCategory * bool) :=
  [ (credit_cards, true); (bank_accounts, true); (tax_ids, true)
  ; (passwords, true); (api_keys, true); (otp_codes, true)
  ; (phone_numbers, true); (physical_addresses, true)
  ; (ip_addresses, true); (government_ids, true); (token_urls, true)
  ; (case_numbers, true); (claim_numbers, true); (auth_codes, true)
  ; (device_ids, true); (employee_ids, true)
  ; (dates_of_birth, true); (ages, true); (member_ids, true)
  ; (vehicle_ids, true); (medical_ids, true)
  ; (email_addresses, false); (order_numbers, false)
  ; (tracking_numbers, false); (booking_references, false)
  ; (financial_amounts, false); (regular_urls, false) ].

Definition ALL_REDACTION_CATEGORIES : list RedactionCategory :=
  List.map fst REDACTION_CATEGORIES.

Definition DEFAULT_REDACTION_CATEGORIES : list RedactionCategory :=
  List.map fst (filter snd REDACTION_CATEGORIES).

Record RedactionPattern : Type := mkPattern {
  category : RedactionCategory;
  patterns : list RegExp.t;
  replacement : jsstring
}.

Local Open Scope string_scope.

Definition PATTERNS : list RedactionPattern :=
  [ mkPattern credit_cards
      [ RE "\b4[0-9]{3}[\s\-]?[0-9]{4}[\s\-]?[0-9]{4}[\s\-]?[0-9]{4}\b" "g"
      ; RE "\b(?:5[1-5][0-9]{2}|2[2-7][0-9]{2})[\s\-]?[0-9]{4}[\s\-]?[0-9]{4}[\s\-]?[0-9]{4}\b" "g"
      ; RE "\b3[47][0-9]{2}[\s\-]?[0-9]{6}[\s\-]?[0-9]{5}\b" "g"
      ; RE "\b6(?:011|5[0-9]{2}|4[4-9][0-9])[\s\-]?[0-9]{4}[\s\-]?[0-9]{4}[\s\-]?[0-9]{4}\b" "g"
      ; RE "\b[0-9]{4}[\s\-][0-9]{4}[\s\-][0-9]{4}[\s\-][0-9]{4}\b" "g"
      ; RE "\b(?:card|ending|ends|last\s*4)(?:\s+(?:in|digits?|number)?:?\s*)[0-9]{4}\b" "gi"
      ; RE "\.{2,}[0-9]{4}\b" "g"
      ; RE "\*{2,}[0-9]{4}\b" "g"
      ; RE "[xX]{2,}[0-9]{4}\b" "g"
      ; RE "\(\.\.\.[0-9]{4}\)" "g"
      ; RE "[\*xX]{4,}[0-9]{4}\b" "gi"
      ; RE "\b(?:your|my|the)\s+(?:\w+\s+)?card\s+[0-9]{8,20}\b" "gi"
      ; RE "\bcard\s*(?:#|number|no\.?)?:?\s*[0-9]{8,20}\b" "gi"
      ; RE "\bcontrol\s*(?:#|number|no\.?)?:?\s*[0-9]{8,20}\b" "gi"
      ; RE "\b(?:\w+\s+)?agreement\s*(?:#|number|no\.?)?:?\s*[0-9]{8,20}\b" "gi"
      ; RE "\bnumber:?\s*[0-9]{8,20}\b" "gi"
      ]
      (str "[REDACTED_CARD]")
  ; mkPattern bank_accounts
      [ RE "\b(?:routing|aba|transit)(?:\s*(?:#|number|no\.?)?:?\s*)[0-9]{9}\b" "gi"
      ; RE "\b(?:account|acct)(?:\s*(?:#|number|no\.?)?:?\s*)[0-9]{6,17}\b" "gi"
      ; RE "\b[A-Z]{2}[0-9]{2}[\s]?[A-Z0-9]{4}[\s]?[0-9]{4}[\s]?[0-9]{4}[\s]?[0-9]{4}[\s]?[0-9]{0,4}\b" "g"
      ; RE "\b[A-Z]{4}[A-Z]{2}[A-Z0-9]{2}(?:[A-Z0-9]{3})?\b" "g"
      ]
      (str "[REDACTED_BANK]")
  ; mkPattern tax_ids
      [ RE "\b[0-9]{3}[\s\-][0-9]{2}[\s\-][0-9]{4}\b" "g"
      ; RE "\b[0-9]{2}[\s\-][0-9]{7}\b" "g"
      ; RE "\b(?:ssn|social\s*security|tin|tax\s*id|ein|itin)(?:\s*(?:#|number|no\.?)?:?\s*)[0-9\-\s]{9,11}\b" "gi"
      ; RE "\b[0-9]{3}[\s\-][0-9]{3}[\s\-][0-9]{3}\b" "g"
      ; RE "\b[A-Z]{2}[0-9]{6}[A-Z]\b" "g"
      ; RE "\b(?:tfn|tax\s*file)(?:\s*(?:#|number|no\.?)?:?\s*)[0-9]{3}[\s]?[0-9]{3}[\s]?[0-9]{3}\b" "gi"
      ]
      (str "[REDACTED_TAX_ID]")
  ; mkPattern passwords
      [ RE "\b(?:password|passwd|pwd|pin|passcode|secret)(?:\s*(?:is|was|:)\s*)[\x22']?[^\s\x22']{4,50}[\x22']?" "gi"
      ; RE "\b(?:temporary|temp|new|initial|default)\s+(?:password|pwd|pin)(?:\s*(?:is|was|:)\s*)[\x22']?[^\s\x22']{4,50}[\x22']?" "gi"
      ; RE "(?:your|the)\s+(?:password|pin|passcode)\s+(?:is|was|:)\s*[\x22']?[^\s\x22'\n]{4,50}[\x22']?" "gi"
      ]
      (str "[REDACTED_PASSWORD]")
  ; mkPattern api_keys
      [ RE "\b(?:AKIA|ABIA|ACCA|ASIA)[A-Z0-9]{16}\b" "g"
      ; RE "\b(?:aws[_\-]?secret|secret[_\-]?key)[\x22']?\s*[:=]\s*[\x22']?[A-Za-z0-9\/+=]{40}[\x22']?" "gi"
      ; RE "\bAIza[A-Za-z0-9_-]{35}\b" "g"
      ; RE "\b(?:sk|pk|rk)_(?:live|test)_[A-Za-z0-9]{24,}\b" "g"
      ; RE "\b(?:ghp|gho|ghu|ghs|ghr)_[A-Za-z0-9]{36,}\b" "g"
      ; RE "\bxox[baprs]-[A-Za-z0-9\-]{10,}\b" "g"
      ; RE "\b(?:api[_\-]?key|apikey|access[_\-]?token|auth[_\-]?token|bearer)[\x22']?\s*[:=]\s*[\x22']?[A-Za-z0-9_\-]{20,}[\x22']?" "gi"
      ; RE "\bBearer\s+[A-Za-z0-9_\-\.]+" "g"
      ; RE "\beyJ[A-Za-z0-9_-]*\.eyJ[A-Za-z0-9_-]*\.[A-Za-z0-9_-]*" "g"
      ]
      (str "[REDACTED_API_KEY]")
  ; mkPattern otp_codes
      [ RE "\b(?:verification|confirmation|security|authentication|otp)\s+code\s*(?:is|was)?:?\s*[0-9]{4,8}\b" "gi"
      ; RE "\bone[\s\-]?time\s+(?:code|password|passcode)[^0-9]*[0-9]{4,8}\b" "gi"
      ; RE "\bcode\s+(?:is\s+)?(?:only\s+)?valid[^0-9]*[0-9]{4,8}\b" "gi"
      ; RE "\b(?:your|the)\s+(?:code|pin|otp|passcode)\s*(?:is|was)?:?\s*[0-9]{4,8}\b" "gi"
      ; RE "\bcode\s*(?:is|was)?:?\s*[0-9]{4,8}\b" "gi"
      ; RE "\b(?:pin|otp)\s*:?\s*[0-9]{4,8}\b" "gi"
      ; RE "\b(?:2fa|two[\s\-]?factor|mfa)\s*(?:code)?\s*(?:is|was)?:?\s*[0-9]{4,8}\b" "gi"
      ; RE "\benter\s+(?:code\s+)?[0-9]{4,8}\b" "gi"
      ; RE "\bis\s*:\s*[0-9]{6}\b" "gi"
      ; RE "\bvalid\s+(?:for\s+)?[0-9]+\s*(?:minutes?|mins?|hours?|hrs?)[^0-9]*[0-9]{4,8}\b" "gi"
      ]
      (str "[REDACTED_CODE]")
  ; mkPattern phone_numbers
      [ RE "\+1[0-9]{10}\b" "g"
      ; RE "\b(?:\+?1[\s\-\.]?)?\(?[0-9]{3}\)?[\s\-\.][0-9]{3}[\s\-\.][0-9]{4}\b" "g"
      ; RE "\b[2-9][0-9]{2}[2-9][0-9]{6}\b" "g"
      ; RE "\+[0-9]{1,3}[\s\-\.][0-9]{1,4}[\s\-\.][0-9]{1,4}[\s\-\.][0-9]{1,4}[\s\-\.]?[0-9]{0,4}\b" "g"
      ; RE "\+[0-9]{11,15}\b" "g"
      ; RE "\b(?:\+44|0)[\s\-\.]?[0-9]{4}[\s\-\.]?[0-9]{6}\b" "g"
      ; RE "\b(?:phone|tel|mobile|cell|fax|call)(?:\s*(?:#|number|no\.?)?:?\s*)[\+]?[0-9\s\-\.\(\)]{7,20}\b" "gi"
      ]
      (str "[REDACTED_PHONE]")
  ; mkPattern physical_addresses
      (ADDRESS_PATTERNS ++ CITY_PATTERNS)%list
      (str "[REDACTED_ADDRESS]")
  ; mkPattern ip_addresses
      [ RE "\b(?:(?:25[0-5]|2[0-4][0-9]|[01]?[0-9][0-9]?)\.){3}(?:25[0-5]|2[0-4][0-9]|[01]?[0-9][0-9]?)\b" "g"
      ; RE "\b(?:[0-9a-fA-F]{1,4}:){7}[0-9a-fA-F]{1,4}\b" "g"
      ; RE "\b(?:[0-9a-fA-F]{1,4}:){1,7}:\b" "g"
      ; RE "\b::(?:[0-9a-fA-F]{1,4}:){0,6}[0-9a-fA-F]{1,4}\b" "g"
      ]
      (str "[REDACTED_IP]")
  ; mkPattern government_ids
      [ RE "\b(?:passport)(?:\s*(?:#|number|no\.?)?:?\s*)[A-Z0-9]{6,12}\b" "gi"
      ; RE "\b(?:driver'?s?\s*licen[sc]e|dl|license)(?:\s*(?:#|number|no\.?)?:?\s*)[A-Z0-9\-]{5,20}\b" "gi"
      ; RE "\b(?:national\s*id|id\s*card|identity\s*card)(?:\s*(?:#|number|no\.?)?:?\s*)[A-Z0-9\-]{5,20}\b" "gi"
      ; RE "\b(?:medicare)(?:\s*(?:#|number|no\.?)?:?\s*)[0-9]{10,11}\b" "gi"
      ; RE "\b(?:nhs)(?:\s*(?:#|number|no\.?)?:?\s*)[0-9]{3}[\s\-]?[0-9]{3}[\s\-]?[0-9]{4}\b" "gi"
      ]
      (str "[REDACTED_GOV_ID]")
  ; mkPattern token_urls
      [ RE "https?:\/\/[^\s]*(?:reset|password|recover|forgot)[^\s]*[?&][^\s]*(?:token|key|code|hash|id)=[^\s&\x22']{10,}[^\s]*" "gi"
      ; RE "https?:\/\/[^\s]*(?:verify|confirm|activate|validate)[^\s]*[?&][^\s]*(?:token|key|code|hash|id)=[^\s&\x22']{10,}[^\s]*" "gi"
      ; RE "https?:\/\/[^\s]*(?:unsubscribe|optout|opt-out|preferences)[^\s]*[?&][^\s]*=[^\s&\x22']{20,}[^\s]*" "gi"
      ; RE "https?:\/\/[^\s]*(?:magic|login|signin|auth)[^\s]*[?&][^\s]*(?:token|key|code)=[^\s&\x22']{10,}[^\s]*" "gi"
      ; RE "https?:\/\/[^\s]*[?&](?:track|click|open|view|pixel)[^\s]*=[^\s&\x22']{20,}[^\s]*" "gi"
      ; RE "https?:\/\/[^\s<>\x22']*[?&][a-z_]*(?:token|key|hash|signature|sig|auth|session)=[A-Za-z0-9_\-\.%]{30,}[^\s<>\x22']*" "gi"
      ; RE "https?:\/\/[^\s<>\x22']*[?&;](?:payeeId|bu|uid|userId|user_id|trkId|euid|cnvId|mesgId|osub|segname|plmtId|ndid|_ei_|username|pcid)=[A-Za-z0-9_\-\.%]+[^\s<>\x22']*" "gi"
      ; RE "https?:\/\/[^\s<>\x22']*[?&][a-z_]*[iI]d=[0-9]{8,}[^\s<>\x22']*" "gi"
      ]
      (str "[REDACTED_URL]")
  ; mkPattern case_numbers
      [ RE "\b(?:case|ticket|incident|issue)(?:\s*(?:#|number|no\.?|id)?:?\s*)[0-9]{5,}\b" "gi"
      ; RE "\b(?:support|service|help)(?:\s*(?:ticket|case|request))?(?:\s*(?:#|number|no\.?|id)?:?\s*)[0-9]{5,}\b" "gi"
      ]
      (str "[REDACTED_CASE]")
  ; mkPattern claim_numbers
      [ RE "\b(?:claim)(?:\s*(?:#|number|no\.?|id)?:?\s*)[0-9]{5,}\b" "gi"
      ; RE "\b(?:warranty|dispute|refund)(?:\s*(?:claim|case|request))?(?:\s*(?:#|number|no\.?|id)?:?\s*)[0-9]{5,}\b" "gi"
      ]
      (str "[REDACTED_CLAIM]")
  ; mkPattern auth_codes
      [ RE "\b(?:auth(?:orization)?|approval)(?:\.?\s*(?:code|#|number|no\.?)?:?\s*)[A-Z0-9]{4,}\b" "gi"
      ; RE "\b(?:transaction|trans|txn)(?:\s*(?:auth|code|#|id)?:?\s*)[A-Z0-9]{5,}\b" "gi"
      ]
      (str "[REDACTED_AUTH]")
  ; mkPattern device_ids
      [ RE "\b(?:device|hardware|serial|imei|udid|uuid)(?:[\s\-_]*(?:id|number|#)?:?\s*)[A-Z0-9\-]{6,}\b" "gi"
      ; RE "\b(?:[0-9A-Fa-f]{2}[:\-]){5}[0-9A-Fa-f]{2}\b" "g"
      ]
      (str "[REDACTED_DEVICE]")
  ; mkPattern employee_ids
      [ RE "\b(?:employee|emp|staff|worker)(?:\s*(?:id|#|number|no\.?)?(?:\s*(?:is|number|:))?\s*)[A-Z0-9]{5,}\b" "gi"
      ; RE "\b(?:student)(?:\s*(?:id|#|number|no\.?)?:?\s*)[A-Z0-9]{5,}\b" "gi"
      ; RE "\b(?:badge|id)(?:\s*(?:#|number|no\.?)?:?\s*)[A-Z0-9]{5,}\b" "gi"
      ]
      (str "[REDACTED_EMP_ID]")
  ; mkPattern email_addresses
      [ RE "\b[A-Za-z0-9._%+-]+@[A-Za-z0-9.-]+\.[A-Z|a-z]{2,}\b" "g"
      ]
      (str "[REDACTED_EMAIL]")
  ; mkPattern dates_of_birth
      [ RE "\b(?:dob|date\s*of\s*birth|birth\s*date|born|birthday)(?:\s*(?:is|was|:)\s*)[0-9]{1,2}[\s\/\-\.][0-9]{1,2}[\s\/\-\.][0-9]{2,4}\b" "gi"
      ; RE "\b(?:born\s+(?:on\s+)?)[A-Za-z]+\s+[0-9]{1,2},?\s+[0-9]{4}\b" "gi"
      ; RE "\b(?:birthday|dob)(?:\s*:?\s*)[0-9]{1,2}[\s\/\-][0-9]{1,2}[\s\/\-][0-9]{2,4}\b" "gi"
      ]
      (str "[REDACTED_DOB]")
  ; mkPattern ages
      [ RE "\b(?:i\s+am|i'm|he\s+is|she\s+is|they\s+are)\s+[0-9]{1,3}\s+(?:years?\s+old|yrs?\s+old|y\.?o\.?)\b" "gi"
      ; RE "\b(?:age[d]?|age\s*:)\s*[0-9]{1,3}\b" "gi"
      ; RE "\b[0-9]{1,3}[\s\-]?year[\s\-]?old\b" "gi"
      ]
      (str "[REDACTED_AGE]")
  ; mkPattern order_numbers
      [ RE "\b(?:order|confirmation|invoice|receipt|transaction|purchase)(?:\s*(?:#|number|no\.?|id)?:?\s*)\(?[A-Z0-9\-]{6,20}\)?\b" "gi"
      ; RE "\b(?:order|conf|inv)(?:\s*#?\s*)\(?[A-Z0-9\-]{6,20}\)?\b" "gi"
      ; RE "\b(?:reference|ref)(?:\s*(?:#|number|no\.?)?:?\s*)[A-Z0-9\-]{6,20}\b" "gi"
      ]
      (str "[REDACTED_ORDER]")
  ; mkPattern tracking_numbers
      [ RE "\b1Z[A-Z0-9]{16}\b" "gi"
      ; RE "\b(?:fedex|fed\s*ex)(?:\s*(?:#|tracking)?:?\s*)[0-9]{12,34}\b" "gi"
      ; RE "\b(?:usps|postal)(?:\s*(?:#|tracking)?:?\s*)[0-9]{20,22}\b" "gi"
      ; RE "\b(?:tracking|shipment)(?:\s*(?:#|number|no\.?)?:?\s*)[A-Z0-9]{10,30}\b" "gi"
      ; RE "\b(?:dhl)(?:\s*(?:#|tracking)?:?\s*)[0-9]{10,11}\b" "gi"
      ]
      (str "[REDACTED_TRACKING]")
  ; mkPattern booking_references
      [ RE "\b(?:pnr|booking|confirmation|reservation)(?:\s*(?:#|code|number|ref)?:?\s*)[A-Z0-9]{6}\b" "gi"
      ; RE "\b(?:flight|airline)(?:\s*(?:confirmation|booking|ref)?:?\s*)[A-Z0-9]{6}\b" "gi"
      ; RE "\b(?:hotel|resort|airbnb)(?:\s*(?:confirmation|booking|reservation)?:?\s*)[A-Z0-9]{6,12}\b" "gi"
      ; RE "\b(?:record\s*locator|locator)(?:\s*:?\s*)[A-Z0-9]{6}\b" "gi"
      ]
      (str "[REDACTED_BOOKING]")
  ; mkPattern member_ids
      [ RE "\b(?:member|membership)(?:\s*(?:#|number|no\.?|id)?:?\s*)[A-Z0-9\-]{6,20}\b" "gi"
      ; RE "\b(?:loyalty|rewards?|points)(?:\s*(?:#|number|no\.?|id)?:?\s*)[A-Z0-9\-]{6,20}\b" "gi"
      ; RE "\b(?:customer|client|user)(?:\s*(?:#|number|no\.?|id)?:?\s*)[A-Z0-9\-]{6,20}\b" "gi"
      ; RE "\b(?:account|acct)(?:\s*(?:#|number|no\.?)?:?\s*)[A-Z0-9\-]{6,15}\b" "gi"
      ; RE "\b(?:subscriber|subscription)(?:\s*(?:#|number|no\.?|id)?:?\s*)[A-Z0-9\-]{6,20}\b" "gi"
      ; RE "\b(?:RR|FF|MP|SK|AA|UA|DL|WN)(?:\s*#?\s*)[0-9]{8,12}\b" "gi"
      ; RE "\b(?:rapid\s*rewards?|mileage\s*plus|sky\s*miles?|aadvantage|frequent\s*flyer)(?:\s*(?:#|number|no\.?|id|account)?:?\s*)[0-9]{8,12}\b" "gi"
      ; RE "\b[A-Za-z]+\s*ID:?\s*[A-Z0-9\-]{4,20}\b" "gi"
      ]
      (str "[REDACTED_MEMBER_ID]")
  ; mkPattern vehicle_ids
      [ RE "\b(?:vin|vehicle\s*identification)(?:\s*(?:#|number|no\.?)?:?\s*)[A-HJ-NPR-Z0-9]{17}\b" "gi"
      ; RE "\b[A-HJ-NPR-Z0-9]{17}\b" "g"
      ; RE "\b(?:license\s*plate|plate\s*(?:#|number)|registration)(?:\s*:?\s*)[A-Z0-9\-\s]{4,10}\b" "gi"
      ]
      (str "[REDACTED_VEHICLE]")
  ; mkPattern medical_ids
      [ RE "\b(?:mrn|medical\s*record|patient\s*id)(?:\s*(?:#|number|no\.?)?:?\s*)[A-Z0-9\-]{6,20}\b" "gi"
      ; RE "\b(?:insurance\s*id|policy\s*(?:#|number)|member\s*id)(?:\s*:?\s*)[A-Z0-9\-]{6,20}\b" "gi"
      ; RE "\b(?:prescription|rx)(?:\s*(?:#|number|no\.?)?:?\s*)[A-Z0-9\-]{6,15}\b" "gi"
      ; RE "\b(?:group)(?:\s*(?:#|number|no\.?)?:?\s*)[A-Z0-9\-]{4,15}\b" "gi"
      ]
      (str "[REDACTED_MEDICAL]")
  ; mkPattern financial_amounts
      [ RE "\$[0-9,]+\.[0-9]{2}\b" "g"
      ; RE "\$[0-9,]+\b" "g"
      ; RE "\$\s*[0-9]+\s*\.\s*[0-9]{2}\b" "g"
      ; RE "\b(?:amount|balance|total|payment|price|cost|fee|charge)(?:\s*(?:of|is|was|:)?\s*)\$[0-9,]+(?:\.[0-9]{2})?\b" "gi"
      ]
      (str "[REDACTED_AMOUNT]")
  ; mkPattern regular_urls
      [ RE "https?:\/\/[^\s<>\x22']+" "gi"
      ]
      (str "[REDACTED_URL]")
  ].

Local Close Scope string_scope.

Record SanitizeOptions : Type := mkOptions {
  enabled : bool;
  categories : list RedactionCategory
}.

Definition DEFAULT_SANITIZE_OPTIONS : SanitizeOptions :=
  mkOptions false DEFAULT_REDACTION_CATEGORIES.

(** [Record<RedactionCategory, number>]: an object, its keys in insertion
    order. *)
Definition counts := list (RedactionCategory * nat).

Record SanitizeResult : Type := mkResult {
  text : jsstring;
  redactionCount : nat;
  redactionsByCategory : counts
}.

(** [obj[k]]; [None] is [undefined]. *)
Fixpoint get (k : RedactionCategory) (o : counts) : option nat :=
  match o with
  | [] => None
  | (k', v) :: o' => if cat_eqb k k' then Some v else get k o'
  end.

(** [obj[k] = v]. *)
Fixpoint set (k : RedactionCategory) (v : nat) (o : counts) : counts :=
  match o with
  | [] => [(k, v)]
  | (k', v') :: o' =>
      if cat_eqb k k' then (k, v) :: o' else (k', v') :: set k v o'
  end.

(** One pattern of a category: count the matches in the current text,
    then replace them. *)
Definition apply_regex (cat : RedactionCategory) (repl : jsstring)
  (st : jsstring * nat * counts) (regex : RegExp.t)
  : jsstring * nat * counts :=
  let '(result, totalCount, countsByCategory) := st in
  let matches := RegExp.match_all regex result in
  let '(totalCount, countsByCategory) :=
    match matches with
    | [] => (totalCount, countsByCategory)
    | _ :: _ =>
        let n := List.length matches in
        (totalCount + n,
         set cat (Parser.or_else (get cat countsByCategory) 0 + n)
           countsByCategory)
    end in
  (RegExp.replace regex repl result, totalCount, countsByCategory).

Definition apply_pattern (options : SanitizeOptions)
  (st : jsstring * nat * counts) (pattern : RedactionPattern)
  : jsstring * nat * counts :=
  if negb (existsb (cat_eqb (category pattern)) (categories options))
  then st
  else fold_left (apply_regex (category pattern) (replacement pattern))
         (patterns pattern) st.

Definition sanitizeText (text : jsstring) (options : SanitizeOptions)
  : SanitizeResult :=
  if negb (enabled options) || negb (truthy text) then
    mkResult text 0 []
  else
    let countsByCategory :=
      fold_left (fun o cat => set cat 0 o) ALL_REDACTION_CATEGORIES [] in
    let '(result, totalCount, countsByCategory) :=
      fold_left (apply_pattern options) PATTERNS
        (text, 0, countsByCategory) in
    mkResult result totalCount countsByCategory.

End Sanitizer.

(* ================================================================== *)
(** * Vocabulary of the statements *)
(* ================================================================== *)

Module Spec.
Import JS Parser Sanitizer.

(** The parts of a tree in depth-first pre-order. *)
Fixpoint flatten (p : MessagePart) : list MessagePart :=
  match p with
  | mkPart _ _ _ ps => p :: flat_map flatten ps
  end.

Definition nodes (payload : option MessagePart) : list MessagePart :=
  match payload with Some p => flatten p | None => [] end.

(** The extension as the specification words it: the units after the last
    ['.'], when they are 1 to 10 lower-case letters or digits. *)
Fixpoint after_last_dot (s : jsstring) : option jsstring :=
  match s with
  | [] => None
  | c :: r =>
      match after_last_dot r with
      | Some e => Some e
      | None => if (c =? 46)%N then Some r else None
      end
  end.

Definition is_lower_alnum (c : char) : bool :=
  in_range 97 122 c || in_range 48 57 c.

Definition valid_extension (e : jsstring) : bool :=
  forallb is_lower_alnum e && (1 <=? List.length e) && (List.length e <=? 10).

Definition spec_extension (name : jsstring) : option jsstring :=
  match after_last_dot name with
  | Some e => if valid_extension e then Some e else None
  | None => None
  end.

Definition spec_attachment_type (p : MessagePart) : jsstring :=
  match spec_extension (toLowerCase (part_filename p)) with
  | Some e => e
  | None =>
      match mimeType p with
      | Some (c :: m) => toLowerCase (c :: m)
      | _ => str "unknown"
      end
  end.

(** The URL-safe alphabet mapped to the standard one, and the padding that
    completes a length to a multiple of 4. *)
Definition translate (c : char) : char :=
  if (c =? 45)%N then 43%N else if (c =? 95)%N then 47%N else c.

Definition padding (len : nat) : jsstring :=
  List.repeat 61%N ((4 - len mod 4) mod 4).

Definition padded (data : jsstring) : jsstring :=
  List.map translate data ++ padding (List.length data).

(** The cut of [extractBodyText]. *)
Definition cut (maxChars : Z) (body : jsstring) : jsstring :=
  if (0 <? maxChars)%Z && (maxChars <? Z.of_nat (List.length body))%Z
  then firstn (Z.to_nat maxChars) body
  else body.

(** The parts whose data the body walker keeps, and what it keeps. *)
Definition contributes (mime : jsstring) (p : MessagePart) : bool :=
  negb (isAttachment p) && truthy (part_data p)
  && eqs (part_mimeType p) mime.

Definition decoded (dec : jsstring -> jsstring) (p : MessagePart)
  : jsstring :=
  dec (padded (part_data p)).

Definition plain_segments (dec : jsstring -> jsstring)
  (payload : option MessagePart) : list jsstring :=
  List.map (decoded dec)
    (filter (contributes (str "text/plain")) (nodes payload)).

Definition html_segments (dec : jsstring -> jsstring)
  (payload : option MessagePart) : list jsstring :=
  List.map (decoded dec)
    (filter (contributes (str "text/html")) (nodes payload)).

(** No pattern of the registry matches in [s]. *)
Definition no_match (s : jsstring) (re : RegExp.t) : bool :=
  match RegExp.match_all re s with [] => true | _ :: _ => false end.

Definition inert (s : jsstring) : bool :=
  forallb (fun pat => forallb (no_match s) (patterns pat)) PATTERNS.

(** The text after a run of patterns of the address category. *)
Definition text_after (res : list RegExp.t) (repl s : jsstring)
  : jsstring :=
  fst (fst (fold_left (apply_regex physical_addresses repl) res
              (s, 0, []))).

(** The unit before the end of the input, for a match that runs to the
    end. *)
Fixpoint last_unit (prev : option char) (rest : jsstring) : option char :=
  match rest with
  | [] => prev
  | c :: r => last_unit (Some c) r
  end.

(** The parts of the examples. *)
Definition invoice : MessagePart :=
  mkPart None (Some (str "Invoice.PDF"))
    (Some (mkBody None (Some 120%Z) None)) [].

Definition noext (mime : option jsstring) : MessagePart :=
  mkPart mime (Some (str "noext"))
    (Some (mkBody None None (Some (str "ANGjdJ8w")))) [].

Definition notes_txt : MessagePart :=
  mkPart (Some (str "text/plain")) (Some (str "notes.txt"))
    (Some (mkBody (Some (str "aGk=")) None None)) [].

Definition alternative : MessagePart :=
  mkPart (Some (str "multipart/alternative")) None None
    [ mkPart (Some (str "text/plain")) None
        (Some (mkBody (Some (str "IAo=")) (Some 2%Z) None)) []
    ; mkPart (Some (str "text/html")) None
        (Some (mkBody (Some (str "PHA-SGVsbG88L3A-")) (Some 12%Z) None)) [] ].

Definition patterns_of (cat : RedactionCategory) : list RegExp.t :=
  flat_map (fun pat => if cat_eqb (category pat) cat then patterns pat
                       else []) PATTERNS.

End Spec.

Unset Implicit Arguments.

(* ================================================================== *)
(** * src/parser.ts: extractBodyHtml *)
(* ================================================================== *)

Module BodyHtml.
Import JS Parser.

Section Decoder.

Variable base64_utf8 : jsstring -> jsstring.

Definition html_visit (p : MessagePart) (htmlParts : list jsstring)
  : option (list jsstring) :=
  if negb (isAttachment p) && truthy (part_data p)
     && eqs (part_mimeType p) (str "text/html")
  then decodeBase64Url base64_utf8 (part_data p)
       >>= fun text => Some (htmlParts ++ [text])
  else Some htmlParts.

Fixpoint html_walk (p : MessagePart) (htmlParts : list jsstring)
  : option (list jsstring) :=
  match p with
  | mkPart _ _ _ ps =>
      fold_left (fun acc q => acc >>= html_walk q) ps
        (html_visit p htmlParts)
  end.

Definition extractBodyHtml (payload : option MessagePart) (maxChars : Z)
  : option jsstring :=
  (match payload with
   | Some p => html_walk p []
   | None => Some []
   end)
  >>= fun htmlParts =>
  let out := trim (join [10%N] htmlParts) in
  if (0 <? maxChars)%Z && (maxChars <? Z.of_nat (List.length out))%Z
  then Some (slice0 out maxChars)
  else Some out.

End Decoder.

End BodyHtml.

(* ================================================================== *)
(** * src/address-detector.ts: redactAddresses *)
(* ================================================================== *)

Module AddressRedaction.
Import JS AddressDetector.

Definition token : jsstring := str "[REDACTED_ADDRESS]".

(** One round of the two loops: count the matches, then replace them. *)
Definition redact_step (st : jsstring * nat) (pattern : RegExp.t)
  : jsstring * nat :=
  let (result, totalCount) := st in
  let matches := RegExp.match_all pattern result in
  (RegExp.replace pattern token result,
   match matches with
   | [] => totalCount
   | _ :: _ => totalCount + List.length matches
   end).

Definition re_cleanup := RE "(\[REDACTED_ADDRESS\]\s*)+" "g".

Definition redactAddresses (text : jsstring) : jsstring * nat :=
  let st := fold_left redact_step getAddressPatterns (text, 0) in
  let st := fold_left redact_step getCityPatterns st in
  (RegExp.replace re_cleanup (str "[REDACTED_ADDRESS] ") (fst st), snd st).

End AddressRedaction.

(* ================================================================== *)
(** * src/exporter.ts: extractFields *)
(* ================================================================== *)

Module Exporter.
Import JS Parser Sanitizer.

(** [ExportField] of [src/types.ts]. *)
Inductive ExportField : Type :=
| from_email | from_name | sender_domain | reply_to | reply_to_domain
| delivered_to | to | cc | bcc | subject | snippet | date | message_id
| thread_id | labels | has_attachment | attachment_types
| attachment_count | has_list_unsubscribe | body_text | body_html.

Definition ExportField_eq_dec (a b : ExportField) : {a = b} + {a <> b}.
Proof. decide equality. Defined.

Definition field_eqb (a b : ExportField) : bool :=
  if ExportField_eq_dec a b then true else false.

(** What [extractFields] reads of a [gmail_v1.Schema$Message].  The
    headers are those of the payload ([payload?.headers], an absent array
    read as empty). *)
Record Message : Type := mkMessage {
  payload : option MessagePart;
  headers : list Header;
  msg_snippet : option jsstring;
  threadId : option jsstring;
  labelIds : option (list jsstring)
}.

(** What [extractFields] reads of an [ExportConfig]. *)
Record ExportConfig : Type := mkConfig {
  fields : list ExportField;
  bodyMaxChars : Z;
  sanitize : SanitizeOptions
}.

(** [Record<ExportField, string>]: every key is set from the start. *)
Definition Row := ExportField -> jsstring.

Definition empty_row : Row := fun _ => [].

Definition set_field (row : Row) (f : ExportField) (v : jsstring) : Row :=
  fun g => if field_eqb g f then v else row g.

(** [String(n)] for a count. *)
Definition String_of_nat (n : nat) : jsstring :=
  str (NilEmpty.string_of_uint (Nat.to_uint n)).

Definition bool_string (b : bool) : jsstring :=
  if b then str "true" else str "false".

(** The values extracted before the loop. *)
Record Common : Type := mkCommon {
  fromName : jsstring;
  fromEmail : jsstring;
  replyToEmail : jsstring;
  deliveredTo : jsstring;
  attach : AttachmentInfo
}.

Definition common (msg : Message) : Common :=
  let from := parseEmail (getHeader (headers msg) (str "From")) in
  mkCommon (name from) (email from)
    (email (parseEmail (getHeader (headers msg) (str "Reply-To"))))
    (email (parseEmail (getHeader (headers msg) (str "Delivered-To"))))
    (collectAttachmentTypes (payload msg)).

Section Decoder.

Variable base64_utf8 : jsstring -> jsstring.

(** The [sanitizeText] step of the two body cases. *)
Definition sanitized (config : ExportConfig) (body : jsstring) : jsstring :=
  if enabled (sanitize config)
  then text (sanitizeText body (sanitize config))
  else body.

(** One round of the loop over [config.fields]: the [switch]. *)
Definition assign (msg : Message) (config : ExportConfig) (c : Common)
  (row : Row) (field : ExportField) : option Row :=
  match field with
  | from_email => Some (set_field row from_email (fromEmail c))
  | from_name => Some (set_field row from_name (fromName c))
  | sender_domain =>
      Some (set_field row sender_domain (domainFromEmail (fromEmail c)))
  | reply_to => Some (set_field row reply_to (replyToEmail c))
  | reply_to_domain =>
      Some (set_field row reply_to_domain
              (if truthy (replyToEmail c)
               then domainFromEmail (replyToEmail c)
               else []))
  | delivered_to => Some (set_field row delivered_to (deliveredTo c))
  | to => Some (set_field row to (getHeader (headers msg) (str "To")))
  | cc => Some (set_field row cc (getHeader (headers msg) (str "Cc")))
  | bcc => Some (set_field row bcc (getHeader (headers msg) (str "Bcc")))
  | subject =>
      Some (set_field row subject (getHeader (headers msg) (str "Subject")))
  | snippet => Some (set_field row snippet (or_else (msg_snippet msg) []))
  | date => Some (set_field row date (getHeader (headers msg) (str "Date")))
  | message_id =>
      Some (set_field row message_id
              (getHeader (headers msg) (str "Message-ID")))
  | thread_id => Some (set_field row thread_id (or_else (threadId msg) []))
  | labels =>
      Some (set_field row labels
              (join (str ";") (or_else (labelIds msg) [])))
  | has_attachment =>
      Some (set_field row has_attachment
              (bool_string (hasAttachment (attach c))))
  | attachment_types =>
      Some (set_field row attachment_types
              (join (str ";") (types (attach c))))
  | attachment_count =>
      Some (set_field row attachment_count
              (String_of_nat (count (attach c))))
  | has_list_unsubscribe =>
      Some (set_field row has_list_unsubscribe
              (bool_string
                 (0 <? List.length
                         (trim (getHeader (headers msg)
                                  (str "List-Unsubscribe"))))))
  | body_text =>
      extractBodyText base64_utf8 (payload msg) (bodyMaxChars config)
      >>= fun bodyText =>
      Some (set_field row body_text (sanitized config bodyText))
  | body_html =>
      BodyHtml.extractBodyHtml base64_utf8 (payload msg)
        (bodyMaxChars config)
      >>= fun bodyHtml =>
      Some (set_field row body_html (sanitized config bodyHtml))
  end.

Definition extractFields (msg : Message) (config : ExportConfig)
  : option Row :=
  let c := common msg in
  fold_left (fun acc field => acc >>= fun row =>
               assign msg config c row field)
    (fields config) (Some empty_row).

End Decoder.

End Exporter.

(* ================================================================== *)
(** * src/csv.ts: csvEscape *)
(* ================================================================== *)

Module Csv.
Import JS Exporter.

Definition RE := RegExpSyntax.compile.

Definition re_crlf := RE "\r\n" "g".
Definition re_lf := RE "\n" "g".
Definition re_cr := RE "\r" "g".
Definition re_spaces := RE "\s+" "g".
Definition re_special := RE "[\x22,]" "".
Definition re_dquote := RE "\x22" "g".

(** [re.test(s)]. *)
Definition test (re : RegExp.t) (s : jsstring) : bool :=
  match RegExp.exec re s with Some _ => true | None => false end.

(** The local [v] of [csvEscape]: the value on one line, trimmed. *)
Definition one_line (value : jsstring) : jsstring :=
  trim
    (RegExp.replace re_spaces (str " ")
       (RegExp.replace re_cr (str " ")
          (RegExp.replace re_lf (str " ")
             (RegExp.replace re_crlf (str " ") value)))).

Definition csvEscape (value : jsstring) : jsstring :=
  let v := one_line value in
  if test re_special v
  then [34%N] ++ RegExp.replace re_dquote [34%N; 34%N] v ++ [34%N]
  else v.

(** The string of a field name. *)
Definition field_name (f : ExportField) : jsstring :=
  match f with
  | from_email => str "from_email"
  | from_name => str "from_name"
  | sender_domain => str "sender_domain"
  | reply_to => str "reply_to"
  | reply_to_domain => str "reply_to_domain"
  | delivered_to => str "delivered_to"
  | to => str "to"
  | cc => str "cc"
  | bcc => str "bcc"
  | subject => str "subject"
  | snippet => str "snippet"
  | date => str "date"
  | message_id => str "message_id"
  | thread_id => str "thread_id"
  | labels => str "labels"
  | has_attachment => str "has_attachment"
  | attachment_types => str "attachment_types"
  | attachment_count => str "attachment_count"
  | has_list_unsubscribe => str "has_list_unsubscribe"
  | body_text => str "body_text"
  | body_html => str "body_html"
  end.

(** ** createOutputManager *)

(** The state of the closure: the files whose stream has ended and the
    current stream are kept as the chunks written to them, and a path is
    stood for by its part index. *)
Record OutputManager : Type := mkManager {
  partIndex : nat;
  ended : list (list jsstring);
  stream : list jsstring;
  bytesInCurrentFile : nat;
  totalBytes : nat;
  filesCreated : list nat
}.

Section Output.

(** [Buffer.byteLength(s, 'utf8')]. *)
Variable byteLength : jsstring -> nat.

Variable maxBytesPerFile : Z.
Variable fields : list ExportField.

Definition headerLine : jsstring :=
  join (str ",") (List.map field_name fields) ++ [10%N].

Definition createOutputManager : OutputManager :=
  mkManager 1 [] [headerLine] (byteLength headerLine)
    (byteLength headerLine) [1].

Definition rotateIfNeeded (nextLineBytes : nat) (o : OutputManager)
  : OutputManager :=
  if (0 <? maxBytesPerFile)%Z
     && (maxBytesPerFile
         <? Z.of_nat (bytesInCurrentFile o + nextLineBytes))%Z
  then mkManager (S (partIndex o)) (ended o ++ [stream o]) [headerLine]
         (byteLength headerLine) (totalBytes o)
         (filesCreated o ++ [S (partIndex o)])
  else o.

(** The line of a row. *)
Definition line_of (row : Row) : jsstring :=
  join (str ",") (List.map (fun f => csvEscape (row f)) fields) ++ [10%N].

Definition write (row : Row) (o : OutputManager) : OutputManager :=
  let line := line_of row in
  let lineBytes := byteLength line in
  let o := rotateIfNeeded lineBytes o in
  mkManager (partIndex o) (ended o) (stream o ++ [line])
    (bytesInCurrentFile o + lineBytes) (totalBytes o + lineBytes)
    (filesCreated o).

Definition getBytesWritten (o : OutputManager) : nat := totalBytes o.

Definition getFilesCreated (o : OutputManager) : list nat := filesCreated o.

End Output.

End Csv.

(* ================================================================== *)
(** * Vocabulary of the further statements *)
(* ================================================================== *)

Module Props.
Import JS RegExp.

(** Every match of the node starts with the unit [c]. *)
Fixpoint starts_with_unit (c : char) (r : node) : bool :=
  match r with
  | NChar c' => (c' =? c)%N
  | NSeq a _ => starts_with_unit c a
  | NAlt a b => starts_with_unit c a && starts_with_unit c b
  | NGroup _ a => starts_with_unit c a
  | NRep (S _) (Some (S _)) _ a => starts_with_unit c a
  | NRep (S _) None _ a => starts_with_unit c a
  | _ => false
  end.

Definition pattern_starts_with (c : char) (re : RegExp.t) : bool :=
  match prog re with
  | Some p => starts_with_unit c p
  | None => true
  end.

(** [st'] is [st] moved forward over [pre]. *)
Definition advanced (st st' : mstate) (pre : jsstring) : Prop :=
  m_rest st = pre ++ m_rest st'
  /\ m_pos st' = m_pos st + List.length pre.

(** A matcher in continuation-passing style only moves forward: what a
    successful run hands to its continuation is the state it was given,
    advanced. *)
Definition moves_forward (f : mstate -> cont -> option mstate) : Prop :=
  forall st k res, f st k = Some res ->
    exists st' pre, advanced st st' pre /\ k st' = Some res.

(** The next unit of the input is not [c]. *)
Definition next_is_not (c : char) (st : mstate) : Prop :=
  match m_rest st with x :: _ => x <> c | [] => True end.

(** The first unit, if any, fails the test. *)
Definition head_fails (p : char -> bool) (rest : jsstring) : Prop :=
  match rest with c :: _ => p c = false | [] => True end.

Definition head_not_space (s : jsstring) : Prop := head_fails is_space s.

(** The first code point is a low surrogate. *)
Definition head_low (cps : list N) : bool :=
  match cps with d :: _ => is_low d | [] => false end.

(** No lone high surrogate is followed by a lone low one. *)
Fixpoint well_paired (cps : list N) : bool :=
  match cps with
  | [] => true
  | c :: r => negb (is_high c && head_low r) && well_paired r
  end.

(** A code point that lower-casing leaves alone, whatever is around it. *)
Definition settled (c : N) : bool :=
  (lower_point c =? c)%N && negb (c =? 931)%N && negb (c =? 304)%N.

Definition surrogate (c : N) : bool := is_high c || is_low c.

(** The header [h] answers to [name], whatever the case. *)
Definition named (name : jsstring) (h : Parser.Header) : Prop :=
  toLowerCase (Parser.or_else (Parser.h_name h) []) = toLowerCase name.

(** What the attachment walker keeps true of its set and its counter. *)
Definition summary_ok (st : list jsstring * nat) : Prop :=
  NoDup (fst st) /\ List.length (fst st) <= snd st
  /\ (0 < snd st -> 0 < List.length (fst st)).

(** The first pattern of [decodeHtmlEntities]. *)
Definition re_hex_entity := Parser.RE "&#x([0-9a-fA-F]+);" "g".

(** A unit that is no white space other than the space. *)
Definition one_line_unit (c : char) : Prop := is_space c = true -> c = 32%N.

(** The last stage of [htmlToTextKeepingLinks]: white space collapsed
    line by line, at most one empty line in a row, the whole trimmed. *)
Definition normalizeWhitespace (s : jsstring) : jsstring :=
  trim
    (RegExp.replace (Parser.RE "\n{3,}" "g") [10%N; 10%N]
       (join [10%N]
          (List.map
             (fun line =>
                trim (RegExp.replace (Parser.RE "\s+" "g") (str " ") line))
             (split_char 10 s)))).

(** A hexadecimal digit, as [parseInt] reads it. *)
Definition is_hex_digit (c : char) : bool :=
  match digit_value c with Some _ => true | None => false end.




(** The totals of the redaction loop. *)
Definition count_of (st : jsstring * nat * Sanitizer.counts) : nat :=
  snd (fst st).

Definition text_of (st : jsstring * nat * Sanitizer.counts) : jsstring :=
  fst (fst st).

(** A match that ends after the position it starts at. *)
Definition matches_here (re : RegExp.t) (prev : option char)
  (rest : jsstring) (pos : nat) : Prop :=
  exists res, RegExp.match_at re prev rest pos = Some res
              /\ RegExp.m_pos (RegExp.r_end res) <> pos.

(** The value that the [switch] of [extractFields] assigns to a field;
    [None] when its computation raises. *)
Definition assigned (base64_utf8 : jsstring -> jsstring)
  (msg : Exporter.Message) (config : Exporter.ExportConfig)
  (field : Exporter.ExportField) : option jsstring :=
  option_map (fun row => row field)
    (Exporter.assign base64_utf8 msg config (Exporter.common msg)
       Exporter.empty_row field).

(** A message and a configuration for the examples. *)
Definition newsletter : Exporter.Message :=
  Exporter.mkMessage (Some Spec.alternative)
    [ Parser.mkHeader (Some (str "FROM"))
        (Some (str "News <News@Example.COM>"))
    ; Parser.mkHeader (Some (str "Subject")) (Some (str "Hello")) ]
    None (Some (str "t1")) (Some [str "INBOX"; str "UNREAD"]).

Definition some_fields : Exporter.ExportConfig :=
  Exporter.mkConfig
    [ Exporter.sender_domain; Exporter.subject; Exporter.from_email
    ; Exporter.attachment_count; Exporter.has_attachment ]
    0 Sanitizer.DEFAULT_SANITIZE_OPTIONS.

(** The files of an output manager, oldest first, and the size of one. *)
Definition files (o : Csv.OutputManager) : list (list jsstring) :=
  Csv.ended o ++ [Csv.stream o].

Definition file_bytes (byteLength : jsstring -> nat) (f : list jsstring)
  : nat :=
  list_sum (List.map byteLength f).

(** The manager after the rows have been written in order. *)
Definition written (byteLength : jsstring -> nat) (maxBytesPerFile : Z)
  (fields : list Exporter.ExportField) (rows : list Exporter.Row)
  : Csv.OutputManager :=
  fold_left (fun o row => Csv.write byteLength maxBytesPerFile fields row o)
    rows (Csv.createOutputManager byteLength fields).

(** What the manager keeps true while rows are written: every file
    starts with the header, the lines after the headers are the lines
    written, the counters agree with the files, and a file beyond the
    limit holds at most the header and one row. *)
Definition manager_ok (byteLength : jsstring -> nat) (maxBytesPerFile : Z)
  (fields : list Exporter.ExportField) (lines : list jsstring)
  (o : Csv.OutputManager) : Prop :=
  Forall (fun f => exists ls, f = Csv.headerLine fields :: ls) (files o)
  /\ List.concat (List.map (@tl jsstring) (files o)) = lines
  /\ Csv.bytesInCurrentFile o = file_bytes byteLength (Csv.stream o)
  /\ list_sum (List.map (file_bytes byteLength) (files o))
     = Csv.totalBytes o
       + (Csv.partIndex o - 1) * byteLength (Csv.headerLine fields)
  /\ Csv.filesCreated o = seq 1 (Csv.partIndex o)
  /\ List.length (files o) = Csv.partIndex o
  /\ ((0 < maxBytesPerFile)%Z ->
      Forall (fun f => (Z.of_nat (file_bytes byteLength f)
                        <= maxBytesPerFile)%Z
                       \/ List.length f <= 2) (files o)).

End Props.

(* ================================================================== *)
(** * The redaction engine *)
(* ================================================================== *)

Import JS Parser Sanitizer Spec.

Unset Implicit Arguments.

(** The patterns of the registry are well formed and carry the [g]
    flag. *)
Lemma PATTERNS_well_formed :
  forallb (fun pat =>
    forallb (fun re => match RegExp.prog re with
                       | Some _ => RegExp.global re
                       | None => false
                       end) (patterns pat)) PATTERNS = true.
Proof. vm_compute. reflexivity. Qed.

(** Section 8 of the specification: one tax ID, one placeholder. *)
Example sanitize_ssn :
  sanitizeText (str "My SSN is 123-45-6789") (mkOptions true [tax_ids])
  = mkResult (str "My SSN is [REDACTED_TAX_ID]") 1
      (set tax_ids 1 (List.map (fun c => (c, 0)) ALL_REDACTION_CATEGORIES)).
Proof. vm_compute. reflexivity. Qed.

(** Section 8: a disabled category leaves its matches alone. *)
Example sanitize_phone_disabled :
  text (sanitizeText (str "SSN 123-45-6789, phone 415-555-1234")
          (mkOptions true [tax_ids; ip_addresses]))
  = str "SSN [REDACTED_TAX_ID], phone 415-555-1234".
Proof. vm_compute. reflexivity. Qed.

(** C1 (as stated, refuted): with [enabled = false] the per-category map
    is empty, so a category of the registry is not mapped to 0. *)
Lemma sanitize_disabled_counts_absent :
  let r := sanitizeText (str "Call 415-555-1234") DEFAULT_SANITIZE_OPTIONS in
  enabled DEFAULT_SANITIZE_OPTIONS = false
  /\ In phone_numbers ALL_REDACTION_CATEGORIES
  /\ redactionsByCategory r = []
  /\ get phone_numbers (redactionsByCategory r) <> Some 0.
Proof.
  vm_compute. repeat split; auto 10; discriminate.
Qed.

(** C1 (amended): with [enabled = false], [sanitizeText] returns the text
    unchanged, a total of 0 and an empty per-category map, in which no
    category has an entry. *)
Theorem sanitize_disabled_identity (t : jsstring) (options : SanitizeOptions) :
  enabled options = false ->
  let r := sanitizeText t options in
  text r = t /\ redactionCount r = 0 /\ redactionsByCategory r = []
  /\ forall cat, get cat (redactionsByCategory r) = None.
Proof.
  intros Hoff. unfold sanitizeText. rewrite Hoff.
  cbn [negb orb text redactionCount redactionsByCategory get].
  repeat split.
Qed.

(** C1, at the default options of the source, which are disabled. *)
Lemma sanitize_disabled_identity_witness :
  enabled DEFAULT_SANITIZE_OPTIONS = false
  /\ text (sanitizeText (str "Call 415-555-1234") DEFAULT_SANITIZE_OPTIONS)
     = str "Call 415-555-1234".
Proof.
  split.
  - reflexivity.
  - exact (proj1 (sanitize_disabled_identity (str "Call 415-555-1234")
                    DEFAULT_SANITIZE_OPTIONS eq_refl)).
Defined.

(** C10: on the empty text [sanitizeText] returns at once, whatever the
    configuration: empty text, total 0 and an empty per-category map, the
    total and the map of the disabled path on any text. *)
Theorem sanitize_empty_text (options : SanitizeOptions) :
  sanitizeText [] options = mkResult [] 0 []
  /\ forall t cats,
       sanitizeText t (mkOptions false cats)
       = mkResult t (redactionCount (sanitizeText [] options))
           (redactionsByCategory (sanitizeText [] options)).
Proof.
  unfold sanitizeText. cbn [truthy negb enabled orb].
  rewrite orb_true_r. split; reflexivity.
Qed.

Lemma cat_eqb_eq (a b : RedactionCategory) : cat_eqb a b = true <-> a = b.
Proof.
  unfold cat_eqb. destruct (RedactionCategory_eq_dec a b); split;
    congruence.
Qed.

Lemma get_set_present (k k' : RedactionCategory) (v : nat) (o : counts) :
  get k' o <> None -> get k' (set k v o) <> None.
Proof.
  induction o as [|[k0 v0] o IH]; cbn [get set]; [congruence|].
  destruct (cat_eqb k k0) eqn:E1; cbn [get].
  - apply cat_eqb_eq in E1. subst k0.
    destruct (cat_eqb k' k); [discriminate | auto].
  - destruct (cat_eqb k' k0); [discriminate | exact IH].
Qed.

Lemma apply_regex_present cat repl st re k :
  get k (snd st) <> None -> get k (snd (apply_regex cat repl st re)) <> None.
Proof.
  destruct st as [[s n] cs]. unfold apply_regex. cbn [snd].
  destruct (RegExp.match_all re s); cbn [snd]; [auto|].
  apply get_set_present.
Qed.

Lemma apply_pattern_present options st pat k :
  get k (snd st) <> None -> get k (snd (apply_pattern options st pat)) <> None.
Proof.
  unfold apply_pattern. destruct (negb _); [auto|].
  generalize (patterns pat) as res. intros res. revert st.
  induction res as [|re res IH]; intros st H; cbn [fold_left]; [exact H|].
  apply IH. now apply apply_regex_present.
Qed.

(** On the enabled path every category of the registry has an entry. *)
Lemma sanitize_enabled_counts_present (t : jsstring) (options : SanitizeOptions) :
  enabled options = true -> t <> [] ->
  forall cat, get cat (redactionsByCategory (sanitizeText t options)) <> None.
Proof.
  intros Hon Ht cat. unfold sanitizeText. rewrite Hon.
  destruct t as [|c t]; [congruence|]. cbn [truthy negb orb].
  set (init := fold_left (fun o c0 => set c0 0 o) ALL_REDACTION_CATEGORIES []).
  assert (Hinit : get cat init <> None)
    by (destruct cat; vm_compute; discriminate).
  assert (H : forall pats st,
             get cat (snd st) <> None ->
             get cat (snd (fold_left (apply_pattern options) pats st)) <> None).
  { induction pats as [|pat pats IH]; intros st Hst; cbn [fold_left];
      [exact Hst|]. apply IH. now apply apply_pattern_present. }
  assert (Hsnd : forall X : jsstring * nat * counts,
             redactionsByCategory
               (let '(r, n, cs) := X in mkResult r n cs) = snd X)
    by (intros [[r n] cs]; reflexivity).
  rewrite Hsnd. now apply H.
Qed.

(** ** Texts in which nothing matches *)

Lemma rebuild_const_lits (r rest : jsstring) :
  RegExp.rebuild_const r (List.map RegExp.Lit rest) = rest.
Proof.
  induction rest as [|c rest IH]; cbn; [reflexivity | now rewrite IH].
Qed.

(** A scan without a hit returns the input, unit by unit. *)
Lemma scan_without_hits (r : jsstring) (re : RegExp.t) (fuel : nat) :
  forall prev rest pos,
    RegExp.hits (RegExp.scan fuel re prev rest pos) = [] ->
    RegExp.rebuild_const r (RegExp.scan fuel re prev rest pos) = rest.
Proof.
  induction fuel as [|fuel IH]; intros prev rest pos Hhits.
  - apply rebuild_const_lits.
  - cbn [RegExp.scan] in *.
    destruct (RegExp.match_at re prev rest pos) as [res|].
    + destruct (Nat.eqb _ pos); cbn in Hhits; discriminate.
    + destruct rest as [|c rest']; [reflexivity|].
      cbn in *. now rewrite IH.
Qed.

Lemma no_match_replace (r s : jsstring) (re : RegExp.t) :
  RegExp.global re = true -> no_match s re = true ->
  RegExp.replace re r s = s.
Proof.
  unfold no_match, RegExp.match_all, RegExp.replace, RegExp.scan_all.
  intros -> Hno.
  apply scan_without_hits.
  destruct (RegExp.hits _) as [|h hs]; [reflexivity | discriminate].
Qed.

Lemma apply_regex_no_match cat repl s n cs re :
  RegExp.global re = true -> no_match s re = true ->
  apply_regex cat repl (s, n, cs) re = (s, n, cs).
Proof.
  intros Hg Hno. unfold apply_regex.
  rewrite (no_match_replace repl s re Hg Hno).
  unfold no_match in Hno.
  destruct (RegExp.match_all re s); [reflexivity | discriminate].
Qed.

Lemma apply_regexes_no_match cat repl s n cs (res : list RegExp.t) :
  forallb RegExp.global res = true -> forallb (no_match s) res = true ->
  fold_left (apply_regex cat repl) res (s, n, cs) = (s, n, cs).
Proof.
  induction res as [|re res IH]; cbn [fold_left forallb]; [reflexivity|].
  intros Hg Hno.
  apply andb_true_iff in Hg as [Hg1 Hg2].
  apply andb_true_iff in Hno as [Hn1 Hn2].
  rewrite apply_regex_no_match by assumption. now apply IH.
Qed.

Lemma apply_patterns_no_match options s n cs (pats : list RedactionPattern) :
  forallb (fun pat => forallb RegExp.global (patterns pat)) pats = true ->
  forallb (fun pat => forallb (no_match s) (patterns pat)) pats = true ->
  fold_left (apply_pattern options) pats (s, n, cs) = (s, n, cs).
Proof.
  induction pats as [|pat pats IH]; cbn [fold_left forallb]; [reflexivity|].
  intros Hg Hno.
  apply andb_true_iff in Hg as [Hg1 Hg2].
  apply andb_true_iff in Hno as [Hn1 Hn2].
  unfold apply_pattern at 2.
  destruct (negb _).
  - now apply IH.
  - rewrite apply_regexes_no_match by assumption. now apply IH.
Qed.

Lemma PATTERNS_global :
  forallb (fun pat => forallb RegExp.global (patterns pat)) PATTERNS = true.
Proof. vm_compute. reflexivity. Qed.

(** A text in which no pattern of the registry matches is returned as it
    is, whatever the configuration. *)
Lemma inert_fixed_point (s : jsstring) (options : SanitizeOptions) :
  inert s = true ->
  text (sanitizeText s options) = s
  /\ redactionCount (sanitizeText s options) = 0.
Proof.
  intros Hin. unfold sanitizeText.
  destruct (negb (enabled options) || negb (truthy s)); [now split|].
  rewrite (apply_patterns_no_match options s 0 _ PATTERNS PATTERNS_global Hin).
  now split.
Qed.

Lemma placeholders_inert :
  forallb inert (List.map replacement PATTERNS) = true.
Proof. vm_compute. reflexivity. Qed.

(** C2 (as stated, refuted): redacting the masked suffix of a card number
    uncovers a word boundary, and the second run redacts the 16 digits
    the first run left. *)
Lemma sanitize_rerun_changes_output :
  let c := mkOptions true [credit_cards] in
  let r1 := sanitizeText (str "1111 2222 3333 4444xx5678") c in
  let r2 := sanitizeText (text r1) c in
  text r1 = str "1111 2222 3333 4444[REDACTED_CARD]"
  /\ text r2 = str "[REDACTED_CARD][REDACTED_CARD]"
  /\ redactionCount r2 = 1
  /\ text r2 <> text r1.
Proof.
  vm_compute. repeat split. discriminate.
Qed.

(** C2 (amended): on the text that is exactly one placeholder token of
    the registry, no pattern of any category matches, so for every
    configuration [sanitizeText] returns that text unchanged with a total
    of 0.  Nothing is stated of a token inside a longer text: see
    [placeholder_matched_in_context]. *)
Theorem placeholder_is_fixed_point (options : SanitizeOptions) (p : jsstring) :
  In p (List.map replacement PATTERNS) ->
  text (sanitizeText p options) = p
  /\ redactionCount (sanitizeText p options) = 0.
Proof.
  intros Hin. apply inert_fixed_point.
  exact (proj1 (forallb_forall inert _) placeholders_inert p Hin).
Qed.

(** C2, at the card placeholder with every category enabled. *)
Lemma placeholder_is_fixed_point_witness :
  In (str "[REDACTED_CARD]") (List.map replacement PATTERNS)
  /\ text (sanitizeText (str "[REDACTED_CARD]")
             (mkOptions true ALL_REDACTION_CATEGORIES))
     = str "[REDACTED_CARD]"
  /\ redactionCount (sanitizeText (str "[REDACTED_CARD]")
                       (mkOptions true ALL_REDACTION_CATEGORIES)) = 0.
Proof.
  assert (Hin : In (str "[REDACTED_CARD]") (List.map replacement PATTERNS))
    by (left; reflexivity).
  split; [exact Hin|].
  exact (placeholder_is_fixed_point
           (mkOptions true ALL_REDACTION_CATEGORIES)
           (str "[REDACTED_CARD]") Hin).
Defined.

(** Inside a longer text a token is matched again: the pattern of the
    password category takes the token of a telephone number for the value
    that follows [pin:]. *)
Remark placeholder_matched_in_context :
  let r := sanitizeText (str "pin: [REDACTED_PHONE]")
             (mkOptions true ALL_REDACTION_CATEGORIES) in
  existsb (eqs (str "[REDACTED_PHONE]")) (List.map replacement PATTERNS)
  = true
  /\ text r = str "[REDACTED_PASSWORD]"
  /\ redactionCount r = 1
  /\ get passwords (redactionsByCategory r) = Some 1.
Proof. vm_compute. repeat split. Qed.

(** ** The order of the address patterns *)

(** With a state of [US_STATES] the sixth pattern, City, State ZIP, takes
    the whole address before the bare ZIP pattern runs. *)
Remark city_state_zip_redacted_whole :
  text_after (firstn 5 (patterns_of physical_addresses))
    (str "[REDACTED_ADDRESS]") (str "Chicago, IL 60601")
  = str "Chicago, IL 60601"
  /\ text_after (firstn 6 (patterns_of physical_addresses))
       (str "[REDACTED_ADDRESS]") (str "Chicago, IL 60601")
     = str "[REDACTED_ADDRESS]".
Proof. split; vm_compute; reflexivity. Qed.

(** C9: in the pattern list of [physical_addresses] the bare ZIP pattern
    is the 8th and the city patterns are the 22nd onwards.  On
    ["Chicago, PR 60601"] the seven patterns before the bare ZIP pattern
    change nothing, the bare ZIP pattern redacts the digits, and the
    pattern of Chicago, which matches the original text, finds nothing in
    the text it is applied to. *)
Theorem bare_zip_preempts_city_pattern :
  let pats := patterns_of physical_addresses in
  let zip := RegExpSyntax.compile "\b[0-9]{5}(?:-[0-9]{4})?\b" "g" in
  let chicago :=
    RegExpSyntax.compile
      "\bChicago\s*[,.]?\s*(?:[A-Z]{2}\s*)?[0-9]{5}(?:-[0-9]{4})?\b" "gi" in
  let token := str "[REDACTED_ADDRESS]" in
  let t := str "Chicago, PR 60601" in
  let mutated := str "Chicago, PR [REDACTED_ADDRESS]" in
  nth_error pats 7 = Some zip
  /\ skipn 21 pats = AddressDetector.CITY_PATTERNS
  /\ In chicago AddressDetector.CITY_PATTERNS
  /\ RegExp.match_all chicago t = [t]
  /\ text_after (firstn 7 pats) token t = t
  /\ RegExp.match_all zip t = [str "60601"]
  /\ text_after (firstn 8 pats) token t = mutated
  /\ text_after (firstn 21 pats) token t = mutated
  /\ RegExp.match_all chicago mutated = []
  /\ sanitizeText t (mkOptions true [physical_addresses])
     = mkResult mutated 1
         (set physical_addresses 1
            (List.map (fun c => (c, 0)) ALL_REDACTION_CATEGORIES)).
Proof.
  cbv zeta.
  assert (Hin : In (RegExpSyntax.compile
      "\bChicago\s*[,.]?\s*(?:[A-Z]{2}\s*)?[0-9]{5}(?:-[0-9]{4})?\b" "gi")
      AddressDetector.CITY_PATTERNS).
  { apply (nth_error_In _ 70). vm_compute. reflexivity. }
  repeat split; try exact Hin; vm_compute; reflexivity.
Qed.

(* ================================================================== *)
(** * The parser *)
(* ================================================================== *)

(** ** Strings *)

Lemma eqs_eq (a b : jsstring) : eqs a b = true <-> a = b.
Proof.
  revert b. induction a as [|x a IH]; destruct b as [|y b]; cbn;
    try (split; [discriminate | discriminate]); try tauto.
  rewrite andb_true_iff, N.eqb_eq, IH.
  split; [intros [-> ->]; reflexivity | intros H; inversion H; auto].
Qed.

Lemma truthy_nonempty (s : jsstring) : truthy s = true <-> s <> [].
Proof.
  destruct s; cbn; split; try discriminate; try congruence; auto.
Qed.

(** ** Induction on message trees *)

Lemma MessagePart_tree_ind (P : MessagePart -> Prop) :
  (forall m f b ps, Forall P ps -> P (mkPart m f b ps)) ->
  forall p, P p.
Proof.
  intros Hnode. fix IH 1. intros [m f b ps]. apply Hnode.
  induction ps as [|q ps IHps]; constructor; [apply IH | exact IHps].
Qed.

(** The attachment walker visits the parts in pre-order. *)
Lemma attach_walk_flatten (p : MessagePart) :
  forall st, attach_walk p st
             = fold_left (fun acc q => attach_visit q acc) (flatten p) st.
Proof.
  induction p as [m f b ps IH] using MessagePart_tree_ind. intros st.
  cbn [attach_walk flatten fold_left].
  generalize (attach_visit (mkPart m f b ps) st) as st1.
  induction IH as [|q ps Hq _ IHps]; intros st1; cbn [fold_left flat_map].
  - reflexivity.
  - rewrite fold_left_app, <- Hq. apply IHps.
Qed.

Lemma attach_count_filter (l : list MessagePart) :
  forall st, snd (fold_left (fun acc q => attach_visit q acc) l st)
             = snd st + List.length (filter looksLikeAttachment l).
Proof.
  induction l as [|q l IH]; intros st; cbn [fold_left filter].
  - now rewrite Nat.add_0_r.
  - rewrite IH. unfold attach_visit.
    destruct (looksLikeAttachment q); cbn; lia.
Qed.

Lemma set_add_In (x y : jsstring) (s : list jsstring) :
  In x (set_add y s) <-> In x s \/ x = y.
Proof.
  unfold set_add. destruct (existsb (eqs y) s) eqn:E.
  - split; [auto|]. intros [H | ->]; [exact H|].
    apply existsb_exists in E as (z & Hz & Heq).
    apply eqs_eq in Heq. now subst.
  - rewrite in_app_iff. cbn. intuition.
Qed.

Lemma attach_types_In (x : jsstring) (l : list MessagePart) :
  forall st,
    In x (fst (fold_left (fun acc q => attach_visit q acc) l st))
    <-> In x (fst st)
        \/ exists q, In q l /\ looksLikeAttachment q = true
                     /\ attachment_type q = x.
Proof.
  induction l as [|q l IH]; intros st; cbn [fold_left].
  - split; [auto | intros [H | (q & [] & _)]; exact H].
  - rewrite IH. unfold attach_visit.
    destruct (looksLikeAttachment q) eqn:E; cbn [fst].
    + rewrite set_add_In. split.
      * intros [[H | ->] | (r & Hr & Hl & Ht)]; eauto 8 using in_eq, in_cons.
      * intros [H | (r & [<- | Hr] & Hl & Ht)]; eauto 8.
    + split.
      * intros [H | (r & Hr & Hl & Ht)]; eauto 8 using in_cons.
      * intros [H | (r & [<- | Hr] & Hl & Ht)]; [auto | congruence | eauto 8].
Qed.

Lemma insert_sorted_In {A : Type} (leb : A -> A -> bool) (x y : A) (l : list A) :
  In x (insert_sorted leb y l) <-> x = y \/ In x l.
Proof.
  induction l as [|z l IH]; cbn.
  - intuition.
  - destruct (leb y z); cbn; [intuition | rewrite IH; intuition].
Qed.

Lemma sort_In {A : Type} (leb : A -> A -> bool) (x : A) (l : list A) :
  In x (sort leb l) <-> In x l.
Proof.
  unfold sort. induction l as [|y l IH]; cbn; [tauto|].
  rewrite insert_sorted_In, IH. intuition.
Qed.

(** The named patterns of the parser are well formed. *)
Lemma parser_patterns_well_formed :
  forallb (fun re => match RegExp.prog re with
                     | Some _ => true
                     | None => false
                     end)
    [re_angle; re_email; re_quote; re_brackets; re_ext; re_minus;
     re_underscore] = true.
Proof. vm_compute. reflexivity. Qed.

(** ** Examples of section 8 of the specification *)

Example parseEmail_angle :
  parseEmail (str "John Doe <John@Example.COM>")
  = mkAddress (str "John Doe") (str "john@example.com").
Proof. vm_compute. reflexivity. Qed.

Example domainFromEmail_example :
  domainFromEmail (str "john@example.com") = str "example.com".
Proof. vm_compute. reflexivity. Qed.

Example htmlToText_example :
  htmlToTextKeepingLinks
    (str "<p>Hi<br>there</p><a href=" ++ [34%N] ++ str "http://x.co"
     ++ [34%N] ++ str ">click</a>")
  = Some (str "Hi" ++ [10%N] ++ str "there" ++ [10%N; 10%N]
          ++ str "click (http://x.co)").
Proof. vm_compute. reflexivity. Qed.

(** A numeric entity above U+10FFFF makes [String.fromCodePoint] raise,
    and the conversion with it. *)
Remark htmlToText_raises :
  htmlToTextKeepingLinks (str "&#x110000;") = None.
Proof. vm_compute. reflexivity. Qed.

(** ** The extension pattern *)

Section Greedy.
Variable p : char -> bool.
Variable k : RegExp.cont.
Hypothesis k_at_end : forall st, RegExp.m_rest st <> [] -> k st = None.

Lemma greedy_to_end (rest : jsstring) :
  forall fuel min max prev pos caps,
    List.length rest + min < fuel -> min <= max ->
    RegExp.rep_loop (RegExp.step_char p) [] true fuel min (Some max)
      (RegExp.mkst prev rest pos caps) k
    = if forallb p rest && (min <=? List.length rest)
         && (List.length rest <=? max)
      then k (RegExp.mkst (last_unit prev rest) [] (pos + List.length rest) caps)
      else None.
Proof.
  induction rest as [|c rest IH]; intros fuel min max prev pos caps Hfuel Hmm;
    (destruct fuel as [|fuel]; [lia|]); cbn [RegExp.rep_loop List.length forallb last_unit].
  - destruct max as [|max].
    + assert (min = 0) by lia. subst. cbn. now rewrite Nat.add_0_r.
    + destruct min as [|min]; cbn.
      * now rewrite Nat.add_0_r.
      * reflexivity.
  - destruct max as [|max].
    + cbn. rewrite andb_false_r. apply k_at_end. cbn. discriminate.
    + destruct min as [|min]; cbn [RegExp.clear_caps option_map Nat.pred RegExp.step_char RegExp.m_rest RegExp.m_pos RegExp.m_caps].
      * destruct (p c) eqn:Hp; cbn [andb].
        -- replace (Nat.eqb (S pos) pos) with false
             by (symmetry; apply Nat.eqb_neq; lia).
           rewrite IH by (cbn in *; lia).
           replace (pos + S (List.length rest)) with (S pos + List.length rest) by lia.
           cbn [Nat.leb].
           destruct (forallb p rest && true && (List.length rest <=? max)) eqn:E.
           ++ destruct (k _); [reflexivity|]. apply k_at_end. cbn. discriminate.
           ++ apply k_at_end. cbn. discriminate.
        -- apply k_at_end. cbn. discriminate.
      * destruct (p c) eqn:Hp; cbn [andb]; [|reflexivity].
        rewrite IH by (cbn in *; lia).
        replace (pos + S (List.length rest)) with (S pos + List.length rest) by lia.
        reflexivity.
Qed.
End Greedy.

Lemma re_ext_prog :
  re_ext = RegExp.mk
    (Some (RegExp.NSeq (RegExp.NChar 46)
       (RegExp.NSeq
          (RegExp.NGroup 1
             (RegExp.NRep 1 (Some 10) true
                (RegExp.NClass false
                   [RegExp.CRange 97 122; RegExp.CRange 48 57])))
          RegExp.NEol))) false false.
Proof. vm_compute. reflexivity. Qed.

Lemma lower_alnum_class (c : char) :
  RegExp.class_match false false
    [RegExp.CRange 97 122; RegExp.CRange 48 57] c = is_lower_alnum c.
Proof.
  unfold RegExp.class_match, is_lower_alnum. cbn.
  unfold RegExp.in_range_ic. cbn. now rewrite !orb_false_r.
Qed.

Lemma forallb_ext_eq {A : Type} (f g : A -> bool) (l : list A) :
  (forall x, f x = g x) -> forallb f l = forallb g l.
Proof.
  intros H. induction l as [|x l IH]; cbn; [reflexivity | now rewrite H, IH].
Qed.

(** An attempt of the extension pattern at one position. *)
Lemma match_at_re_ext (prev : option char) (rest : jsstring) (pos : nat) :
  option_map RegExp.r_caps (RegExp.match_at re_ext prev rest pos)
  = match rest with
    | c :: e =>
        if (c =? 46)%N && valid_extension e then Some [(1, e)] else None
    | [] => None
    end.
Proof.
  rewrite re_ext_prog. unfold RegExp.match_at. cbn [RegExp.prog RegExp.ignoreCase].
  destruct rest as [|c e]; [reflexivity|].
  cbn [RegExp.m RegExp.step_char RegExp.m_rest RegExp.canonicalize RegExp.groups].
  destruct (c =? 46)%N; [|reflexivity].
  cbn [andb RegExp.m_pos RegExp.m_caps RegExp.m_rest RegExp.m_prev].
  rewrite greedy_to_end.
  - rewrite (forallb_ext_eq _ is_lower_alnum e lower_alnum_class).
    unfold valid_extension.
    destruct (forallb is_lower_alnum e && (1 <=? List.length e)
              && (List.length e <=? 10)); [|reflexivity].
    cbn.
    replace (pos + List.length e - pos) with (List.length e) by lia.
    now rewrite firstn_all.
  - intros st Hst. cbn. destruct (RegExp.m_rest st); [congruence | reflexivity].
  - lia.
  - lia.
Qed.

Lemma alnum_no_dot (e : jsstring) :
  forallb is_lower_alnum e = true -> after_last_dot e = None.
Proof.
  induction e as [|c e IH]; cbn; [reflexivity|].
  intros H. apply andb_true_iff in H as [Hc He].
  rewrite (IH He).
  destruct (c =? 46)%N eqn:E; [|reflexivity].
  apply N.eqb_eq in E. subst. discriminate.
Qed.

Lemma valid_extension_alnum (e : jsstring) :
  valid_extension e = true -> forallb is_lower_alnum e = true.
Proof.
  unfold valid_extension. intros H.
  apply andb_true_iff in H as [H _]. now apply andb_true_iff in H as [H _].
Qed.

(** The leftmost match of the extension pattern captures what the
    specification calls the extension. *)
Lemma search_re_ext (rest : jsstring) :
  forall prev pos,
    RegExp.search_from re_ext prev rest pos >>= RegExp.group 1
    = spec_extension rest.
Proof.
  induction rest as [|c e IH]; intros prev pos; cbn [RegExp.search_from].
  - pose proof (match_at_re_ext prev [] pos) as H.
    destruct (RegExp.match_at re_ext prev [] pos); [discriminate|reflexivity].
  - pose proof (match_at_re_ext prev (c :: e) pos) as H.
    unfold spec_extension. cbn [after_last_dot].
    destruct (RegExp.match_at re_ext prev (c :: e) pos) as [res|];
      cbn [option_map] in H.
    + destruct ((c =? 46)%N && valid_extension e) eqn:E; [|discriminate].
      apply andb_true_iff in E as [Ec Ee].
      rewrite (alnum_no_dot e (valid_extension_alnum e Ee)), Ec, Ee.
      injection H as H. cbn. rewrite H. reflexivity.
    + rewrite IH. unfold spec_extension.
      destruct (after_last_dot e) as [e'|]; [reflexivity|].
      destruct (c =? 46)%N; [|reflexivity].
      cbn [andb] in H. destruct (valid_extension e); [discriminate|reflexivity].
Qed.

Lemma spec_extension_truthy (s e : jsstring) :
  spec_extension s = Some e -> truthy e = true.
Proof.
  unfold spec_extension. destruct (after_last_dot s) as [e'|]; [|discriminate].
  destruct (valid_extension e') eqn:E; [|discriminate].
  intros H. injection H as <-. unfold valid_extension in E.
  destruct e'; [cbn in E; discriminate | reflexivity].
Qed.

(** The type recorded for an attachment is the one the specification
    describes. *)
Lemma attachment_type_spec (p : MessagePart) :
  attachment_type p = spec_attachment_type p.
Proof.
  unfold attachment_type, spec_attachment_type, RegExp.exec.
  rewrite search_re_ext.
  destruct (spec_extension _) as [e|] eqn:E.
  - cbn. now rewrite (spec_extension_truthy _ _ E).
  - cbn [truthy_opt]. destruct (mimeType p) as [[|c m]|]; reflexivity.
Qed.

Lemma truthy_opt_iff (x : option jsstring) :
  truthy_opt x = true <-> exists id, x = Some id /\ id <> [].
Proof.
  destruct x as [id|]; cbn.
  - rewrite truthy_nonempty. split; [eauto|].
    intros (id' & H & Hne). now injection H as ->.
  - split; [discriminate | intros (id & H & _); discriminate].
Qed.

Lemma size_positive_iff (x : option Z) :
  (0 < match x with Some n => n | None => 0 end)%Z
  <-> exists n, x = Some n /\ (0 < n)%Z.
Proof.
  destruct x as [n|].
  - split; [eauto|]. intros (n' & H & Hn). now injection H as ->.
  - split; [lia | intros (n & H & _); discriminate].
Qed.

Lemma looksLikeAttachment_iff (p : MessagePart) :
  looksLikeAttachment p = true <->
  trim (or_else (filename p) []) <> []
  /\ ((exists id, body p >>= attachmentId = Some id /\ id <> [])
      \/ (exists n, body p >>= size = Some n /\ (0 < n)%Z)).
Proof.
  unfold looksLikeAttachment, part_filename, part_attachmentId, part_size.
  rewrite andb_true_iff, orb_true_iff, Nat.ltb_lt, Z.ltb_lt.
  rewrite truthy_opt_iff, size_positive_iff.
  assert (H : 0 < List.length (trim (or_else (filename p) []))
              <-> trim (or_else (filename p) []) <> []).
  { destruct (trim _); cbn; split; try lia; try congruence; discriminate. }
  rewrite H. reflexivity.
Qed.

(** C3 (amended): a part is counted as an attachment if and only if its
    filename is non-empty once trimmed and its [attachmentId] is a
    non-empty string or its [body.size] is positive; the count is the
    number of such parts of the tree.  The recorded types are those of the
    counted parts: the 1 to 10 lower-case letters or digits after the last
    ['.'] of the trimmed, lower-cased filename, else the lower-cased
    non-empty [mimeType], else ["unknown"].  ["Invoice.PDF"] with size 120
    gives ["pdf"]; ["noext"] with an [attachmentId] gives the [mimeType]
    or ["unknown"]. *)
Theorem attachment_classification :
  (forall p, looksLikeAttachment p = true <->
     trim (or_else (filename p) []) <> []
     /\ ((exists id, body p >>= attachmentId = Some id /\ id <> [])
         \/ (exists n, body p >>= size = Some n /\ (0 < n)%Z)))
  /\ (forall payload,
        count (collectAttachmentTypes payload)
        = List.length (filter looksLikeAttachment (nodes payload)))
  /\ (forall p, attachment_type p = spec_attachment_type p)
  /\ (forall payload x,
        In x (types (collectAttachmentTypes payload)) <->
        exists p, In p (nodes payload) /\ looksLikeAttachment p = true
                  /\ spec_attachment_type p = x)
  /\ collectAttachmentTypes (Some invoice) = mkInfo true [str "pdf"] 1
  /\ collectAttachmentTypes (Some (noext (Some (str "Application/PDF"))))
     = mkInfo true [str "application/pdf"] 1
  /\ collectAttachmentTypes (Some (noext None))
     = mkInfo true [str "unknown"] 1.
Proof.
  split; [exact looksLikeAttachment_iff|].
  split; [|split; [exact attachment_type_spec|split]].
  - intros [p|]; cbn [collectAttachmentTypes count nodes]; [|reflexivity].
    rewrite attach_walk_flatten. apply attach_count_filter.
  - intros payload x. unfold collectAttachmentTypes. cbn [types].
    rewrite sort_In.
    destruct payload as [p|]; cbn [nodes].
    + rewrite attach_walk_flatten, attach_types_In. cbn [fst In].
      split.
      * intros [[] | (q & Hq & Hl & Ht)]. exists q.
        now rewrite <- attachment_type_spec.
      * intros (q & Hq & Hl & Ht). right. exists q.
        now rewrite attachment_type_spec.
    + cbn. split; [intros [] | intros (q & [] & _)].
  - repeat split; vm_compute; reflexivity.
Qed.

(** C3 (as stated, refuted): a part whose filename is two spaces, with an
    [attachmentId] and a positive size, has a non-empty filename and is
    not counted. *)
Lemma blank_filename_not_counted :
  let p := mkPart (Some (str "application/pdf")) (Some (str "  "))
             (Some (mkBody None (Some 2048%Z) (Some (str "ANGjdJ8w")))) [] in
  filename p = Some (str "  ")
  /\ str "  " <> []
  /\ body p >>= attachmentId = Some (str "ANGjdJ8w")
  /\ body p >>= size = Some 2048%Z
  /\ looksLikeAttachment p = false
  /\ collectAttachmentTypes (Some p) = mkInfo false [] 0.
Proof.
  vm_compute. repeat split. discriminate.
Qed.

(** Lower-casing is that of Unicode: the Kelvin sign U+212A after the dot
    is recorded as [k], and a media type in Cyrillic capitals is recorded
    in small letters. *)
Remark extension_lower_cased_by_unicode :
  collectAttachmentTypes
    (Some (mkPart None (Some (str "scan." ++ [8490%N]))
             (Some (mkBody None (Some 1%Z) None)) []))
  = mkInfo true [str "k"] 1
  /\ collectAttachmentTypes
       (Some (mkPart (Some [1055; 1044; 1060]%N) (Some (str "noext"))
                (Some (mkBody None (Some 1%Z) None)) []))
     = mkInfo true [[1087; 1076; 1092]%N] 1.
Proof. vm_compute. split; reflexivity. Qed.

(** ** decodeBase64Url *)

(** Replacing every occurrence of one unit. *)
Lemma scan_single_unit (c : char) (d : jsstring) (rest : jsstring) :
  forall fuel prev pos,
    List.length rest < fuel ->
    RegExp.rebuild_const d
      (RegExp.scan fuel (RegExp.mk (Some (RegExp.NChar c)) true false)
         prev rest pos)
    = flat_map (fun x => if (x =? c)%N then d else [x]) rest.
Proof.
  induction rest as [|x rest IH]; intros fuel prev pos Hfuel;
    (destruct fuel as [|fuel]; [lia|]).
  - reflexivity.
  - cbn [RegExp.scan RegExp.match_at RegExp.prog RegExp.ignoreCase RegExp.m
         RegExp.step_char RegExp.m_rest RegExp.canonicalize flat_map].
    cbn [List.length] in Hfuel.
    destruct (x =? c)%N.
    + cbn [RegExp.r_end RegExp.m_pos RegExp.m_prev RegExp.m_rest RegExp.m_caps].
      replace (Nat.eqb (S pos) pos) with false
        by (symmetry; apply Nat.eqb_neq; lia).
      cbn [RegExp.rebuild_const]. rewrite IH by lia. reflexivity.
    + cbn [RegExp.rebuild_const]. rewrite IH by lia. reflexivity.
Qed.

Lemma replace_single_unit (c d : char) (s : jsstring) :
  RegExp.replace (RegExp.mk (Some (RegExp.NChar c)) true false) [d] s
  = List.map (fun x => if (x =? c)%N then d else x) s.
Proof.
  unfold RegExp.replace, RegExp.scan_all. cbn [RegExp.global].
  rewrite scan_single_unit by lia.
  induction s as [|x s IH]; cbn; [reflexivity|].
  rewrite IH. now destruct (x =? c)%N.
Qed.

Lemma translate_replace (data : jsstring) :
  RegExp.replace re_underscore (str "/")
    (RegExp.replace re_minus (str "+") data)
  = List.map translate data.
Proof.
  change re_underscore with (RegExp.mk (Some (RegExp.NChar 95)) true false).
  change re_minus with (RegExp.mk (Some (RegExp.NChar 45)) true false).
  change (str "/") with [47%N]. change (str "+") with [43%N].
  rewrite !replace_single_unit, map_map.
  apply map_ext. intros x. unfold translate.
  destruct (x =? 45)%N eqn:E; [reflexivity|].
  reflexivity.
Qed.

Lemma concat_repeat_unit (c : char) (n : nat) :
  List.concat (List.repeat [c] n) = List.repeat c n.
Proof. induction n; cbn; [reflexivity | now rewrite IHn]. Qed.

Lemma padding_cases (n : nat) :
  (n mod 4 = 0 /\ padding n = [])
  \/ (n mod 4 <> 0 /\ padding n = List.repeat 61%N (4 - n mod 4)).
Proof.
  unfold padding. pose proof (Nat.mod_upper_bound n 4) as Hb.
  destruct (Nat.eq_dec (n mod 4) 0) as [E|E].
  - left. rewrite E. cbn. auto.
  - right. split; [exact E|]. f_equal. apply Nat.mod_small. lia.
Qed.

(** [decodeBase64Url] never raises: the count passed to [repeat] is 1, 2
    or 3. *)
Lemma decodeBase64Url_padded (dec : jsstring -> jsstring) (data : jsstring) :
  decodeBase64Url dec data = Some (dec (padded data)).
Proof.
  unfold decodeBase64Url, padded. rewrite translate_replace, length_map.
  set (n := List.length data).
  assert (Hmod : (Z.of_nat n mod 4 = Z.of_nat (n mod 4))%Z).
  { change 4%Z with (Z.of_nat 4). now rewrite <- Nat2Z.inj_mod. }
  pose proof (Nat.mod_upper_bound n 4) as Hb.
  rewrite Hmod.
  destruct (padding_cases n) as [[E ->] | [E ->]].
  - rewrite E. cbn. reflexivity.
  - clear Hmod. generalize dependent (n mod 4). intros r Hb E.
    specialize (Hb ltac:(lia)).
    destruct (Z.eqb_spec (Z.of_nat r) 0) as [E0|E0]; [lia|].
    unfold repeat_str.
    destruct (Z.ltb_spec (4 - Z.of_nat r) 0) as [Hlt|Hge]; [lia|].
    cbn [bind]. change (str "=") with [61%N].
    rewrite concat_repeat_unit.
    replace (Z.to_nat (4 - Z.of_nat r)) with (4 - r) by lia. reflexivity.
Qed.

Lemma padded_length (data : jsstring) :
  List.length (padded data) mod 4 = 0.
Proof.
  unfold padded. rewrite length_app, length_map.
  set (n := List.length data).
  pose proof (Nat.mod_upper_bound n 4 ltac:(lia)) as Hb.
  pose proof (Nat.div_mod_eq n 4) as Hd.
  destruct (padding_cases n) as [[E ->] | [E ->]].
  - cbn. now rewrite Nat.add_0_r.
  - rewrite repeat_length.
    generalize dependent (n mod 4). generalize (n / 4). intros q r Hb Hd E.
    replace (n + (4 - r)) with (0 + (q + 1) * 4) by lia.
    apply Nat.Div0.mod_add.
Qed.

(** C8: [decodeBase64Url] returns for every input.  It maps ['-'] to
    ['+'] and ['_'] to ['/'], leaves every other unit, appends fewer than
    four ['='] so that the length is a multiple of 4, and hands the result
    to the decoder. *)
Theorem decodeBase64Url_total (dec : jsstring -> jsstring) (data : jsstring) :
  decodeBase64Url dec data = Some (dec (padded data))
  /\ (exists k, k < 4 /\ padded data = List.map translate data ++ List.repeat 61%N k)
  /\ List.length (padded data) mod 4 = 0
  /\ translate 45 = 43%N /\ translate 95 = 47%N
  /\ (forall c, c <> 45%N -> c <> 95%N -> translate c = c).
Proof.
  split; [apply decodeBase64Url_padded|].
  split.
  { exists ((4 - List.length data mod 4) mod 4). split.
    - apply Nat.mod_upper_bound. lia.
    - reflexivity. }
  split; [apply padded_length|].
  repeat split.
  intros c H1 H2. unfold translate.
  apply N.eqb_neq in H1, H2. now rewrite H1, H2.
Qed.

(** ** The body walker *)

Lemma mime_exclusive (m : jsstring) :
  eqs m (str "text/plain") = true -> eqs m (str "text/html") = false.
Proof.
  intros H. apply eqs_eq in H. subst. reflexivity.
Qed.

Lemma body_visit_spec (dec : jsstring -> jsstring) (p : MessagePart) (st : Segments) :
  body_visit dec p st
  = Some (mkSeg
      (plainParts st ++
         if contributes (str "text/plain") p then [decoded dec p] else [])
      (htmlParts st ++
         if contributes (str "text/html") p then [decoded dec p] else [])).
Proof.
  unfold body_visit, contributes, decoded.
  destruct st as [pl ht]. cbn [plainParts htmlParts].
  destruct (negb (isAttachment p) && truthy (part_data p)); cbn [andb].
  - rewrite decodeBase64Url_padded. cbn [bind].
    destruct (eqs (part_mimeType p) (str "text/plain")) eqn:E.
    + rewrite (mime_exclusive _ E). now rewrite app_nil_r.
    + destruct (eqs (part_mimeType p) (str "text/html"));
        now rewrite ?app_nil_r.
  - now rewrite !app_nil_r.
Qed.

Lemma body_walk_flatten (dec : jsstring -> jsstring) (p : MessagePart) :
  forall st, body_walk dec p st
             = fold_left (fun acc q => acc >>= body_visit dec q) (flatten p)
                 (Some st).
Proof.
  induction p as [m f b ps IH] using MessagePart_tree_ind. intros st.
  cbn [body_walk flatten fold_left bind].
  generalize (body_visit dec (mkPart m f b ps) st) as acc.
  induction IH as [|q ps Hq _ IHps]; intros acc; cbn [fold_left flat_map].
  - reflexivity.
  - rewrite fold_left_app, IHps. f_equal.
    destruct acc as [st1|]; cbn [bind].
    + apply Hq.
    + clear. induction (flatten q) as [|r l IHl]; cbn; [reflexivity | exact IHl].
Qed.

Lemma body_fold_filter (dec : jsstring -> jsstring) (l : list MessagePart) :
  forall st,
    fold_left (fun acc q => acc >>= body_visit dec q) l (Some st)
    = Some (mkSeg
        (plainParts st ++
           List.map (decoded dec) (filter (contributes (str "text/plain")) l))
        (htmlParts st ++
           List.map (decoded dec) (filter (contributes (str "text/html")) l))).
Proof.
  induction l as [|q l IH]; intros st; cbn [fold_left filter List.map bind].
  - destruct st. cbn. now rewrite !app_nil_r.
  - rewrite body_visit_spec. cbn [bind]. rewrite IH.
    cbn [plainParts htmlParts].
    destruct (contributes (str "text/plain") q),
             (contributes (str "text/html") q);
      cbn [List.map]; now rewrite <- !app_assoc.
Qed.

Lemma collect_segments_spec (dec : jsstring -> jsstring) (payload : option MessagePart) :
  collect_segments dec payload
  = Some (mkSeg (plain_segments dec payload) (html_segments dec payload)).
Proof.
  unfold collect_segments, plain_segments, html_segments.
  destruct payload as [p|]; cbn [nodes]; [|reflexivity].
  now rewrite body_walk_flatten, body_fold_filter.
Qed.

Lemma contributes_iff (mime : jsstring) (p : MessagePart) :
  contributes mime p = true <->
  trim (or_else (filename p) []) = []
  /\ ~ (exists id, body p >>= attachmentId = Some id /\ id <> [])
  /\ or_else (body p >>= data) [] <> []
  /\ toLowerCase (or_else (mimeType p) []) = mime.
Proof.
  unfold contributes, isAttachment, part_filename, part_attachmentId,
    part_data, part_mimeType.
  rewrite !andb_true_iff, negb_true_iff, orb_false_iff, eqs_eq,
    truthy_nonempty, Nat.ltb_ge.
  assert (H1 : List.length (trim (or_else (filename p) [])) <= 0
               <-> trim (or_else (filename p) []) = []).
  { destruct (trim _); cbn; split; try lia; congruence. }
  assert (H2 : truthy_opt (body p >>= attachmentId) = false
               <-> ~ (exists id, body p >>= attachmentId = Some id /\ id <> [])).
  { destruct (body p >>= attachmentId) as [[|c id]|]; cbn; split;
      try discriminate; try reflexivity.
    - intros _ (id & H & Hne). injection H as <-. congruence.
    - intros H. exfalso. apply H. exists (c :: id). split; [reflexivity | discriminate].
    - intros _ (id & H & _). discriminate. }
  rewrite H1, H2. tauto.
Qed.

(** C4 (amended): the body walker keeps, in pre-order, the decoded data
    of exactly the parts of the tree whose trimmed filename is empty, whose
    [attachmentId] is absent or empty, whose [body.data] is non-empty and
    whose lower-cased [mimeType] is [text/plain] (first list) or
    [text/html] (second list); the other parts add nothing, and their
    children are visited like all parts of the tree. *)
Theorem body_segments (dec : jsstring -> jsstring) (payload : option MessagePart) :
  collect_segments dec payload
  = Some (mkSeg
      (List.map (fun p => dec (padded (or_else (body p >>= data) [])))
         (filter (contributes (str "text/plain")) (nodes payload)))
      (List.map (fun p => dec (padded (or_else (body p >>= data) [])))
         (filter (contributes (str "text/html")) (nodes payload))))
  /\ forall mime p,
       contributes mime p = true <->
       trim (or_else (filename p) []) = []
       /\ ~ (exists id, body p >>= attachmentId = Some id /\ id <> [])
       /\ or_else (body p >>= data) [] <> []
       /\ toLowerCase (or_else (mimeType p) []) = mime.
Proof.
  split; [apply collect_segments_spec | apply contributes_iff].
Qed.

(** C4 (as stated, refuted): a [text/plain] part with inline data and a
    filename, but neither [attachmentId] nor size, is no attachment in the
    sense of the attachment walker, and the body walker skips it. *)
Lemma named_inline_text_skipped :
  looksLikeAttachment notes_txt = false
  /\ mimeType notes_txt = Some (str "text/plain")
  /\ body notes_txt >>= data = Some (str "aGk=")
  /\ NodeBuffer.base64_utf8 (str "aGk=") = str "hi"
  /\ collect_segments NodeBuffer.base64_utf8 (Some notes_txt)
     = Some (mkSeg [] []).
Proof. vm_compute. repeat split. Qed.

(** ** Body selection *)

Lemma bind_ret {A : Type} (x : option A) : x >>= (fun a => Some a) = x.
Proof. now destruct x. Qed.

Lemma cut_zero (body : jsstring) : cut 0 body = body.
Proof. reflexivity. Qed.

(** The body before the cut. *)
Lemma extractBodyText_cut (dec : jsstring -> jsstring)
  (payload : option MessagePart) (maxChars : Z) :
  extractBodyText dec payload maxChars
  = option_map (cut maxChars) (extractBodyText dec payload 0).
Proof.
  unfold extractBodyText.
  destruct (collect_segments dec payload) as [st|]; cbn [bind]; [|reflexivity].
  match goal with |- ?x >>= _ = _ => destruct x as [out|] end;
    cbn [bind option_map]; [|reflexivity].
  change (0 <? 0)%Z with false. cbn [andb option_map].
  unfold cut, slice0.
  now destruct ((0 <? maxChars)%Z && (maxChars <? Z.of_nat (List.length out))%Z).
Qed.

(** C5 (amended): without a length limit, the body is the trimmed
    join of the plain-text segments when that is non-empty; otherwise it
    is [htmlToTextKeepingLinks] of the trimmed join of the HTML segments
    when that is non-empty, and the empty string otherwise. *)
Theorem body_selection (dec : jsstring -> jsstring) (payload : option MessagePart) :
  let plain := trim (join [10%N] (plain_segments dec payload)) in
  let html := trim (join [10%N] (html_segments dec payload)) in
  extractBodyText dec payload 0
  = if truthy plain then Some plain
    else if truthy html then htmlToTextKeepingLinks html
    else Some [].
Proof.
  cbv zeta. unfold extractBodyText.
  rewrite collect_segments_spec. cbn [bind plainParts htmlParts].
  destruct (truthy (trim (join [10%N] (plain_segments dec payload))));
    cbn [negb bind]; [reflexivity|].
  destruct (truthy (trim (join [10%N] (html_segments dec payload))));
    [|reflexivity].
  destruct (htmlToTextKeepingLinks _); reflexivity.
Qed.

(** C5 (as stated, refuted): a plain-text segment exists, but it is
    blank, and the body comes from the HTML segment. *)
Lemma blank_plain_falls_back_to_html :
  plain_segments NodeBuffer.base64_utf8 (Some alternative) = [[32; 10]%N]
  /\ html_segments NodeBuffer.base64_utf8 (Some alternative)
     = [str "<p>Hello</p>"]
  /\ extractBodyText NodeBuffer.base64_utf8 (Some alternative) 0
     = Some (str "Hello")
  /\ Some (str "Hello")
     <> Some (join [10%N]
                (plain_segments NodeBuffer.base64_utf8 (Some alternative))).
Proof. vm_compute. repeat split. discriminate. Qed.

Lemma cut_length (maxChars : Z) (body : jsstring) :
  (0 < maxChars)%Z ->
  (Z.of_nat (List.length (cut maxChars body)) <= maxChars)%Z.
Proof.
  intros Hpos. unfold cut.
  destruct (Z.ltb_spec 0 maxChars) as [_|]; [|lia]. cbn [andb].
  destruct (Z.ltb_spec maxChars (Z.of_nat (List.length body))) as [Hlt|Hge].
  - rewrite length_firstn. lia.
  - exact Hge.
Qed.

Lemma cut_exact (maxChars : Z) (body : jsstring) :
  (0 < maxChars)%Z -> (maxChars < Z.of_nat (List.length body))%Z ->
  cut maxChars body = firstn (Z.to_nat maxChars) body
  /\ Z.of_nat (List.length (cut maxChars body)) = maxChars.
Proof.
  intros Hpos Hlt. unfold cut.
  destruct (Z.ltb_spec 0 maxChars) as [_|]; [|lia].
  destruct (Z.ltb_spec maxChars (Z.of_nat (List.length body))) as [_|]; [|lia].
  cbn [andb]. split; [reflexivity|]. rewrite length_firstn. lia.
Qed.

Lemma extractBodyText_closed (dec : jsstring -> jsstring)
  (payload : option MessagePart) (maxChars : Z) :
  extractBodyText dec payload maxChars
  = option_map (cut maxChars)
      (if truthy (trim (join [10%N] (plain_segments dec payload)))
       then Some (trim (join [10%N] (plain_segments dec payload)))
       else if truthy (trim (join [10%N] (html_segments dec payload)))
            then htmlToTextKeepingLinks
                   (trim (join [10%N] (html_segments dec payload)))
            else Some []).
Proof.
  unfold extractBodyText. rewrite collect_segments_spec.
  cbn [bind plainParts htmlParts]. unfold cut, slice0.
  destruct (truthy (trim (join [10%N] (plain_segments dec payload))));
    cbn [negb bind option_map].
  - now destruct (_ && _).
  - destruct (truthy (trim (join [10%N] (html_segments dec payload)))).
    + destruct (htmlToTextKeepingLinks _) as [out|];
        cbn [bind option_map]; [|reflexivity].
      now destruct (_ && _).
    + cbn [bind option_map]. now destruct (_ && _).
Qed.

(** C7: the fully normalized body is the trimmed join of the plain
    segments when that is not empty, else the conversion of the trimmed
    join of the HTML segments, else the empty string.  [extractBodyText]
    returns its cut, made after the whole normalization: for
    [maxChars <= 0] the normalized body itself, whatever its length; for
    [maxChars > 0] its first [maxChars] units when it is longer and the
    body itself otherwise, so at most [maxChars] units. *)
Theorem body_truncation (dec : jsstring -> jsstring)
  (payload : option MessagePart) (maxChars : Z) :
  let plain := trim (join [10%N] (plain_segments dec payload)) in
  let html := trim (join [10%N] (html_segments dec payload)) in
  let normalized :=
    if truthy plain then Some plain
    else if truthy html then htmlToTextKeepingLinks html
    else Some [] in
  extractBodyText dec payload maxChars = option_map (cut maxChars) normalized
  /\ ((maxChars <= 0)%Z -> extractBodyText dec payload maxChars = normalized)
  /\ ((0 < maxChars)%Z ->
      (forall out, extractBodyText dec payload maxChars = Some out ->
                   (Z.of_nat (List.length out) <= maxChars)%Z)
      /\ (forall body, normalized = Some body ->
            (maxChars < Z.of_nat (List.length body))%Z ->
            extractBodyText dec payload maxChars
            = Some (firstn (Z.to_nat maxChars) body)
            /\ List.length (firstn (Z.to_nat maxChars) body)
               = Z.to_nat maxChars)
      /\ (forall body, normalized = Some body ->
            (Z.of_nat (List.length body) <= maxChars)%Z ->
            extractBodyText dec payload maxChars = Some body)).
Proof.
  cbv zeta. rewrite extractBodyText_closed.
  set (normalized := if truthy _ then _ else _).
  split; [reflexivity|]. split; [|intros Hpos; split; [|split]].
  - intros Hle. destruct normalized as [body|]; [|reflexivity].
    cbn [option_map]. unfold cut.
    destruct (Z.ltb_spec 0 maxChars); [lia | reflexivity].
  - intros out. destruct normalized as [body|]; [|discriminate].
    cbn [option_map]. intros [= <-]. now apply cut_length.
  - intros body -> Hlt. cbn [option_map].
    destruct (cut_exact maxChars body Hpos Hlt) as [-> _].
    split; [reflexivity|]. rewrite length_firstn. lia.
  - intros body -> Hle. cbn [option_map]. unfold cut.
    destruct (Z.ltb_spec maxChars (Z.of_nat (List.length body))); [lia|].
    now rewrite andb_false_r.
Qed.

(** ** parseEmail *)

(** C6 (amended): when the trimmed header has not the form
    [prefix<inner>] with both parts non-empty and holds no email-like
    substring, [parseEmail] returns an empty email and an empty display
    name. *)
Theorem parseEmail_without_email (raw : jsstring) :
  angle_form (trim raw) = None ->
  RegExp.exec re_email (trim raw) = None ->
  parseEmail raw = mkAddress [] [].
Proof.
  intros Hangle Hmail. unfold parseEmail. now rewrite Hangle, Hmail.
Qed.

(** C6, at a header that is a bare name. *)
Lemma parseEmail_without_email_witness :
  angle_form (trim (str " John Smith ")) = None
  /\ RegExp.exec re_email (trim (str " John Smith ")) = None
  /\ parseEmail (str " John Smith ") = mkAddress [] [].
Proof.
  assert (Ha : angle_form (trim (str " John Smith ")) = None)
    by (vm_compute; reflexivity).
  assert (Hm : RegExp.exec re_email (trim (str " John Smith ")) = None)
    by (vm_compute; reflexivity).
  split; [exact Ha|]. split; [exact Hm|].
  exact (parseEmail_without_email (str " John Smith ") Ha Hm).
Defined.

(** C6 (as stated, refuted): no email-like substring in [" John Smith "],
    and the display name returned is empty, not the trimmed header. *)
Lemma display_name_dropped :
  RegExp.exec re_email (trim (str " John Smith ")) = None
  /\ trim (str " John Smith ") = str "John Smith"
  /\ email (parseEmail (str " John Smith ")) = []
  /\ name (parseEmail (str " John Smith ")) = []
  /\ name (parseEmail (str " John Smith ")) <> trim (str " John Smith ").
Proof. vm_compute. repeat split. discriminate. Qed.

(* ================================================================== *)
(** * The matcher moves forward *)
(* ================================================================== *)

Import Props.

(** ** The matcher moves forward *)

Lemma advanced_refl (st : RegExp.mstate) : advanced st st [].
Proof. split; cbn; [reflexivity | lia]. Qed.

Lemma advanced_trans (a b c : RegExp.mstate) (p q : jsstring) :
  advanced a b p -> advanced b c q -> advanced a c (p ++ q).
Proof.
  intros [H1 H2] [H3 H4]. split.
  - now rewrite H1, H3, app_assoc.
  - rewrite H4, H2, length_app. lia.
Qed.

Lemma advanced_same (a b b' : RegExp.mstate) (p : jsstring) :
  RegExp.m_rest b' = RegExp.m_rest b -> RegExp.m_pos b' = RegExp.m_pos b ->
  advanced a b p -> advanced a b' p.
Proof. intros Hr Hp [H1 H2]. split; congruence. Qed.

Lemma advanced_from (a a' b : RegExp.mstate) (p : jsstring) :
  RegExp.m_rest a' = RegExp.m_rest a -> RegExp.m_pos a' = RegExp.m_pos a ->
  advanced a' b p -> advanced a b p.
Proof. intros Hr Hp [H1 H2]. split; congruence. Qed.

Lemma clear_caps_rest grp st :
  RegExp.m_rest (RegExp.clear_caps grp st) = RegExp.m_rest st
  /\ RegExp.m_pos (RegExp.clear_caps grp st) = RegExp.m_pos st.
Proof. destruct grp; cbn; auto. Qed.

Lemma step_char_forward (p : char -> bool) : moves_forward (RegExp.step_char p).
Proof.
  intros st k res. unfold RegExp.step_char.
  destruct (RegExp.m_rest st) as [|c r] eqn:E; [discriminate|].
  destruct (p c); [|discriminate]. intros H.
  eexists _, [c]. split; [|exact H]. split; cbn; [exact E | lia].
Qed.

Lemma step_string_forward (ic : bool) (s : jsstring) :
  moves_forward (RegExp.step_string ic s).
Proof.
  induction s as [|c s IH]; intros st k res; cbn [RegExp.step_string].
  - intros H. exists st, []. split; [apply advanced_refl | exact H].
  - intros H. apply step_char_forward in H as (st1 & p1 & Ha & H).
    apply IH in H as (st2 & p2 & Hb & H).
    exists st2, (p1 ++ p2). split; [eapply advanced_trans; eassumption | exact H].
Qed.

Lemma rep_loop_forward step grp greedy :
  moves_forward step ->
  forall fuel min max,
    moves_forward (fun st k => RegExp.rep_loop step grp greedy fuel min max st k).
Proof.
  intros Hstep. induction fuel as [|fuel IH]; intros min max st k res;
    cbn [RegExp.rep_loop]; [discriminate|].
  assert (Hiter : forall min' max' (g : RegExp.mstate -> bool),
    step (RegExp.clear_caps grp st)
      (fun st1 => if g st1 then None
                  else RegExp.rep_loop step grp greedy fuel min' max' st1 k)
    = Some res ->
    exists st' pre, advanced st st' pre /\ k st' = Some res).
  { intros min' max' g H. apply Hstep in H as (st1 & p1 & Ha & H).
    destruct (g st1); [discriminate|].
    apply IH in H as (st2 & p2 & Hb & H).
    exists st2, (p1 ++ p2). split; [|exact H].
    eapply advanced_trans; [|exact Hb].
    destruct (clear_caps_rest grp st) as [Hr Hp].
    eapply advanced_from; eassumption. }
  assert (Hstay : k st = Some res ->
    exists st' pre, advanced st st' pre /\ k st' = Some res).
  { intros H. exists st, []. split; [apply advanced_refl | exact H]. }
  set (same := fun st1 => Nat.eqb (RegExp.m_pos st1) (RegExp.m_pos st)).
  destruct max as [[|max]|]; [exact Hstay| |];
    (destruct min as [|min]; [|apply (Hiter min _ (fun _ => false))]);
    (destruct greedy;
     [ match goal with |- match ?x with _ => _ end = _ -> _ =>
         destruct x eqn:E end;
       [ intros H; injection H as <-; exact (Hiter 0 _ same E) | exact Hstay ]
     | destruct (k st) eqn:E;
       [ intros H; injection H as <-; now apply Hstay
       | apply (Hiter 0 _ same) ] ]).
Qed.

Lemma m_forward (ic : bool) (r : RegExp.node) : moves_forward (RegExp.m ic r).
Proof.
  induction r as [ | c | | neg items | a IHa b IHb | a IHa b IHb
                 | min max greedy a IHa | i a IHa | i | | | neg ];
    intros st k res; cbn [RegExp.m].
  - intros H. exists st, []. split; [apply advanced_refl | exact H].
  - apply step_char_forward.
  - apply step_char_forward.
  - apply step_char_forward.
  - intros H. apply IHa in H as (st1 & p1 & Ha & H).
    apply IHb in H as (st2 & p2 & Hb & H).
    exists st2, (p1 ++ p2). split; [eapply advanced_trans; eassumption | exact H].
  - destruct (RegExp.m ic a st k) eqn:E.
    + intros H. injection H as <-. now apply IHa.
    + apply IHb.
  - apply (rep_loop_forward (RegExp.m ic a) (RegExp.groups a) greedy IHa).
  - intros H. apply IHa in H as (st1 & p1 & Ha & H).
    eexists _, p1. split; [|exact H].
    eapply advanced_same; [| |exact Ha]; reflexivity.
  - destruct (RegExp.lookup_cap i (RegExp.m_caps st)).
    + apply step_string_forward.
    + intros H. exists st, []. split; [apply advanced_refl | exact H].
  - destruct (RegExp.m_prev st); [discriminate|].
    intros H. exists st, []. split; [apply advanced_refl | exact H].
  - destruct (RegExp.m_rest st) eqn:E; [|discriminate].
    intros H. exists st, []. split; [apply advanced_refl | exact H].
  - destruct (xorb neg _); [|discriminate].
    intros H. exists st, []. split; [apply advanced_refl | exact H].
Qed.

(** A match covers a prefix of the input it is tried on and ends where
    that prefix ends. *)
Lemma match_at_advances (re : RegExp.t) prev rest pos res :
  RegExp.match_at re prev rest pos = Some res ->
  rest = RegExp.r_text res ++ RegExp.m_rest (RegExp.r_end res)
  /\ RegExp.m_pos (RegExp.r_end res) = pos + List.length (RegExp.r_text res)
  /\ RegExp.r_index res = pos.
Proof.
  unfold RegExp.match_at. destruct (RegExp.prog re) as [p|]; [|discriminate].
  destruct (RegExp.m _ p _ Some) as [e|] eqn:E; [|discriminate].
  intros H. injection H as <-. cbn.
  apply m_forward in E as (st' & pre & [Hr Hp] & Hk).
  injection Hk as ->. cbn in Hr, Hp.
  rewrite Hp, Hr.
  replace (pos + List.length pre - pos) with (List.length pre) by lia.
  rewrite firstn_app, firstn_all, Nat.sub_diag. cbn. rewrite app_nil_r.
  repeat split; reflexivity.
Qed.

(** ** Scans *)

(** The units of a replaced text: those of the replacement, and those of
    the input where no match starts. *)
Lemma scan_Forall (Q : char -> Prop) (re : RegExp.t) (r : jsstring) :
  (forall x, In x r -> Q x) ->
  (forall prev c rest pos, Q c \/ matches_here re prev (c :: rest) pos) ->
  forall fuel prev rest pos,
    List.length rest < fuel ->
    Forall Q (RegExp.rebuild_const r (RegExp.scan fuel re prev rest pos)).
Proof.
  intros Hr Hq. induction fuel as [|fuel IH]; intros prev rest pos Hlen; [lia|].
  cbn [RegExp.scan].
  destruct (RegExp.match_at re prev rest pos) as [res|] eqn:E.
  - destruct (Nat.eqb_spec (RegExp.m_pos (RegExp.r_end res)) pos) as [Hsame|Hmove].
    + cbn [RegExp.rebuild_const]. apply Forall_app. split.
      { apply Forall_forall. exact Hr. }
      destruct rest as [|c rest']; [constructor|].
      cbn [RegExp.rebuild_const]. constructor.
      * destruct (Hq prev c rest' pos) as [H | (res' & E' & Hne)]; [exact H|].
        rewrite E in E'. injection E' as <-. contradiction.
      * apply IH. cbn in Hlen. lia.
    + cbn [RegExp.rebuild_const]. apply Forall_app. split.
      { apply Forall_forall. exact Hr. }
      apply IH.
      apply match_at_advances in E as (Hrest & Hpos & _).
      rewrite Hrest, length_app in Hlen.
      assert (List.length (RegExp.r_text res) <> 0) by lia. lia.
  - destruct rest as [|c rest']; [constructor|].
    cbn [RegExp.rebuild_const]. constructor.
    + destruct (Hq prev c rest' pos) as [H | (res' & E' & _)]; [exact H|].
      rewrite E in E'. discriminate.
    + apply IH. cbn in Hlen. lia.
Qed.

(** ** Patterns that start with a given unit *)

Lemma caseless_below_A (ic : bool) (c x : char) :
  (c < 65)%N ->
  (RegExp.canonicalize ic x =? RegExp.canonicalize ic c)%N = true -> x = c.
Proof.
  intros Hc H. apply N.eqb_eq in H. revert H.
  unfold RegExp.canonicalize, upper_char, in_range.
  destruct ic; [|auto].
  repeat match goal with
  | |- context [(?a <=? ?b)%N] => destruct (N.leb_spec a b)
  | |- context [(?a =? ?b)%N] => destruct (N.eqb_spec a b)
  end; cbn [andb negb]; lia.
Qed.

Lemma starts_blocked (ic : bool) (c : char) (r : RegExp.node) :
  starts_with_unit c r = true -> (c < 65)%N ->
  forall st k, next_is_not c st -> RegExp.m ic r st k = None.
Proof.
  intros Hs Hc. induction r as [ | c' | | neg items | a IHa b IHb | a IHa b IHb
                 | min max greedy a IHa | i a IHa | i | | | neg ];
    cbn [starts_with_unit] in Hs; try discriminate; intros st k Hn;
    cbn [RegExp.m].
  - apply N.eqb_eq in Hs. subst c'. unfold RegExp.step_char, next_is_not in *.
    destruct (RegExp.m_rest st) as [|x rest]; [reflexivity|].
    destruct (_ =? _)%N eqn:E; [|reflexivity].
    apply (caseless_below_A ic c x Hc) in E. contradiction.
  - now apply IHa.
  - apply andb_true_iff in Hs as [Ha Hb]. rewrite (IHa Ha st k Hn).
    now apply IHb.
  - assert (Hst0 : next_is_not c (RegExp.clear_caps (RegExp.groups a) st)).
    { unfold next_is_not in *.
      now rewrite (proj1 (clear_caps_rest (RegExp.groups a) st)). }
    destruct min as [|min]; [discriminate|].
    destruct (min + List.length (RegExp.m_rest st) + 1) as [|fuel] eqn:Ef;
      cbn [Nat.add RegExp.rep_loop]; [lia|].
    destruct max as [[|max]|]; try discriminate; now apply IHa.
  - now apply IHa.
Qed.

Lemma match_at_blocked (c : char) (re : RegExp.t) prev rest pos :
  pattern_starts_with c re = true -> (c < 65)%N ->
  match rest with x :: _ => x <> c | [] => True end ->
  RegExp.match_at re prev rest pos = None.
Proof.
  unfold pattern_starts_with, RegExp.match_at.
  destruct (RegExp.prog re) as [p|]; [|reflexivity].
  intros Hs Hc Hn. now rewrite (starts_blocked _ c p Hs Hc).
Qed.

Lemma not_in_head (c : char) (rest : jsstring) :
  ~ In c rest -> match rest with x :: _ => x <> c | [] => True end.
Proof. destruct rest; cbn; [auto | intuition congruence]. Qed.

(** Where the first unit of a pattern does not occur, nothing matches. *)
Lemma scan_blocked (c : char) (re : RegExp.t) :
  pattern_starts_with c re = true -> (c < 65)%N ->
  forall fuel prev rest pos,
    ~ In c rest ->
    RegExp.scan fuel re prev rest pos = List.map RegExp.Lit rest.
Proof.
  intros Hs Hc. induction fuel as [|fuel IH]; intros prev rest pos Hn;
    cbn [RegExp.scan]; [reflexivity|].
  rewrite (match_at_blocked c re prev rest pos Hs Hc (not_in_head c rest Hn)).
  destruct rest as [|x rest']; [reflexivity|].
  cbn [List.map]. rewrite IH; [reflexivity|]. cbn in Hn. tauto.
Qed.

Lemma rebuild_lits (f : RegExp.mresult -> option jsstring) (rest : jsstring) :
  RegExp.rebuild f (List.map RegExp.Lit rest) = Some rest.
Proof.
  induction rest as [|c rest IH]; cbn; [reflexivity | now rewrite IH].
Qed.

Lemma search_blocked (c : char) (re : RegExp.t) :
  pattern_starts_with c re = true -> (c < 65)%N ->
  forall rest prev pos, ~ In c rest ->
    RegExp.search_from re prev rest pos = None.
Proof.
  intros Hs Hc. induction rest as [|x rest IH]; intros prev pos Hn;
    cbn [RegExp.search_from].
  - now rewrite (match_at_blocked c re prev [] pos Hs Hc I).
  - rewrite (match_at_blocked c re prev (x :: rest) pos Hs Hc
               (not_in_head c (x :: rest) Hn)).
    apply IH. cbn in Hn. tauto.
Qed.

Lemma replace_blocked (c : char) (re : RegExp.t) (r s : jsstring) :
  pattern_starts_with c re = true -> (c < 65)%N -> ~ In c s ->
  RegExp.replace re r s = s.
Proof.
  intros Hs Hc Hn. unfold RegExp.replace, RegExp.scan_all, RegExp.exec.
  destruct (RegExp.global re).
  - rewrite (scan_blocked c re Hs Hc _ _ _ _ Hn). apply rebuild_const_lits.
  - now rewrite (search_blocked c re Hs Hc s None 0 Hn).
Qed.

Lemma replace_fn_blocked (c : char) (re : RegExp.t) f (s : jsstring) :
  pattern_starts_with c re = true -> (c < 65)%N -> ~ In c s ->
  RegExp.replace_fn re f s = Some s.
Proof.
  intros Hs Hc Hn. unfold RegExp.replace_fn, RegExp.scan_all, RegExp.exec.
  destruct (RegExp.global re).
  - rewrite (scan_blocked c re Hs Hc _ _ _ _ Hn). apply rebuild_lits.
  - now rewrite (search_blocked c re Hs Hc s None 0 Hn).
Qed.

(* ================================================================== *)
(** * The redaction engine: counts *)
(* ================================================================== *)

Lemma sum_set (k : RedactionCategory) (n : nat) (o : counts) :
  list_sum (List.map snd (set k (or_else (get k o) 0 + n) o))
  = list_sum (List.map snd o) + n.
Proof.
  induction o as [|[k' v'] o IH]; cbn [get set].
  - cbn. lia.
  - destruct (cat_eqb k k'); cbn [List.map snd or_else];
      change (list_sum (?x :: ?l)) with (x + list_sum l).
    + lia.
    + rewrite IH. lia.
Qed.

Lemma apply_regex_sum cat repl st re :
  count_of st = list_sum (List.map snd (snd st)) ->
  count_of (apply_regex cat repl st re)
  = list_sum (List.map snd (snd (apply_regex cat repl st re))).
Proof.
  destruct st as [[s n] cs]. unfold apply_regex, count_of. cbn [fst snd].
  intros ->. destruct (RegExp.match_all re s) as [|x xs]; cbn [fst snd].
  - reflexivity.
  - now rewrite sum_set.
Qed.

Lemma apply_pattern_sum options st pat :
  count_of st = list_sum (List.map snd (snd st)) ->
  count_of (apply_pattern options st pat)
  = list_sum (List.map snd (snd (apply_pattern options st pat))).
Proof.
  unfold apply_pattern. destruct (negb _); [auto|].
  generalize (patterns pat). intros res. revert st.
  induction res as [|re res IH]; intros st H; cbn [fold_left]; [exact H|].
  apply IH. now apply apply_regex_sum.
Qed.

Lemma result_of_triple (X : jsstring * nat * counts) :
  (let '(r, n, cs) := X in mkResult r n cs)
  = mkResult (text_of X) (count_of X) (snd X).
Proof. now destruct X as [[r n] cs]. Qed.

(** X1: the total is the sum of the per-category counts. *)
Theorem redaction_count_is_sum (t : jsstring) (options : SanitizeOptions) :
  redactionCount (sanitizeText t options)
  = list_sum (List.map snd (redactionsByCategory (sanitizeText t options))).
Proof.
  unfold sanitizeText. destruct (negb (enabled options) || negb (truthy t));
    [reflexivity|].
  rewrite result_of_triple. cbn [redactionCount redactionsByCategory].
  set (init := fold_left (fun o cat => Sanitizer.set cat 0 o)
                 ALL_REDACTION_CATEGORIES []).
  assert (H0 : count_of (t, 0, init)
               = list_sum (List.map snd (snd (t, 0, init))))
    by (vm_compute; reflexivity).
  revert H0. generalize (t, 0, init). generalize PATTERNS.
  intros pats. induction pats as [|pat pats IH]; intros st H;
    cbn [fold_left]; [exact H|].
  apply IH. now apply apply_pattern_sum.
Qed.

Lemma get_set_other (c k : RedactionCategory) (v : nat) (o : counts) :
  c <> k -> get c (set k v o) = get c o.
Proof.
  intros Hne. induction o as [|[k' v'] o IH]; cbn [get set].
  - destruct (cat_eqb c k) eqn:E; [apply cat_eqb_eq in E; contradiction|].
    reflexivity.
  - destruct (cat_eqb k k') eqn:Ek; cbn [get].
    + apply cat_eqb_eq in Ek. subst k'.
      destruct (cat_eqb c k) eqn:E; [apply cat_eqb_eq in E; contradiction|].
      reflexivity.
    + now rewrite IH.
Qed.

Lemma apply_regex_get_other c cat repl st re :
  c <> cat -> get c (snd (apply_regex cat repl st re)) = get c (snd st).
Proof.
  intros Hne. destruct st as [[s n] cs]. unfold apply_regex. cbn [snd].
  destruct (RegExp.match_all re s); cbn [snd]; [reflexivity|].
  now apply get_set_other.
Qed.

Lemma apply_pattern_get_other c options st pat :
  existsb (cat_eqb c) (categories options) = false ->
  get c (snd (apply_pattern options st pat)) = get c (snd st).
Proof.
  intros Hoff. unfold apply_pattern.
  destruct (existsb (cat_eqb (category pat)) (categories options)) eqn:E;
    cbn [negb]; [|reflexivity].
  assert (Hne : c <> category pat) by (intros ->; congruence).
  generalize (patterns pat). intros res. revert st.
  induction res as [|re res IH]; intros st; cbn [fold_left]; [reflexivity|].
  rewrite IH. now apply apply_regex_get_other.
Qed.

Lemma initial_counts_zero (c : RedactionCategory) :
  get c (fold_left (fun o cat => set cat 0 o) ALL_REDACTION_CATEGORIES [])
  = Some 0.
Proof. destruct c; vm_compute; reflexivity. Qed.

(** X2: a category that is not selected keeps the count 0. *)
Theorem unselected_category_count_zero (t : jsstring)
  (options : SanitizeOptions) (c : RedactionCategory) :
  enabled options = true -> t <> [] ->
  ~ In c (categories options) ->
  get c (redactionsByCategory (sanitizeText t options)) = Some 0.
Proof.
  intros He Ht Hc. unfold sanitizeText. rewrite He.
  apply truthy_nonempty in Ht. rewrite Ht. cbn [negb orb].
  rewrite result_of_triple. cbn [redactionsByCategory].
  assert (Hoff : existsb (cat_eqb c) (categories options) = false).
  { destruct (existsb _ _) eqn:E; [|reflexivity].
    apply existsb_exists in E as (x & Hx & Hcx). apply cat_eqb_eq in Hcx.
    subst x. contradiction. }
  set (init := fold_left (fun o cat => Sanitizer.set cat 0 o)
                 ALL_REDACTION_CATEGORIES []).
  assert (H0 : get c (snd (t, 0, init)) = Some 0)
    by apply initial_counts_zero.
  revert H0. generalize (t, 0, init). generalize PATTERNS.
  intros pats. induction pats as [|pat pats IH]; intros st H;
    cbn [fold_left]; [exact H|].
  apply IH. now rewrite apply_pattern_get_other.
Qed.

Lemma unselected_category_count_zero_witness :
  get phone_numbers
    (redactionsByCategory
       (sanitizeText (str "SSN 123-45-6789, phone 415-555-1234")
          (mkOptions true [tax_ids]))) = Some 0.
Proof.
  apply unselected_category_count_zero.
  - reflexivity.
  - discriminate.
  - cbn. intros [H|[]]. discriminate.
Defined.

Lemma apply_regex_count cat repl st re :
  RegExp.global re = true ->
  count_of st <= count_of (apply_regex cat repl st re)
  /\ (count_of (apply_regex cat repl st re) = count_of st ->
      text_of (apply_regex cat repl st re) = text_of st).
Proof.
  intros Hg. destruct st as [[s n] cs].
  unfold apply_regex, count_of, text_of. cbn [fst snd].
  destruct (RegExp.match_all re s) as [|x xs] eqn:E; cbn [fst snd].
  - split; [lia|]. intros _. apply no_match_replace; [exact Hg|].
    unfold no_match. now rewrite E.
  - cbn [List.length]. split; lia.
Qed.

Lemma apply_regexes_count cat repl (res : list RegExp.t) :
  forallb RegExp.global res = true ->
  forall st,
    count_of st <= count_of (fold_left (apply_regex cat repl) res st)
    /\ (count_of (fold_left (apply_regex cat repl) res st) = count_of st ->
        text_of (fold_left (apply_regex cat repl) res st) = text_of st).
Proof.
  induction res as [|re res IH]; cbn [forallb fold_left]; intros Hg st.
  - split; [lia | reflexivity].
  - apply andb_true_iff in Hg as [Hre Hres].
    destruct (apply_regex_count cat repl st re Hre) as [H1 H2].
    destruct (IH Hres (apply_regex cat repl st re)) as [H3 H4].
    split; [lia|]. intros Heq. rewrite H4 by lia. apply H2. lia.
Qed.

Lemma apply_patterns_count options (pats : list RedactionPattern) :
  forallb (fun pat => forallb RegExp.global (patterns pat)) pats = true ->
  forall st,
    count_of st <= count_of (fold_left (apply_pattern options) pats st)
    /\ (count_of (fold_left (apply_pattern options) pats st) = count_of st ->
        text_of (fold_left (apply_pattern options) pats st) = text_of st).
Proof.
  induction pats as [|pat pats IH]; cbn [forallb fold_left]; intros Hg st.
  - split; [lia | reflexivity].
  - apply andb_true_iff in Hg as [Hpat Hpats].
    assert (H12 : count_of st <= count_of (apply_pattern options st pat)
                  /\ (count_of (apply_pattern options st pat) = count_of st ->
                      text_of (apply_pattern options st pat) = text_of st)).
    { unfold apply_pattern. destruct (negb _).
      - split; [lia | reflexivity].
      - now apply apply_regexes_count. }
    destruct H12 as [H1 H2].
    destruct (IH Hpats (apply_pattern options st pat)) as [H3 H4].
    split; [lia|]. intros Heq. rewrite H4 by lia. apply H2. lia.
Qed.

(** X3: a result that reports no redaction carries the input text. *)
Theorem zero_count_text_unchanged (t : jsstring) (options : SanitizeOptions) :
  redactionCount (sanitizeText t options) = 0 ->
  text (sanitizeText t options) = t.
Proof.
  unfold sanitizeText. destruct (negb (enabled options) || negb (truthy t));
    [reflexivity|].
  rewrite result_of_triple. cbn [redactionCount text].
  set (init := fold_left (fun o cat => Sanitizer.set cat 0 o)
                 ALL_REDACTION_CATEGORIES []).
  intros H.
  destruct (apply_patterns_count options PATTERNS PATTERNS_global (t, 0, init))
    as [_ H2].
  apply H2. exact H.
Qed.

Lemma zero_count_text_unchanged_witness :
  text (sanitizeText (str "see you at noon")
          (mkOptions true ALL_REDACTION_CATEGORIES))
  = str "see you at noon".
Proof.
  apply zero_count_text_unchanged. vm_compute. reflexivity.
Defined.

Lemma existsb_In_ext (c : RedactionCategory) (l1 l2 : list RedactionCategory) :
  (forall x, In x l1 <-> In x l2) ->
  existsb (cat_eqb c) l1 = existsb (cat_eqb c) l2.
Proof.
  intros H.
  destruct (existsb (cat_eqb c) l1) eqn:E1, (existsb (cat_eqb c) l2) eqn:E2;
    try reflexivity.
  - apply existsb_exists in E1 as (x & Hx & Hcx).
    assert (existsb (cat_eqb c) l2 = true)
      by (apply existsb_exists; exists x; split; [now apply H | exact Hcx]).
    congruence.
  - apply existsb_exists in E2 as (x & Hx & Hcx).
    assert (existsb (cat_eqb c) l1 = true)
      by (apply existsb_exists; exists x; split; [now apply H | exact Hcx]).
    congruence.
Qed.

(** X4: only the membership of the selected categories matters. *)
Theorem category_order_irrelevant (t : jsstring) (e : bool)
  (cats1 cats2 : list RedactionCategory) :
  (forall c, In c cats1 <-> In c cats2) ->
  sanitizeText t (mkOptions e cats1) = sanitizeText t (mkOptions e cats2).
Proof.
  intros H. unfold sanitizeText. cbn [enabled].
  destruct (negb e || negb (truthy t)); [reflexivity|].
  f_equal.
  generalize (t, 0, fold_left (fun o cat => set cat 0 o)
                       ALL_REDACTION_CATEGORIES []).
  generalize PATTERNS. intros pats.
  induction pats as [|pat pats IH]; intros st; cbn [fold_left]; [reflexivity|].
  rewrite IH. do 2 f_equal. unfold apply_pattern. cbn [categories].
  now rewrite (existsb_In_ext (category pat) cats1 cats2 H).
Qed.

Lemma category_order_irrelevant_witness :
  sanitizeText (str "SSN 123-45-6789, phone 415-555-1234")
    (mkOptions true [tax_ids; phone_numbers])
  = sanitizeText (str "SSN 123-45-6789, phone 415-555-1234")
      (mkOptions true [phone_numbers; tax_ids; phone_numbers]).
Proof.
  apply category_order_irrelevant. intros c. cbn. tauto.
Defined.

(* ================================================================== *)
(** * Strings *)
(* ================================================================== *)

(** ** toLowerCase is idempotent *)

Lemma LOWER_checked :
  forallb (fun p => settled (snd p) && negb (surrogate (fst p))
                    && negb (surrogate (snd p))) Unicode.LOWER = true.
Proof. vm_compute. reflexivity. Qed.

Lemma lower_point_cases (c : N) :
  lower_point c = c
  \/ ((65 <= c <= 90)%N /\ lower_point c = (c + 32)%N)
  \/ In (c, lower_point c) Unicode.LOWER.
Proof.
  unfold lower_point, in_range.
  destruct (N.ltb_spec c 128).
  - destruct (N.leb_spec 65 c), (N.leb_spec c 90); cbn [andb]; auto.
  - destruct (find _ Unicode.LOWER) as [[a b]|] eqn:E; [|auto].
    apply find_some in E as [Hin Ha]. cbn [fst snd] in *.
    apply N.eqb_eq in Ha. subst a. auto.
Qed.

Lemma ascii_not_surrogate (c : N) : (c <= 122)%N -> surrogate c = false.
Proof.
  intros H. unfold surrogate, is_high, is_low, in_range.
  destruct (N.leb_spec 55296 c), (N.leb_spec 56320 c); cbn; try reflexivity;
    lia.
Qed.

Lemma ascii_lower_settled (c : N) : (97 <= c <= 122)%N -> settled c = true.
Proof.
  intros H. unfold settled, lower_point, in_range.
  replace (c <? 128)%N with true by (symmetry; apply N.ltb_lt; lia).
  replace (c <=? 90)%N with false by (symmetry; apply N.leb_gt; lia).
  rewrite andb_false_r, N.eqb_refl.
  replace (c =? 931)%N with false by (symmetry; apply N.eqb_neq; lia).
  replace (c =? 304)%N with false by (symmetry; apply N.eqb_neq; lia).
  reflexivity.
Qed.

Lemma lower_point_settled (c : N) :
  c <> 931%N -> c <> 304%N -> settled (lower_point c) = true.
Proof.
  intros H1 H2. destruct (lower_point_cases c) as [E|[[Hc E]|Hin]].
  - rewrite E. unfold settled. rewrite E, N.eqb_refl.
    apply N.eqb_neq in H1, H2. now rewrite H1, H2.
  - rewrite E. apply ascii_lower_settled. lia.
  - pose proof LOWER_checked as Hl. rewrite forallb_forall in Hl.
    apply Hl in Hin. cbn [fst snd] in Hin.
    apply andb_true_iff in Hin as [Hin _].
    now apply andb_true_iff in Hin as [Hin _].
Qed.

Lemma lower_point_surrogate (c : N) :
  surrogate (lower_point c) = surrogate c.
Proof.
  destruct (lower_point_cases c) as [E|[[Hc E]|Hin]].
  - now rewrite E.
  - rewrite E. rewrite !ascii_not_surrogate by lia. reflexivity.
  - pose proof LOWER_checked as Hl. rewrite forallb_forall in Hl.
    apply Hl in Hin. cbn [fst snd] in Hin.
    apply andb_true_iff in Hin as [Hin Hb].
    apply andb_true_iff in Hin as [_ Ha].
    apply negb_true_iff in Ha, Hb. now rewrite Ha, Hb.
Qed.

Lemma high_low_exclusive (c : N) : is_high c && is_low c = false.
Proof.
  unfold is_high, is_low, in_range.
  destruct (N.leb_spec c 56319), (N.leb_spec 56320 c); cbn;
    rewrite ?andb_false_r; try reflexivity; lia.
Qed.

Lemma lower_point_high (c : N) : is_high (lower_point c) = is_high c.
Proof.
  destruct (lower_point_cases c) as [E|[[Hc E]|Hin]].
  - now rewrite E.
  - rewrite E. unfold is_high, in_range.
    destruct (N.leb_spec 55296 (c + 32)), (N.leb_spec 55296 c); cbn;
      try reflexivity; lia.
  - pose proof LOWER_checked as Hl. rewrite forallb_forall in Hl.
    apply Hl in Hin. cbn [fst snd] in Hin.
    apply andb_true_iff in Hin as [Hin Hb].
    apply andb_true_iff in Hin as [_ Ha].
    apply negb_true_iff in Ha, Hb. unfold surrogate in Ha, Hb.
    apply orb_false_iff in Ha as [-> _], Hb as [-> _]. reflexivity.
Qed.

Lemma lower_point_low (c : N) : is_low (lower_point c) = is_low c.
Proof.
  destruct (lower_point_cases c) as [E|[[Hc E]|Hin]].
  - now rewrite E.
  - rewrite E. unfold is_low, in_range.
    destruct (N.leb_spec 56320 (c + 32)), (N.leb_spec 56320 c); cbn;
      try reflexivity; lia.
  - pose proof LOWER_checked as Hl. rewrite forallb_forall in Hl.
    apply Hl in Hin. cbn [fst snd] in Hin.
    apply andb_true_iff in Hin as [Hin Hb].
    apply andb_true_iff in Hin as [_ Ha].
    apply negb_true_iff in Ha, Hb. unfold surrogate in Ha, Hb.
    apply orb_false_iff in Ha as [_ ->], Hb as [_ ->]. reflexivity.
Qed.

(** The mapping of one code point: one settled code point of the same
    surrogate kind, or the two of U+0130. *)
Lemma lower_of_cases (before : list N) (c : N) (after : list N) :
  (exists x, lower_of before c after = [x] /\ settled x = true
             /\ is_high x = is_high c /\ is_low x = is_low c)
  \/ lower_of before c after = [105%N; 775%N].
Proof.
  unfold lower_of.
  destruct (N.eqb_spec c 931) as [->|H1].
  - left. eexists. split; [reflexivity|].
    destruct (cased_next before && negb (cased_next after));
      repeat split; reflexivity.
  - destruct (N.eqb_spec c 304) as [->|H2]; [now right|].
    left. eexists. split; [reflexivity|].
    repeat split; [now apply lower_point_settled | apply lower_point_high
                  | apply lower_point_low].
Qed.

Lemma lower_points_settled (cps : list N) :
  forall before, forallb settled (lower_points before cps) = true.
Proof.
  induction cps as [|c r IH]; intros before; cbn [lower_points];
    [reflexivity|].
  rewrite forallb_app, IH, andb_true_r.
  destruct (lower_of_cases before c r) as [(x & -> & Hx & _)| ->].
  - cbn. now rewrite Hx.
  - reflexivity.
Qed.

Lemma lower_points_fixed (cps : list N) :
  forall before, forallb settled cps = true -> lower_points before cps = cps.
Proof.
  induction cps as [|c r IH]; intros before H; cbn [lower_points forallb] in *;
    [reflexivity|].
  apply andb_true_iff in H as [Hc Hr]. rewrite IH by exact Hr.
  unfold settled in Hc. apply andb_true_iff in Hc as [Hc H304].
  apply andb_true_iff in Hc as [Hc H931].
  apply negb_true_iff in H304, H931. apply N.eqb_eq in Hc.
  unfold lower_of. now rewrite H931, H304, Hc.
Qed.

Lemma lower_points_head_low (cps : list N) (before : list N) :
  head_low (lower_points before cps) = head_low cps.
Proof.
  destruct cps as [|c r]; [reflexivity|]. cbn [lower_points].
  destruct (lower_of_cases before c r) as [(x & -> & _ & _ & Hl)| E].
  - exact Hl.
  - rewrite E. unfold lower_of in E.
    destruct (c =? 931)%N; [discriminate|].
    destruct (N.eqb_spec c 304) as [->|]; [reflexivity | discriminate].
Qed.

Lemma well_paired_cons (c : N) (r : list N) :
  well_paired (c :: r) = negb (is_high c && head_low r) && well_paired r.
Proof. reflexivity. Qed.

Lemma lower_points_well_paired (cps : list N) :
  forall before,
    well_paired cps = true -> well_paired (lower_points before cps) = true.
Proof.
  induction cps as [|c r IH]; intros before H; [reflexivity|].
  rewrite well_paired_cons in H.
  apply andb_true_iff in H as [Hc Hr]. cbn [lower_points].
  specialize (IH (c :: before) Hr).
  pose proof (lower_points_head_low r (c :: before)) as Hh.
  destruct (lower_of_cases before c r) as [(x & -> & _ & Hhi & _)| ->];
    cbn [app]; rewrite !well_paired_cons.
  - now rewrite Hh, Hhi, Hc, IH.
  - rewrite IH. reflexivity.
Qed.

Lemma paired_value_not_low (c d : N) :
  is_low (65536 + (c - 55296) * 1024 + (d - 56320)) = false.
Proof.
  unfold is_low, in_range.
  destruct (N.leb_spec (65536 + (c - 55296) * 1024 + (d - 56320)) 57343);
    [lia|]. apply andb_false_r.
Qed.

Lemma paired_value_not_high (c d : N) :
  is_high (65536 + (c - 55296) * 1024 + (d - 56320)) = false.
Proof.
  unfold is_high, in_range.
  destruct (N.leb_spec (65536 + (c - 55296) * 1024 + (d - 56320)) 56319);
    [lia|]. apply andb_false_r.
Qed.

Lemma code_points_cons (c d : char) (r : jsstring) :
  code_points (c :: d :: r)
  = if is_high c && is_low d
    then (65536 + (c - 55296) * 1024 + (d - 56320))%N :: code_points r
    else c :: code_points (d :: r).
Proof. reflexivity. Qed.

Lemma code_points_well_paired (n : nat) :
  forall s, List.length s <= n ->
    well_paired (code_points s) = true
    /\ (head_low (code_points s) = true -> head_low s = true).
Proof.
  induction n as [|n IH]; intros s Hn.
  - destruct s; [split; auto | cbn in Hn; lia].
  - destruct s as [|c [|d r]]; [split; auto | |].
    + cbn. split; [|auto].
      now rewrite andb_false_r.
    + rewrite code_points_cons.
      destruct (is_high c && is_low d) eqn:E.
      * destruct (IH r) as [Hw _]; [cbn in Hn; lia|].
        split.
        -- rewrite well_paired_cons. now rewrite paired_value_not_high, Hw.
        -- cbn [head_low]. now rewrite paired_value_not_low.
      * destruct (IH (d :: r)) as [Hw Hh]; [cbn in Hn |- *; lia|].
        split; [|auto].
        rewrite well_paired_cons. apply andb_true_iff. split; [|exact Hw].
        destruct (is_high c) eqn:Ec; [|reflexivity]. cbn [andb] in *.
        destruct (head_low (code_points (d :: r))) eqn:El; [|reflexivity].
        specialize (Hh eq_refl). cbn in Hh. congruence.
Qed.

Lemma units_of_cases (cp : N) :
  units_of cp = [cp]
  \/ exists h l, units_of cp = [h; l] /\ is_high h = true /\ is_low l = true
                 /\ (65536 + (h - 55296) * 1024 + (l - 56320))%N = cp.
Proof.
  unfold units_of.
  destruct ((65535 <? cp)%N && (cp <=? 1114111)%N) eqn:E; [|now left].
  right. apply andb_true_iff in E as [H1 H2].
  apply N.ltb_lt in H1. apply N.leb_le in H2. cbv zeta.
  set (v := (cp - 65536)%N).
  assert (Hv : (v < 1048576)%N) by (subst v; lia).
  change 1023%N with (N.ones 10). rewrite N.land_ones, N.shiftr_div_pow2.
  change (2 ^ 10)%N with 1024%N.
  pose proof (N.div_mod v 1024 ltac:(lia)) as Hdm.
  pose proof (N.mod_lt v 1024 ltac:(lia)) as Hm.
  assert (Hd : (v / 1024 < 1024)%N)
    by (apply N.Div0.div_lt_upper_bound; lia).
  assert (Hcp : cp = (v + 65536)%N) by (subst v; lia).
  clearbody v. generalize dependent (v / 1024)%N.
  generalize dependent (v mod 1024)%N. intros m Hm q Hdm Hd.
  do 2 eexists. split; [reflexivity|].
  unfold is_high, is_low, in_range.
  repeat split.
  - apply andb_true_iff. split; apply N.leb_le; lia.
  - apply andb_true_iff. split; apply N.leb_le; lia.
  - lia.
Qed.

Lemma from_code_points_head_low (cps : list N) :
  head_low (from_code_points cps) = head_low cps.
Proof.
  destruct cps as [|c r]; [reflexivity|]. cbn [from_code_points flat_map].
  destruct (units_of_cases c) as [-> | (h & l & -> & Hh & Hl & E)];
    [reflexivity|].
  cbn [app head_low]. rewrite <- E, paired_value_not_low.
  pose proof (high_low_exclusive h) as Hx. rewrite Hh in Hx. exact Hx.
Qed.

Lemma code_points_from (cps : list N) :
  well_paired cps = true -> code_points (from_code_points cps) = cps.
Proof.
  induction cps as [|c r IH]; intros H; [reflexivity|].
  rewrite well_paired_cons in H.
  apply andb_true_iff in H as [Hc Hr]. specialize (IH Hr).
  cbn [from_code_points flat_map]. fold (from_code_points r).
  destruct (units_of_cases c) as [-> | (h & l & -> & Hh & Hl & E)].
  - cbn [app]. pose proof (from_code_points_head_low r) as Hhl.
    destruct (from_code_points r) as [|d rest] eqn:Er.
    + destruct r as [|c2 r2]; [reflexivity|].
      cbn [from_code_points flat_map] in Er.
      destruct (units_of_cases c2) as [E2 | (h2 & l2 & E2 & _)];
        rewrite E2 in Er; discriminate.
    + rewrite code_points_cons. cbn [head_low] in Hhl. rewrite Hhl.
      apply negb_true_iff in Hc. rewrite Hc. now rewrite IH.
  - cbn [app]. rewrite code_points_cons, Hh, Hl. cbn [andb].
    now rewrite E, IH.
Qed.

Lemma toLowerCase_idem (s : jsstring) :
  toLowerCase (toLowerCase s) = toLowerCase s.
Proof.
  unfold toLowerCase.
  rewrite code_points_from.
  - now rewrite lower_points_fixed by apply lower_points_settled.
  - apply lower_points_well_paired.
    now apply (code_points_well_paired (List.length s)).
Qed.

Lemma trimStart_head (s : jsstring) : head_not_space (trimStart s).
Proof.
  induction s as [|c s IH]; cbn; [exact I|].
  destruct (is_space c) eqn:E; [exact IH | exact E].
Qed.

Lemma trimStart_fixed (s : jsstring) : head_not_space s -> trimStart s = s.
Proof. destruct s as [|c s]; cbn; [reflexivity | now intros ->]. Qed.

Lemma trimStart_app_unit (l : jsstring) (c : char) :
  is_space c = false -> trimStart (l ++ [c]) = trimStart l ++ [c].
Proof.
  intros Hc. induction l as [|x l IH]; cbn.
  - now rewrite Hc.
  - destruct (is_space x); [exact IH | reflexivity].
Qed.

Lemma trimEnd_cons (c : char) (s : jsstring) :
  is_space c = false -> trimEnd (c :: s) = c :: trimEnd s.
Proof.
  intros Hc. unfold trimEnd. cbn [rev].
  rewrite trimStart_app_unit by exact Hc. now rewrite rev_app_distr.
Qed.

Lemma trimEnd_idem (s : jsstring) : trimEnd (trimEnd s) = trimEnd s.
Proof.
  unfold trimEnd. rewrite rev_involutive.
  now rewrite (trimStart_fixed _ (trimStart_head (rev s))).
Qed.

Lemma trim_idem (s : jsstring) : trim (trim s) = trim s.
Proof.
  unfold trim. pose proof (trimStart_head s) as H.
  destruct (trimStart s) as [|c x]; [reflexivity|]. cbn in H.
  rewrite (trimEnd_cons c x H).
  rewrite (trimStart_fixed (c :: trimEnd x) H).
  rewrite (trimEnd_cons c _ H). now rewrite trimEnd_idem.
Qed.

Lemma trim_nil : trim [] = [].
Proof. reflexivity. Qed.

(* ================================================================== *)
(** * parseEmail, domainFromEmail, getHeader *)
(* ================================================================== *)

(** X5: surrounding white space of the raw value is irrelevant, the
    address comes out in lower case and the name trimmed. *)
Theorem parseEmail_normalised (raw : jsstring) :
  parseEmail (trim raw) = parseEmail raw
  /\ toLowerCase (email (parseEmail raw)) = email (parseEmail raw)
  /\ trim (name (parseEmail raw)) = name (parseEmail raw).
Proof.
  split; [unfold parseEmail; now rewrite trim_idem|].
  unfold parseEmail. destruct (angle_form (trim raw)) as [[m1 m2]|].
  - cbn [email name]. split; [apply toLowerCase_idem | apply trim_idem].
  - cbn [email name].
    destruct (RegExp.exec re_email (trim raw)) as [m|];
      cbn [option_map or_else].
    + split; [apply toLowerCase_idem|].
      destruct (truthy _); [apply trim_idem | reflexivity].
    + split; reflexivity.
Qed.

Lemma indexOf_char_app (c : char) (l r : jsstring) :
  ~ In c l -> indexOf_char c (l ++ c :: r) = Some (List.length l).
Proof.
  induction l as [|x l IH]; cbn [app indexOf_char List.length]; intros Hn.
  - now rewrite N.eqb_refl.
  - destruct (N.eqb_spec x c) as [->|_]; [cbn in Hn; tauto|].
    rewrite IH by (cbn in Hn; tauto). reflexivity.
Qed.

Lemma indexOf_char_none (c : char) (s : jsstring) :
  ~ In c s -> indexOf_char c s = None.
Proof.
  induction s as [|x s IH]; cbn [indexOf_char]; intros Hn; [reflexivity|].
  destruct (N.eqb_spec x c) as [->|_]; [cbn in Hn; tauto|].
  rewrite IH by (cbn in Hn; tauto). reflexivity.
Qed.

(** X6: the domain is what follows the first [@], in lower case; without
    an [@] it is empty. *)
Theorem domainFromEmail_after_first_at :
  (forall local rest,
      ~ In 64%N local ->
      domainFromEmail (local ++ 64%N :: rest) = toLowerCase rest)
  /\ (forall e, ~ In 64%N e -> domainFromEmail e = [])
  /\ (forall e, toLowerCase (domainFromEmail e) = domainFromEmail e).
Proof.
  repeat split.
  - intros local rest Hn. unfold domainFromEmail, sliceFrom.
    rewrite indexOf_char_app by exact Hn. f_equal.
    clear Hn. induction local as [|x local IH]; [reflexivity|].
    exact IH.
  - intros e Hn. unfold domainFromEmail. now rewrite indexOf_char_none.
  - intros e. unfold domainFromEmail.
    destruct (indexOf_char 64 e); [apply toLowerCase_idem | reflexivity].
Qed.

(** X7: the lookup is case-insensitive, the first header of the name
    wins, and a missing header or value gives the empty string. *)
Theorem getHeader_first_match (n : jsstring) :
  (forall hs, Forall (fun h => ~ named n h) hs -> getHeader hs n = [])
  /\ (forall hs1 h hs2,
        Forall (fun h' => ~ named n h') hs1 -> named n h ->
        getHeader (hs1 ++ h :: hs2) n = or_else (h_value h) [])
  /\ (forall hs n', toLowerCase n' = toLowerCase n ->
        getHeader hs n' = getHeader hs n).
Proof.
  assert (Hskip : forall hs1 rest,
    Forall (fun h' => ~ named n h') hs1 ->
    find (fun h => eqs (toLowerCase (or_else (h_name h) [])) (toLowerCase n))
      (hs1 ++ rest)
    = find (fun h => eqs (toLowerCase (or_else (h_name h) [])) (toLowerCase n))
        rest).
  { intros hs1 rest H. induction H as [|x l Hx _ IH]; cbn [app find];
      [reflexivity|].
    destruct (eqs _ _) eqn:E; [|exact IH].
    apply eqs_eq in E. contradiction. }
  repeat split.
  - intros hs H. unfold getHeader.
    rewrite <- (app_nil_r hs), (Hskip hs [] H). reflexivity.
  - intros hs1 h hs2 H Hh. unfold getHeader. rewrite (Hskip hs1 _ H).
    cbn [find]. apply eqs_eq in Hh. now rewrite Hh.
  - intros hs n' Hn. unfold getHeader. now rewrite Hn.
Qed.

(* ================================================================== *)
(** * collectAttachmentTypes: the summary *)
(* ================================================================== *)

Lemma set_add_NoDup (x : jsstring) (s : list jsstring) :
  NoDup s -> NoDup (set_add x s).
Proof.
  intros H. unfold set_add. destruct (existsb (eqs x) s) eqn:E; [exact H|].
  assert (Hn : ~ In x s).
  { intros Hin. assert (existsb (eqs x) s = true); [|congruence].
    apply existsb_exists. exists x. split; [exact Hin | now apply eqs_eq]. }
  clear E. induction H as [|y l Hy Hl IH]; cbn [app].
  - constructor; [tauto | constructor].
  - constructor.
    + rewrite in_app_iff. cbn. cbn in Hn. intuition congruence.
    + apply IH. cbn in Hn. tauto.
Qed.

Lemma set_add_length (x : jsstring) (s : list jsstring) :
  List.length s <= List.length (set_add x s) <= S (List.length s)
  /\ 0 < List.length (set_add x s).
Proof.
  unfold set_add. destruct (existsb (eqs x) s) eqn:E.
  - destruct s; [discriminate|]. cbn. lia.
  - rewrite length_app. cbn. lia.
Qed.

Lemma attach_visit_ok (p : MessagePart) (st : list jsstring * nat) :
  summary_ok st -> summary_ok (attach_visit p st).
Proof.
  unfold summary_ok, attach_visit. intros (H1 & H2 & H3).
  destruct (looksLikeAttachment p); cbn [fst snd]; [|tauto].
  pose proof (set_add_length (attachment_type p) (fst st)).
  repeat split; [now apply set_add_NoDup | lia | lia].
Qed.

Lemma attach_fold_ok (l : list MessagePart) :
  forall st, summary_ok st ->
    summary_ok (fold_left (fun acc q => attach_visit q acc) l st).
Proof.
  induction l as [|p l IH]; intros st H; cbn [fold_left]; [exact H|].
  apply IH. now apply attach_visit_ok.
Qed.

Lemma insert_sorted_perm {A : Type} (leb : A -> A -> bool) (x : A) (l : list A) :
  Permutation (insert_sorted leb x l) (x :: l).
Proof.
  induction l as [|y l IH]; cbn [insert_sorted]; [reflexivity|].
  destruct (leb x y); [reflexivity|].
  rewrite IH. apply perm_swap.
Qed.

Lemma sort_perm {A : Type} (leb : A -> A -> bool) (l : list A) :
  Permutation (sort leb l) l.
Proof.
  induction l as [|x l IH]; cbn [sort fold_right]; [reflexivity|].
  fold (sort leb l). rewrite insert_sorted_perm. now constructor.
Qed.

Lemma insert_sorted_Sorted {A : Type} (leb : A -> A -> bool) :
  (forall a b, leb a b = false -> leb b a = true) ->
  forall x l, Sorted (fun a b => leb a b = true) l ->
              Sorted (fun a b => leb a b = true) (insert_sorted leb x l).
Proof.
  intros Htot x l H. induction H as [|y l Hl IH Hy]; cbn [insert_sorted].
  - repeat constructor.
  - destruct (leb x y) eqn:E.
    + constructor; [constructor; assumption | constructor; exact E].
    + constructor; [exact IH|].
      destruct l as [|z l]; cbn [insert_sorted].
      * constructor. now apply Htot.
      * destruct (leb x z); constructor; [now apply Htot|].
        now inversion Hy.
Qed.

Lemma sort_Sorted {A : Type} (leb : A -> A -> bool) :
  (forall a b, leb a b = false -> leb b a = true) ->
  forall l, Sorted (fun a b => leb a b = true) (sort leb l).
Proof.
  intros Htot l. induction l as [|x l IH]; cbn [sort fold_right];
    [constructor|].
  now apply insert_sorted_Sorted.
Qed.

Lemma ltb_str_asym (a : jsstring) :
  forall b, ltb_str a b = true -> ltb_str b a = false.
Proof.
  induction a as [|x a IH]; intros [|y b]; cbn [ltb_str]; try congruence.
  destruct (N.ltb_spec x y), (N.ltb_spec y x); try congruence; try lia.
  apply IH.
Qed.

Lemma ltb_str_connex (a : jsstring) :
  forall b, ltb_str b a = false -> a <> b -> ltb_str a b = true.
Proof.
  induction a as [|x a IH]; intros [|y b]; cbn [ltb_str]; try congruence.
  destruct (N.ltb_spec x y) as [Hxy|Hxy], (N.ltb_spec y x) as [Hyx|Hyx];
    try congruence; try lia.
  intros Hlt Hne. apply IH; [exact Hlt|].
  assert (x = y) by lia. congruence.
Qed.

Lemma Sorted_strict {A : Type} (P Q : A -> A -> Prop) (l : list A) :
  (forall a b, P a b -> a <> b -> Q a b) ->
  Sorted P l -> NoDup l -> Sorted Q l.
Proof.
  intros HPQ H. induction H as [|x l Hl IH Hx]; intros Hnd; [constructor|].
  inversion Hnd as [|? ? Hnin Hnd']; subst.
  constructor; [now apply IH|].
  destruct Hx as [|y l Hxy]; constructor.
  apply HPQ; [exact Hxy|]. intros ->. apply Hnin. now left.
Qed.

(** X8: the summary is consistent: the flag says that the count is
    positive, and the types are distinct, at most [count] many and in
    strictly ascending order of code units. *)
Theorem attachment_summary_consistent (payload : option MessagePart) :
  let r := collectAttachmentTypes payload in
  hasAttachment r = (0 <? count r)
  /\ NoDup (types r)
  /\ List.length (types r) <= count r
  /\ Sorted (fun a b => ltb_str a b = true) (types r).
Proof.
  cbv zeta. unfold collectAttachmentTypes.
  set (st := match payload with
             | Some p => attach_walk p ([], 0)
             | None => ([], 0)
             end).
  cbn [hasAttachment types count].
  assert (Hok : summary_ok st).
  { subst st. destruct payload as [p|].
    - rewrite attach_walk_flatten. apply attach_fold_ok.
      repeat split; cbn; [constructor | lia | lia].
    - repeat split; cbn; [constructor | lia | lia]. }
  destruct Hok as (Hnd & Hlen & Hpos).
  set (leb := fun a b : jsstring => negb (ltb_str b a)).
  assert (Hnd' : NoDup (sort leb (fst st))).
  { apply (Permutation_NoDup (l := fst st)); [|exact Hnd].
    symmetry. apply sort_perm. }
  repeat split.
  - destruct (Nat.ltb_spec 0 (List.length (fst st))),
             (Nat.ltb_spec 0 (snd st)); try reflexivity; lia.
  - exact Hnd'.
  - rewrite (Permutation_length (sort_perm leb (fst st))). exact Hlen.
  - apply (Sorted_strict (fun a b => leb a b = true)); [| |exact Hnd'].
    + intros a b Hab Hne. apply ltb_str_connex; [|exact Hne].
      unfold leb in Hab. now apply negb_true_iff in Hab.
    + apply sort_Sorted. intros a b Hab. unfold leb in *.
      apply negb_false_iff in Hab. apply negb_true_iff.
      now apply ltb_str_asym.
Qed.

(* ================================================================== *)
(** * extractBodyHtml *)
(* ================================================================== *)

Import BodyHtml.

Lemma html_visit_spec (dec : jsstring -> jsstring) (p : MessagePart)
  (hp : list jsstring) :
  html_visit dec p hp
  = Some (hp ++ if contributes (str "text/html") p then [decoded dec p]
                else []).
Proof.
  unfold html_visit, contributes.
  destruct (negb (isAttachment p) && truthy (part_data p)
            && eqs (part_mimeType p) (str "text/html")).
  - rewrite decodeBase64Url_padded. reflexivity.
  - now rewrite app_nil_r.
Qed.

Lemma html_walk_flatten (dec : jsstring -> jsstring) (p : MessagePart) :
  forall hp, html_walk dec p hp
             = fold_left (fun acc q => acc >>= html_visit dec q) (flatten p)
                 (Some hp).
Proof.
  induction p as [m f b ps IH] using MessagePart_tree_ind. intros hp.
  cbn [html_walk flatten fold_left bind].
  generalize (html_visit dec (mkPart m f b ps) hp). intros acc.
  induction IH as [|q ps Hq _ IHps] in acc |- *; cbn [flat_map fold_left];
    [reflexivity|].
  rewrite fold_left_app, IHps. f_equal.
  destruct acc as [hp'|]; cbn [bind].
  - apply Hq.
  - clear. induction (flatten q) as [|x l IHl]; cbn [fold_left bind];
      [reflexivity | exact IHl].
Qed.

Lemma html_fold_filter (dec : jsstring -> jsstring) (l : list MessagePart) :
  forall hp,
    fold_left (fun acc q => acc >>= html_visit dec q) l (Some hp)
    = Some (hp ++ List.map (decoded dec)
                    (filter (contributes (str "text/html")) l)).
Proof.
  induction l as [|p l IH]; intros hp; cbn [fold_left filter bind].
  - now rewrite app_nil_r.
  - rewrite html_visit_spec, IH.
    destruct (contributes (str "text/html") p); cbn [List.map].
    + now rewrite <- app_assoc.
    + now rewrite app_nil_r.
Qed.

Lemma extractBodyHtml_spec (dec : jsstring -> jsstring)
  (payload : option MessagePart) (maxChars : Z) :
  extractBodyHtml dec payload maxChars
  = Some (cut maxChars (trim (join [10%N] (html_segments dec payload)))).
Proof.
  unfold extractBodyHtml, html_segments, nodes, cut, slice0.
  destruct payload as [p|]; cbn [bind].
  - rewrite html_walk_flatten, html_fold_filter. cbn [bind app].
    now destruct (_ && _).
  - cbn [filter List.map]. now destruct (_ && _).
Qed.

(** X9: the raw HTML body never raises: it is the cut of the trimmed
    join of the HTML segments, at most [maxChars] long under a positive
    limit. *)
Theorem extractBodyHtml_total (dec : jsstring -> jsstring)
  (payload : option MessagePart) (maxChars : Z) :
  extractBodyHtml dec payload maxChars
  = Some (cut maxChars (trim (join [10%N] (html_segments dec payload))))
  /\ ((0 < maxChars)%Z ->
      (Z.of_nat (List.length
         (cut maxChars (trim (join [10%N] (html_segments dec payload)))))
       <= maxChars)%Z).
Proof.
  split; [apply extractBodyHtml_spec | apply cut_length].
Qed.

(** X10: without a plain-text body, the text body is the conversion of
    the uncut raw HTML body. *)
Theorem body_text_from_body_html (dec : jsstring -> jsstring)
  (payload : option MessagePart) (maxChars : Z) :
  trim (join [10%N] (plain_segments dec payload)) = [] ->
  extractBodyText dec payload maxChars
  = option_map (cut maxChars)
      (extractBodyHtml dec payload 0
       >>= fun html =>
           if truthy html then htmlToTextKeepingLinks html else Some []).
Proof.
  intros Hplain. rewrite extractBodyText_cut. f_equal.
  rewrite extractBodyHtml_spec, cut_zero. cbn [bind].
  unfold extractBodyText. rewrite collect_segments_spec.
  cbn [bind plainParts htmlParts]. rewrite Hplain. cbn [truthy negb].
  destruct (truthy _); [|reflexivity].
  destruct (htmlToTextKeepingLinks _) as [out|]; [|reflexivity].
  cbn [bind]. reflexivity.
Qed.

Lemma body_text_from_body_html_witness :
  extractBodyText NodeBuffer.base64_utf8 (Some alternative) 0
  = option_map (cut 0)
      (extractBodyHtml NodeBuffer.base64_utf8 (Some alternative) 0
       >>= fun html =>
           if truthy html then htmlToTextKeepingLinks html else Some []).
Proof.
  apply body_text_from_body_html. vm_compute. reflexivity.
Defined.

(* ================================================================== *)
(** * The HTML conversion *)
(* ================================================================== *)

(** Rewrite the innermost replacement on [s], whose pattern starts with
    the unit [c] that [s] does not contain. *)
Ltac blocked c s H :=
  match goal with
  | |- context [RegExp.replace ?re ?r s] =>
      let Hs := fresh in
      assert (Hs : pattern_starts_with c re = true)
        by (vm_compute; reflexivity);
      rewrite (replace_blocked c re r s Hs eq_refl H); clear Hs
  | |- context [RegExp.replace_fn ?re ?f s] =>
      let Hs := fresh in
      assert (Hs : pattern_starts_with c re = true)
        by (vm_compute; reflexivity);
      rewrite (replace_fn_blocked c re f s Hs eq_refl H); clear Hs;
      cbn [bind]
  end.

Lemma decodeHtmlEntities_plain (s : jsstring) :
  ~ In 38%N s -> decodeHtmlEntities s = Some s.
Proof.
  intros H. unfold decodeHtmlEntities. repeat blocked 38%N s H.
  reflexivity.
Qed.

Lemma htmlToText_without_tags (s : jsstring) :
  ~ In 60%N s ->
  htmlToTextKeepingLinks s
  = decodeHtmlEntities s >>= fun s => Some (normalizeWhitespace s).
Proof.
  intros H. unfold htmlToTextKeepingLinks. repeat blocked 60%N s H.
  reflexivity.
Qed.

(** X11: a text without [<] and [&] is only normalised in its white
    space, and the conversion does not raise. *)
Theorem htmlToText_markup_free (s : jsstring) :
  ~ In 60%N s -> ~ In 38%N s ->
  htmlToTextKeepingLinks s = Some (normalizeWhitespace s)
  /\ decodeHtmlEntities s = Some s.
Proof.
  intros Hlt Hamp. rewrite (htmlToText_without_tags s Hlt).
  rewrite (decodeHtmlEntities_plain s Hamp). split; reflexivity.
Qed.

Lemma htmlToText_markup_free_witness :
  htmlToTextKeepingLinks (str "  2 > 1,   so   what? ")
  = Some (str "2 > 1, so what?").
Proof.
  refine (proj1 (htmlToText_markup_free (str "  2 > 1,   so   what? ") _ _)).
  - cbn. intros H. repeat destruct H as [H|H]; try discriminate H. exact H.
  - cbn. intros H. repeat destruct H as [H|H]; try discriminate H. exact H.
Defined.

(** ** Numeric references beyond U+10FFFF *)

(** A greedy repetition of a class takes the whole run when the rest of
    the pattern matches after it. *)
Lemma greedy_run (p : char -> bool) (rest : jsstring) (k : RegExp.cont) :
  head_fails p rest ->
  forall h fuel min prev pos caps,
    forallb p h = true -> min <= List.length h -> List.length h < fuel ->
    k (RegExp.mkst (last_unit prev h) rest (pos + List.length h) caps)
    <> None ->
    RegExp.rep_loop (RegExp.step_char p) [] true fuel min None
      (RegExp.mkst prev (h ++ rest) pos caps) k
    = k (RegExp.mkst (last_unit prev h) rest (pos + List.length h) caps).
Proof.
  intros Hrest. induction h as [|x h IH];
    intros fuel min prev pos caps Hp Hmin Hfuel Hk;
    (destruct fuel as [|fuel]; [cbn in Hfuel; lia|]);
    cbn [RegExp.rep_loop option_map RegExp.clear_caps app last_unit
         List.length] in *.
  - assert (min = 0) by lia. subst min. rewrite Nat.add_0_r in *.
    unfold RegExp.step_char. cbn [RegExp.m_rest].
    destruct rest as [|c r]; [reflexivity|]. cbn in Hrest.
    now rewrite Hrest.
  - cbn [forallb] in Hp. apply andb_true_iff in Hp as [Hx Hh].
    replace (pos + S (List.length h)) with (S pos + List.length h) in * by lia.
    destruct min as [|min]; unfold RegExp.step_char at 1;
      cbn [RegExp.m_rest RegExp.m_pos RegExp.m_caps]; rewrite Hx.
    + destruct (Nat.eqb_spec (S pos) pos) as [E|_]; [lia|].
      rewrite IH by (try assumption; lia).
      destruct (k _) as [r|]; [reflexivity | contradiction].
    + apply IH; try assumption; lia.
Qed.

Lemma hex_class (c : char) :
  RegExp.class_match false false
    [RegExp.CRange 48 57; RegExp.CRange 97 102; RegExp.CRange 65 70] c
  = is_hex_digit c.
Proof.
  unfold RegExp.class_match, is_hex_digit, digit_value. cbn.
  unfold RegExp.in_range_ic. cbn [andb orb].
  destruct (in_range 48 57 c), (in_range 97 102 c), (in_range 65 70 c);
    reflexivity.
Qed.

Lemma firstn_app_exact {A : Type} (n : nat) (a b : list A) :
  n = List.length a -> firstn n (a ++ b) = a.
Proof.
  intros ->. rewrite firstn_app, Nat.sub_diag, firstn_all. cbn.
  apply app_nil_r.
Qed.

(** The reference [&#x h ;] is matched whole, with [h] as the capture. *)
Lemma match_hex_entity (h post : jsstring) (prev : option char) (pos : nat) :
  h <> [] -> forallb is_hex_digit h = true ->
  exists res,
    RegExp.match_at re_hex_entity prev
      (str "&#x" ++ h ++ [59%N] ++ post) pos = Some res
    /\ RegExp.group 1 res = Some h.
Proof.
  intros Hne Hhex.
  assert (Hre : re_hex_entity = RegExp.mk
    (Some (RegExp.NSeq (RegExp.NChar 38)
       (RegExp.NSeq (RegExp.NChar 35)
          (RegExp.NSeq (RegExp.NChar 120)
             (RegExp.NSeq
                (RegExp.NGroup 1
                   (RegExp.NRep 1 None true
                      (RegExp.NClass false
                         [RegExp.CRange 48 57; RegExp.CRange 97 102;
                          RegExp.CRange 65 70])))
                (RegExp.NChar 59)))))) true false)
    by (vm_compute; reflexivity).
  rewrite Hre. unfold RegExp.match_at.
  cbn [RegExp.prog RegExp.ignoreCase].
  change (str "&#x" ++ h ++ [59%N] ++ post)
    with (38%N :: 35%N :: 120%N :: h ++ 59%N :: post).
  set (p := RegExp.class_match false false
              [RegExp.CRange 48 57; RegExp.CRange 97 102;
               RegExp.CRange 65 70]).
  assert (Hp : forallb p h = true).
  { rewrite (forallb_ext_eq p is_hex_digit); [exact Hhex|]. apply hex_class. }
  assert (Hlen : 1 <= List.length h) by (destruct h; [congruence | cbn; lia]).
  cbn [RegExp.m RegExp.step_char RegExp.m_rest RegExp.m_pos RegExp.m_caps
       RegExp.m_prev RegExp.canonicalize N.eqb Pos.eqb RegExp.groups].
  change (RegExp.step_char (RegExp.class_match false false
            [RegExp.CRange 48 57; RegExp.CRange 97 102; RegExp.CRange 65 70]))
    with (RegExp.step_char p).
  rewrite greedy_run.
  - cbn [RegExp.step_char RegExp.m_rest RegExp.m_pos RegExp.m_caps
         RegExp.m_prev RegExp.canonicalize N.eqb Pos.eqb].
    eexists. split; [reflexivity|].
    cbn [RegExp.group RegExp.r_caps RegExp.m_caps RegExp.lookup_cap Nat.eqb].
    f_equal. rewrite Nat.add_comm, Nat.add_sub.
    now apply firstn_app_exact.
  - reflexivity.
  - exact Hp.
  - exact Hlen.
  - rewrite length_app. lia.
  - cbn [RegExp.step_char RegExp.m_rest RegExp.m_pos RegExp.m_caps
         RegExp.m_prev RegExp.canonicalize N.eqb Pos.eqb].
    discriminate.
Qed.

(** A raising callback on a match after a prefix without matches makes
    the whole replacement raise. *)
Lemma rebuild_raises (c : char) (re : RegExp.t)
  (f : RegExp.mresult -> option jsstring) (tail : jsstring) :
  pattern_starts_with c re = true -> (c < 65)%N ->
  (forall prev pos, exists res,
      RegExp.match_at re prev tail pos = Some res /\ f res = None) ->
  forall pre fuel prev pos,
    ~ In c pre -> List.length pre < fuel ->
    RegExp.rebuild f (RegExp.scan fuel re prev (pre ++ tail) pos) = None.
Proof.
  intros Hs Hc Htail. induction pre as [|x pre IH];
    intros fuel prev pos Hn Hfuel;
    (destruct fuel as [|fuel]; [cbn in Hfuel; lia|]);
    cbn [app RegExp.scan].
  - destruct (Htail prev pos) as (res & -> & Hf).
    destruct (Nat.eqb _ _); cbn [RegExp.rebuild]; now rewrite Hf.
  - rewrite (match_at_blocked c re prev (x :: pre ++ tail) pos Hs Hc)
      by (cbn in Hn; cbn; tauto).
    cbn [RegExp.rebuild]. rewrite IH; [reflexivity | cbn in Hn; tauto |].
    cbn in Hfuel. lia.
Qed.

Lemma hex_digit_not (c : char) (h : jsstring) :
  is_hex_digit c = false -> forallb is_hex_digit h = true -> ~ In c h.
Proof.
  intros Hc Hh Hin. rewrite forallb_forall in Hh. apply Hh in Hin.
  congruence.
Qed.

(** X12: a hexadecimal reference to a code point above U+10FFFF makes
    the conversion raise. *)
Theorem htmlToText_raises_on_large_reference (pre h post : jsstring) :
  ~ In 60%N pre -> ~ In 38%N pre -> ~ In 60%N post ->
  h <> [] -> forallb is_hex_digit h = true ->
  (1114111 < parseInt 16 h)%N ->
  htmlToTextKeepingLinks (pre ++ str "&#x" ++ h ++ [59%N] ++ post) = None.
Proof.
  intros Hpre Hamp Hpost Hne Hhex Hbig.
  rewrite htmlToText_without_tags.
  2:{ rewrite !in_app_iff. intros [H|[H|[H|[H|H]]]]; try tauto.
      - cbn in H. repeat destruct H as [H|H]; try discriminate H; exact H.
      - now apply (hex_digit_not 60 h).
      - cbn in H. destruct H as [H|[]]. discriminate H. }
  unfold decodeHtmlEntities.
  fold re_hex_entity.
  assert (Hraise : RegExp.replace_fn re_hex_entity (entity 16)
                     (pre ++ str "&#x" ++ h ++ [59%N] ++ post) = None).
  { unfold RegExp.replace_fn, RegExp.scan_all.
    change (RegExp.global re_hex_entity) with true. cbv iota.
    apply (rebuild_raises 38); [reflexivity | reflexivity | | exact Hamp |].
    - intros prev pos.
      destruct (match_hex_entity h post prev pos Hne Hhex) as (res & E & Hg).
      exists res. split; [exact E|]. unfold entity. rewrite Hg.
      cbn [or_else]. unfold fromCodePoint.
      apply N.ltb_lt in Hbig. now rewrite Hbig.
    - rewrite length_app. lia. }
  rewrite Hraise. reflexivity.
Qed.

Lemma htmlToText_raises_on_large_reference_witness :
  htmlToTextKeepingLinks
    (str "A " ++ str "&#x" ++ str "110000" ++ [59%N] ++ str " B") = None.
Proof.
  apply htmlToText_raises_on_large_reference.
  - cbn. intros H. repeat destruct H as [H|H]; try discriminate H. exact H.
  - cbn. intros H. repeat destruct H as [H|H]; try discriminate H. exact H.
  - cbn. intros H. repeat destruct H as [H|H]; try discriminate H. exact H.
  - discriminate.
  - reflexivity.
  - reflexivity.
Defined.

(* ================================================================== *)
(** * The text body is trimmed *)
(* ================================================================== *)

Lemma trimStart_trim (s : jsstring) : trimStart (trim s) = trim s.
Proof.
  unfold trim. pose proof (trimStart_head s) as H.
  destruct (trimStart s) as [|c x]; [reflexivity|]. cbn in H.
  rewrite (trimEnd_cons c x H). now apply trimStart_fixed.
Qed.

Lemma htmlToText_trimmed (html out : jsstring) :
  htmlToTextKeepingLinks html = Some out -> trim out = out.
Proof.
  unfold htmlToTextKeepingLinks.
  destruct (RegExp.replace_fn _ _ _) as [s1|]; cbn [bind]; [|discriminate].
  destruct (decodeHtmlEntities _) as [s2|]; cbn [bind]; [|discriminate].
  intros [= <-]. apply trim_idem.
Qed.

Lemma uncut_body_trimmed (dec : jsstring -> jsstring)
  (payload : option MessagePart) (out : jsstring) :
  extractBodyText dec payload 0 = Some out -> trim out = out.
Proof.
  unfold extractBodyText. rewrite collect_segments_spec.
  cbn [bind plainParts htmlParts].
  destruct (truthy (trim (join [10%N] (plain_segments dec payload))));
    cbn [negb bind].
  - cbn. intros [= <-]. apply trim_idem.
  - destruct (truthy (trim (join [10%N] (html_segments dec payload)))).
    + destruct (htmlToTextKeepingLinks _) as [t|] eqn:E; cbn [bind];
        [|discriminate].
      cbn. intros [= <-]. now apply htmlToText_trimmed in E.
    + cbn. intros [= <-]. reflexivity.
Qed.

Lemma trimStart_firstn (n : nat) (s : jsstring) :
  trimStart s = s -> trimStart (firstn n s) = firstn n s.
Proof.
  destruct s as [|c s], n as [|n]; cbn; try reflexivity.
  destruct (is_space c) eqn:E; [|reflexivity].
  intros H. exfalso.
  assert (Hh : head_not_space (c :: s)) by (rewrite <- H; apply trimStart_head).
  cbn in Hh. congruence.
Qed.

(** X13: the text body never starts with white space, and it does not end
    with white space either unless the limit has cut it. *)
Theorem body_text_trimmed (dec : jsstring -> jsstring)
  (payload : option MessagePart) (maxChars : Z) (out : jsstring) :
  extractBodyText dec payload maxChars = Some out ->
  trimStart out = out
  /\ ((maxChars <= 0)%Z \/ (Z.of_nat (List.length out) < maxChars)%Z ->
      trim out = out).
Proof.
  rewrite extractBodyText_cut.
  destruct (extractBodyText dec payload 0) as [x|] eqn:E; [|discriminate].
  apply uncut_body_trimmed in E. cbn [option_map]. intros [= <-].
  assert (Hs : trimStart x = x) by (rewrite <- E; apply trimStart_trim).
  unfold cut. split.
  - destruct (_ && _); [now apply trimStart_firstn | exact Hs].
  - destruct ((0 <? maxChars)%Z && (maxChars <? Z.of_nat (List.length x))%Z)
      eqn:Ec; [|intros _; exact E].
    intros Hm. exfalso. apply andb_true_iff in Ec as [H0 H1].
    apply Z.ltb_lt in H0, H1. rewrite length_firstn in Hm. lia.
Qed.

Lemma body_text_trimmed_witness :
  trimStart (str "Hello") = str "Hello"
  /\ ((0 <= 0)%Z \/ (Z.of_nat (List.length (str "Hello")) < 0)%Z ->
      trim (str "Hello") = str "Hello").
Proof.
  apply (body_text_trimmed NodeBuffer.base64_utf8 (Some alternative) 0).
  vm_compute. reflexivity.
Defined.

Import Exporter.

(* ================================================================== *)
(** * extractFields *)
(* ================================================================== *)

Lemma field_eqb_eq (a b : ExportField) : field_eqb a b = true <-> a = b.
Proof.
  unfold field_eqb. destruct (ExportField_eq_dec a b); split; congruence.
Qed.

Lemma field_eqb_refl (a : ExportField) : field_eqb a a = true.
Proof. now apply field_eqb_eq. Qed.

Lemma assign_assigned (dec : jsstring -> jsstring) (msg : Message)
  (config : ExportConfig) (row : Row) (field : ExportField) :
  assign dec msg config (common msg) row field
  = option_map (set_field row field) (assigned dec msg config field).
Proof.
  unfold assigned.
  destruct field; cbn [assign option_map]; unfold set_field at 2;
    rewrite ?field_eqb_refl; try reflexivity.
  - destruct (extractBodyText _ _ _); reflexivity.
  - destruct (extractBodyHtml _ _ _); reflexivity.
Qed.

Lemma assigned_none (dec : jsstring -> jsstring) (msg : Message)
  (config : ExportConfig) (field : ExportField) :
  assigned dec msg config field = None <->
  field = body_text
  /\ extractBodyText dec (payload msg) (bodyMaxChars config) = None.
Proof.
  unfold assigned. destruct field; cbn [assign option_map];
    try (split; [discriminate | intros [? _]; discriminate]).
  - destruct (extractBodyText _ _ _); cbn; split; try discriminate; auto.
    intros [_ ?]; discriminate.
  - rewrite extractBodyHtml_spec. cbn.
    split; [discriminate | intros [? _]; discriminate].
Qed.

Lemma fold_none {A B : Type} (f : A -> B -> option A) (l : list B) :
  fold_left (fun acc x => acc >>= fun a => f a x) l None = None.
Proof. induction l as [|x l IH]; cbn [fold_left bind]; auto. Qed.

Lemma assign_fold (dec : jsstring -> jsstring) (msg : Message)
  (config : ExportConfig) (l : list ExportField) :
  forall row0,
    match fold_left (fun acc field => acc >>= fun row =>
                       assign dec msg config (common msg) row field)
            l (Some row0) with
    | Some row =>
        (forall f, In f l -> assigned dec msg config f <> None)
        /\ (forall g, row g = if existsb (field_eqb g) l
                              then or_else (assigned dec msg config g) []
                              else row0 g)
    | None => exists f, In f l /\ assigned dec msg config f = None
    end.
Proof.
  induction l as [|x l IH]; intros row0; cbn [fold_left bind].
  - split; [intros f [] | reflexivity].
  - rewrite assign_assigned.
    destruct (assigned dec msg config x) as [v|] eqn:Ex; cbn [option_map].
    + specialize (IH (set_field row0 x v)).
      destruct (fold_left _ l _) as [row|].
      * destruct IH as [H1 H2]. split.
        -- intros f [<-|Hf]; [congruence | now apply H1].
        -- intros g. rewrite H2. cbn [existsb]. unfold set_field.
           destruct (existsb (field_eqb g) l) eqn:El.
           ++ now rewrite orb_true_r.
           ++ rewrite orb_false_r.
              destruct (field_eqb g x) eqn:Eg; [|reflexivity].
              apply field_eqb_eq in Eg. subst g. now rewrite Ex.
      * destruct IH as (f & Hf & Hn). exists f. split; [now right | exact Hn].
    + rewrite fold_none. exists x. split; [now left | exact Ex].
Qed.

Lemma extractFields_entries (dec : jsstring -> jsstring) (msg : Message)
  (config : ExportConfig) (row : Row) :
  extractFields dec msg config = Some row ->
  forall g, row g = if existsb (field_eqb g) (fields config)
                    then or_else (assigned dec msg config g) []
                    else [].
Proof.
  unfold extractFields. cbv zeta. intros H.
  pose proof (assign_fold dec msg config (fields config) empty_row) as Hf.
  rewrite H in Hf. apply Hf.
Qed.

Lemma existsb_field_In (g : ExportField) (l : list ExportField) :
  existsb (field_eqb g) l = true <-> In g l.
Proof.
  rewrite existsb_exists. split.
  - intros (x & Hx & E). apply field_eqb_eq in E. now subst.
  - intros H. exists g. split; [exact H | apply field_eqb_refl].
Qed.

(** X14: a field's entry depends only on whether the field is requested:
    it is the value of its own case, whatever the order and the other
    fields, and the empty string when the field is not requested. *)
Theorem extractFields_row (dec : jsstring -> jsstring) (msg : Message)
  (config : ExportConfig) (row : Row) :
  extractFields dec msg config = Some row ->
  (forall g, In g (fields config) ->
             assigned dec msg config g = Some (row g))
  /\ (forall g, ~ In g (fields config) -> row g = []).
Proof.
  intros H. pose proof (extractFields_entries dec msg config row H) as He.
  unfold extractFields in H. cbv zeta in H.
  pose proof (assign_fold dec msg config (fields config) empty_row) as Hf.
  rewrite H in Hf. destruct Hf as [Hsome _].
  split; intros g Hg; rewrite He.
  - apply existsb_field_In in Hg as Hb. rewrite Hb.
    specialize (Hsome g Hg).
    destruct (assigned dec msg config g); [reflexivity | contradiction].
  - destruct (existsb (field_eqb g) (fields config)) eqn:E; [|reflexivity].
    apply existsb_field_In in E. contradiction.
Qed.

(** X15: building a row raises exactly when the text body is requested
    and its extraction raises. *)
Theorem extractFields_raises_iff (dec : jsstring -> jsstring) (msg : Message)
  (config : ExportConfig) :
  extractFields dec msg config = None <->
  In body_text (fields config)
  /\ extractBodyText dec (payload msg) (bodyMaxChars config) = None.
Proof.
  unfold extractFields. cbv zeta.
  pose proof (assign_fold dec msg config (fields config) empty_row) as Hf.
  destruct (fold_left _ _ _) as [row|].
  - destruct Hf as [Hsome _]. split; [discriminate|].
    intros [Hin Hn]. exfalso. apply (Hsome body_text Hin).
    apply assigned_none. now split.
  - destruct Hf as (f & Hin & Hn). split; [|reflexivity]. intros _.
    apply assigned_none in Hn as [-> Hn]. now split.
Qed.

Lemma extractFields_row_witness :
  exists row,
    extractFields NodeBuffer.base64_utf8 newsletter some_fields = Some row
    /\ row subject = str "Hello"
    /\ row cc = [].
Proof.
  eexists. split; [reflexivity|].
  split; [reflexivity|].
  apply (extractFields_row NodeBuffer.base64_utf8 newsletter some_fields
           _ eq_refl).
  cbn. intros Hin.
  repeat destruct Hin as [Hin|Hin]; try discriminate Hin. exact Hin.
Defined.

(** X16: the two domain columns are the domains of the two address
    columns of the same row. *)
Theorem domain_columns_consistent (dec : jsstring -> jsstring) (msg : Message)
  (config : ExportConfig) (row : Row) :
  extractFields dec msg config = Some row ->
  (In from_email (fields config) -> In sender_domain (fields config) ->
   row sender_domain = domainFromEmail (row from_email))
  /\ (In reply_to (fields config) -> In reply_to_domain (fields config) ->
      row reply_to_domain = domainFromEmail (row reply_to)).
Proof.
  intros H. pose proof (extractFields_entries dec msg config row H) as He.
  split; intros H1 H2; rewrite !He;
    apply existsb_field_In in H1, H2; rewrite H1, H2.
  - reflexivity.
  - unfold assigned. cbn [assign option_map or_else]. unfold set_field.
    rewrite !field_eqb_refl.
    destruct (replyToEmail (common msg)); reflexivity.
Qed.

Lemma domain_columns_consistent_witness :
  exists row,
    extractFields NodeBuffer.base64_utf8 newsletter some_fields = Some row
    /\ row from_email = str "news@example.com"
    /\ row sender_domain = domainFromEmail (row from_email).
Proof.
  eexists. split; [reflexivity|]. split; [reflexivity|].
  apply (domain_columns_consistent NodeBuffer.base64_utf8 newsletter
           some_fields _ eq_refl); cbn; tauto.
Defined.

Lemma str_inj (a b : string) : str a = str b -> a = b.
Proof.
  unfold str. intros H.
  rewrite <- (string_of_list_ascii_of_string a),
          <- (string_of_list_ascii_of_string b).
  f_equal. revert H.
  generalize (list_ascii_of_string a) (list_ascii_of_string b).
  induction l as [|x l IH]; intros [|y l']; cbn; try discriminate;
    [reflexivity|].
  intros [= Hxy Hl]. f_equal; [|now apply IH].
  rewrite <- (ascii_N_embedding x), <- (ascii_N_embedding y). now f_equal.
Qed.

Lemma String_of_nat_zero (n : nat) : String_of_nat n = str "0" <-> n = 0.
Proof.
  split; [|intros ->; reflexivity].
  unfold String_of_nat. intros H. apply str_inj in H.
  change "0"%string with (NilEmpty.string_of_uint (Nat.to_uint 0)) in H.
  assert (Hu : Some (Nat.to_uint n) = Some (Nat.to_uint 0)).
  { rewrite <- !NilEmpty.usu. now rewrite H. }
  injection Hu as Hu. now apply Unsigned.to_uint_inj.
Qed.

Lemma summary_flag (payload : option MessagePart) :
  hasAttachment (collectAttachmentTypes payload)
  = (0 <? count (collectAttachmentTypes payload)).
Proof.
  unfold collectAttachmentTypes.
  set (st := match payload with
             | Some p => attach_walk p ([], 0)
             | None => ([], 0)
             end).
  cbn [hasAttachment count].
  assert (Hok : summary_ok st).
  { subst st. destruct payload as [p|].
    - rewrite attach_walk_flatten. apply attach_fold_ok.
      repeat split; cbn; [constructor | lia | lia].
    - repeat split; cbn; [constructor | lia | lia]. }
  destruct Hok as (_ & Hlen & Hpos).
  destruct (Nat.ltb_spec 0 (List.length (fst st))),
           (Nat.ltb_spec 0 (snd st)); try reflexivity; lia.
Qed.

(** X17: the attachment flag of a row is [true] exactly when its
    attachment count is not [0]. *)
Theorem attachment_columns_consistent (dec : jsstring -> jsstring)
  (msg : Message) (config : ExportConfig) (row : Row) :
  extractFields dec msg config = Some row ->
  In has_attachment (fields config) ->
  In attachment_count (fields config) ->
  (row has_attachment = str "true" <-> row attachment_count <> str "0").
Proof.
  intros H H1 H2. pose proof (extractFields_entries dec msg config row H) as He.
  rewrite !He. apply existsb_field_In in H1, H2. rewrite H1, H2.
  unfold assigned. cbn [assign option_map or_else]. unfold set_field.
  rewrite !field_eqb_refl. cbn [common attach].
  rewrite String_of_nat_zero, summary_flag.
  destruct (count (collectAttachmentTypes (payload msg))) as [|n]; cbn.
  - split; [discriminate | congruence].
  - split; [discriminate | reflexivity].
Qed.

Lemma attachment_columns_consistent_witness :
  exists row,
    extractFields NodeBuffer.base64_utf8 newsletter some_fields = Some row
    /\ row attachment_count = str "0"
    /\ (row has_attachment = str "true" <-> row attachment_count <> str "0").
Proof.
  eexists. split; [reflexivity|]. split; [reflexivity|].
  apply (attachment_columns_consistent NodeBuffer.base64_utf8 newsletter
           some_fields _ eq_refl); cbn; tauto.
Defined.

Import Csv.

(* ================================================================== *)
(** * csvEscape *)
(* ================================================================== *)

(** A greedy repetition whose rest always matches does match. *)
Lemma rep_loop_greedy_succeeds step grp max (fuel : nat) (st : RegExp.mstate) :
  exists e, RegExp.rep_loop step grp true (S fuel) 0 max st Some = Some e.
Proof.
  cbn [RegExp.rep_loop]. destruct max as [[|n]|]; eauto;
    match goal with
    | |- context [match ?x with Some _ => _ | None => _ end] =>
        destruct x; eauto
    end.
Qed.

Lemma rep_loop_first step grp greedy fuel min st k :
  RegExp.rep_loop step grp greedy (S fuel) (S min) None st k
  = step (RegExp.clear_caps grp st)
      (fun st1 => RegExp.rep_loop step grp greedy fuel min None st1 k).
Proof. reflexivity. Qed.

Lemma spaces_match (c : char) (prev : option char) (rest : jsstring)
  (pos : nat) :
  is_space c = true -> matches_here re_spaces prev (c :: rest) pos.
Proof.
  intros Hc.
  assert (Hre : re_spaces = RegExp.mk
    (Some (RegExp.NRep 1 None true
             (RegExp.NClass false [RegExp.CSpace false]))) true false)
    by (vm_compute; reflexivity).
  unfold matches_here, RegExp.match_at. rewrite Hre.
  cbn [RegExp.prog RegExp.ignoreCase RegExp.m RegExp.m_rest List.length
       RegExp.groups].
  change (RegExp.m false (RegExp.NClass false [RegExp.CSpace false]))
    with (RegExp.step_char
            (RegExp.class_match false false [RegExp.CSpace false])).
  set (step := RegExp.step_char _).
  replace (1 + S (List.length rest) + 1) with (S (S (List.length rest + 1)))
    by lia.
  rewrite rep_loop_first. cbn [RegExp.clear_caps].
  unfold step at 1, RegExp.step_char.
  cbn [RegExp.m_rest RegExp.m_pos RegExp.m_caps].
  replace (RegExp.class_match false false [RegExp.CSpace false] c) with true
    by (unfold RegExp.class_match; cbn; now rewrite Hc).
  set (st1 := RegExp.mkst (Some c) rest (S pos) []).
  change (RegExp.rep_loop (fun st k => step st k))
    with (RegExp.rep_loop step).
  destruct (rep_loop_greedy_succeeds step [] None (List.length rest + 1) st1)
    as (e & He).
  rewrite He. eexists. split; [reflexivity|]. cbn [RegExp.r_end].
  destruct (rep_loop_forward step [] true (step_char_forward _)
              (S (List.length rest + 1)) 0 None st1 Some e He)
    as (st' & pre & (Hrest & Hpos) & [= ->]).
  rewrite Hpos. cbn. lia.
Qed.

Lemma replace_spaces_one_line (s : jsstring) :
  Forall one_line_unit (RegExp.replace re_spaces (str " ") s).
Proof.
  unfold RegExp.replace, RegExp.scan_all.
  change (RegExp.global re_spaces) with true. cbv iota.
  apply scan_Forall; [| |lia].
  - intros x [<-|[]]. intros _. reflexivity.
  - intros prev c rest pos. destruct (is_space c) eqn:E.
    + right. now apply spaces_match.
    + left. intros H. congruence.
Qed.

Lemma Forall_trimStart (Q : char -> Prop) (s : jsstring) :
  Forall Q s -> Forall Q (trimStart s).
Proof.
  induction 1 as [|c s Hc Hs IH]; cbn; [constructor|].
  destruct (is_space c); [exact IH | now constructor].
Qed.

Lemma Forall_trim (Q : char -> Prop) (s : jsstring) :
  Forall Q s -> Forall Q (trim s).
Proof.
  intros H. unfold trim, trimEnd. apply Forall_rev, Forall_trimStart,
    Forall_rev, Forall_trimStart, H.
Qed.

Lemma one_line_units (value : jsstring) : Forall one_line_unit (one_line value).
Proof. apply Forall_trim, replace_spaces_one_line. Qed.

Lemma replace_dquote (s : jsstring) :
  RegExp.replace re_dquote [34%N; 34%N] s
  = flat_map (fun x => if (x =? 34)%N then [34%N; 34%N] else [x]) s.
Proof.
  assert (Hre : re_dquote = RegExp.mk (Some (RegExp.NChar 34)) true false)
    by (vm_compute; reflexivity).
  rewrite Hre. unfold RegExp.replace, RegExp.scan_all. cbn [RegExp.global].
  apply scan_single_unit. lia.
Qed.

Lemma csvEscape_units (value : jsstring) :
  Forall one_line_unit (csvEscape value).
Proof.
  unfold csvEscape. cbv zeta. pose proof (one_line_units value) as Hv.
  destruct (test re_special (one_line value)); [|exact Hv].
  rewrite replace_dquote.
  apply Forall_app. split; [repeat constructor; intros H; discriminate H|].
  apply Forall_app. split; [|repeat constructor; intros H; discriminate H].
  apply Forall_flat_map. eapply Forall_impl; [|exact Hv].
  intros c Hc. destruct (c =? 34)%N eqn:E.
  - repeat constructor; intros H; discriminate H.
  - repeat constructor. exact Hc.
Qed.

Lemma one_line_unit_no_break (c : char) :
  one_line_unit c -> RegExp.is_line_terminator c = false.
Proof.
  intros Hc. unfold RegExp.is_line_terminator.
  destruct (N.eqb_spec c 10) as [->|]; [specialize (Hc eq_refl); discriminate|].
  destruct (N.eqb_spec c 13) as [->|]; [specialize (Hc eq_refl); discriminate|].
  destruct (N.eqb_spec c 8232) as [->|]; [specialize (Hc eq_refl); discriminate|].
  destruct (N.eqb_spec c 8233) as [->|]; [specialize (Hc eq_refl); discriminate|].
  reflexivity.
Qed.

(** X18: the escaped value is on one line: its only white space is the
    space, so that it holds no line break of any kind. *)
Theorem csvEscape_one_line (value : jsstring) :
  Forall (fun c => is_space c = true -> c = 32%N) (csvEscape value)
  /\ Forall (fun c => RegExp.is_line_terminator c = false) (csvEscape value).
Proof.
  split; [apply csvEscape_units|].
  eapply Forall_impl; [|apply csvEscape_units].
  apply one_line_unit_no_break.
Qed.

(** ** The value read back *)





(* ================================================================== *)
(** * The output manager *)
(* ================================================================== *)

Section Output.

Variable byteLength : jsstring -> nat.
Variable maxBytesPerFile : Z.
Variable fields : list ExportField.

Lemma file_bytes_app (f g : list jsstring) :
  file_bytes byteLength (f ++ g)
  = file_bytes byteLength f + file_bytes byteLength g.
Proof.
  unfold file_bytes. now rewrite map_app, list_sum_app.
Qed.

Lemma file_bytes_single (x : jsstring) :
  file_bytes byteLength [x] = byteLength x.
Proof. unfold file_bytes. cbn. lia. Qed.

Lemma sum_files_app (fs gs : list (list jsstring)) :
  list_sum (List.map (file_bytes byteLength) (fs ++ gs))
  = list_sum (List.map (file_bytes byteLength) fs)
    + list_sum (List.map (file_bytes byteLength) gs).
Proof. now rewrite map_app, list_sum_app. Qed.

Lemma created_ok :
  manager_ok byteLength maxBytesPerFile fields []
    (createOutputManager byteLength fields).
Proof.
  unfold manager_ok, files, createOutputManager.
  cbn [ended stream bytesInCurrentFile totalBytes partIndex filesCreated app].
  refine (conj _ (conj _ (conj _ (conj _ (conj _ (conj _ _)))))).
  - constructor; [|constructor]. now exists [].
  - reflexivity.
  - unfold file_bytes. cbn. lia.
  - unfold file_bytes. cbn. lia.
  - reflexivity.
  - reflexivity.
  - intros _. constructor; [right; cbn; lia | constructor].
Qed.

Lemma write_ok (lines : list jsstring) (row : Row) (o : OutputManager) :
  manager_ok byteLength maxBytesPerFile fields lines o ->
  manager_ok byteLength maxBytesPerFile fields (lines ++ [line_of fields row])
    (write byteLength maxBytesPerFile fields row o).
Proof.
  unfold manager_ok.
  intros (Hhead & Hdata & Hcur & Hsum & Hcreated & Hlen & Hsize).
  unfold write, rotateIfNeeded. cbv zeta.
  destruct ((0 <? maxBytesPerFile)%Z
            && (maxBytesPerFile
                <? Z.of_nat (bytesInCurrentFile o
                             + byteLength (line_of fields row)))%Z) eqn:Erot;
    unfold manager_ok, files in *;
    cbn [ended stream bytesInCurrentFile totalBytes partIndex filesCreated].
  - refine (conj _ (conj _ (conj _ (conj _ (conj _ (conj _ _)))))).
    + apply Forall_app. split; [exact Hhead|].
      constructor; [|constructor]. now exists [line_of fields row].
    + rewrite map_app, concat_app, Hdata. cbn. reflexivity.
    + unfold file_bytes. cbn. lia.
    + rewrite sum_files_app, Hsum. unfold file_bytes at 1. cbn.
      assert (Hp : 1 <= partIndex o)
        by (rewrite <- Hlen, length_app; cbn; lia).
      destruct (partIndex o) as [|p]; [lia|]. cbn. lia.
    + rewrite seq_S, Hcreated. reflexivity.
    + rewrite length_app, Hlen. cbn. lia.
    + intros Hmax. apply Forall_app. split; [now apply Hsize|].
      constructor; [right; cbn; lia | constructor].
  - rewrite Forall_app in Hhead. destruct Hhead as [Hended Hstream].
    apply Forall_inv in Hstream as (ls & Hls).
    rewrite map_app, concat_app in Hdata. rewrite sum_files_app in Hsum.
    rewrite length_app in Hlen.
    refine (conj _ (conj _ (conj _ (conj _ (conj _ (conj _ _)))))).
    + apply Forall_app. split; [exact Hended|].
      constructor; [|constructor]. exists (ls ++ [line_of fields row]).
      rewrite Hls. reflexivity.
    + rewrite map_app, concat_app, <- Hdata, Hls. cbn.
      rewrite !app_nil_r, app_assoc. reflexivity.
    + rewrite file_bytes_app, file_bytes_single, Hcur. reflexivity.
    + rewrite sum_files_app. cbn [List.map] in *.
      change (list_sum [?x]) with (x + 0) in *.
      rewrite file_bytes_app, file_bytes_single. lia.
    + exact Hcreated.
    + rewrite length_app. exact Hlen.
    + intros Hmax. specialize (Hsize Hmax).
      rewrite Forall_app in Hsize. destruct Hsize as [Hs _].
      apply Forall_app. split; [exact Hs|].
      constructor; [|constructor]. left.
      rewrite file_bytes_app, file_bytes_single, <- Hcur.
      apply Z.ltb_lt in Hmax. rewrite Hmax in Erot. cbn in Erot.
      apply Z.ltb_ge in Erot. lia.
Qed.

Lemma run_ok (rows : list Row) :
  manager_ok byteLength maxBytesPerFile fields
    (List.map (line_of fields) rows)
    (written byteLength maxBytesPerFile fields rows).
Proof.
  unfold written.
  assert (H : forall lines o,
    manager_ok byteLength maxBytesPerFile fields lines o ->
    manager_ok byteLength maxBytesPerFile fields
      (lines ++ List.map (line_of fields) rows)
      (fold_left (fun o row =>
                    write byteLength maxBytesPerFile fields row o) rows o)).
  { induction rows as [|row rows IH]; intros lines o Ho;
      cbn [fold_left List.map].
    - now rewrite app_nil_r.
    - replace (lines ++ line_of fields row :: List.map (line_of fields) rows)
        with ((lines ++ [line_of fields row])
              ++ List.map (line_of fields) rows)
        by (now rewrite <- app_assoc).
      apply IH. now apply write_ok. }
  apply (H [] _ created_ok).
Qed.

(** X20: every file starts with the header line, and the lines after
    the headers are, in order, the lines of the rows written. *)
Theorem output_keeps_rows (rows : list Row) :
  let o := written byteLength maxBytesPerFile fields rows in
  Forall (fun f => exists ls, f = headerLine fields :: ls) (files o)
  /\ List.concat (List.map (@tl jsstring) (files o))
     = List.map (line_of fields) rows.
Proof.
  cbv zeta. destruct (run_ok rows) as (H1 & H2 & _). split; assumption.
Qed.

(** X21: under a positive limit every file is within the limit, or it
    holds at most the header and one row. *)
Theorem output_file_size (rows : list Row) :
  (0 < maxBytesPerFile)%Z ->
  Forall (fun f => (Z.of_nat (file_bytes byteLength f) <= maxBytesPerFile)%Z
                   \/ List.length f <= 2)
    (files (written byteLength maxBytesPerFile fields rows)).
Proof.
  intros Hmax. destruct (run_ok rows) as (_ & _ & _ & _ & _ & _ & H).
  now apply H.
Qed.

(** X22: the byte count reported leaves out the header of every file but
    the first; the files created are the parts 1, 2, ... in order. *)
Theorem output_byte_count (rows : list Row) :
  let o := written byteLength maxBytesPerFile fields rows in
  list_sum (List.map (file_bytes byteLength) (files o))
  = getBytesWritten o
    + (List.length (getFilesCreated o) - 1) * byteLength (headerLine fields)
  /\ getFilesCreated o = seq 1 (List.length (files o)).
Proof.
  cbv zeta.
  destruct (run_ok rows) as (_ & _ & _ & Hsum & Hcreated & Hlen & _).
  unfold getBytesWritten, getFilesCreated.
  rewrite Hcreated, length_seq, Hlen. split; [exact Hsum | reflexivity].
Qed.

Lemma Forall_join (Q : char -> Prop) (sep : jsstring) (xs : list jsstring) :
  Forall Q sep -> Forall (Forall Q) xs -> Forall Q (join sep xs).
Proof.
  intros Hsep H. induction H as [|x xs Hx Hxs IH]; [constructor|].
  cbn [join]. destruct xs as [|y ys]; [exact Hx|].
  apply Forall_app. split; [exact Hx|].
  apply Forall_app. split; [exact Hsep | exact IH].
Qed.

Lemma field_name_units (f : ExportField) :
  Forall (fun c => RegExp.is_line_terminator c = false) (field_name f).
Proof.
  apply Forall_forall. intros c Hc.
  assert (H : forallb (fun c => negb (RegExp.is_line_terminator c))
                (field_name f) = true) by (destruct f; reflexivity).
  rewrite forallb_forall in H. apply H in Hc. now apply negb_true_iff.
Qed.

(** X23: one record per line: the header line and the line of a row end
    with a line feed and hold no other line break. *)
Theorem one_record_per_line (row : Row) :
  (exists body, line_of fields row = body ++ [10%N]
     /\ Forall (fun c => RegExp.is_line_terminator c = false) body)
  /\ (exists body, headerLine fields = body ++ [10%N]
       /\ Forall (fun c => RegExp.is_line_terminator c = false) body).
Proof.
  split; eexists; (split; [reflexivity|]);
    (apply Forall_join; [repeat constructor|]);
    apply Forall_map, Forall_forall; intros f _.
  - eapply Forall_impl; [|apply csvEscape_units].
    apply one_line_unit_no_break.
  - apply field_name_units.
Qed.

End Output.

Lemma output_file_size_witness :
  Forall (fun f => (Z.of_nat (file_bytes (@List.length char) f) <= 40)%Z
                   \/ List.length f <= 2)
    (files (written (@List.length char) 40 [subject; from_email]
              [ set_field empty_row subject (str "a, b")
              ; set_field empty_row subject (str "second row of the file")
              ; set_field empty_row from_email (str "x@y.zz") ])).
Proof.
  apply output_file_size. reflexivity.
Defined.

Import AddressDetector AddressRedaction.

(* ================================================================== *)
(** * redactAddresses *)
(* ================================================================== *)

(** Only the blocks of the selected categories run. *)
Lemma apply_patterns_selected (options : SanitizeOptions)
  (pats : list RedactionPattern) :
  forall st,
    fold_left (apply_pattern options) pats st
    = fold_left
        (fun st pat =>
           fold_left (apply_regex (category pat) (replacement pat))
             (patterns pat) st)
        (filter (fun pat => existsb (cat_eqb (category pat))
                              (categories options)) pats)
        st.
Proof.
  induction pats as [|pat pats IH]; intros st; cbn [fold_left filter];
    [reflexivity|].
  rewrite IH. unfold apply_pattern at 1.
  destruct (existsb (cat_eqb (category pat)) (categories options));
    reflexivity.
Qed.

Lemma address_block :
  filter (fun pat => existsb (cat_eqb (category pat)) [physical_addresses])
    PATTERNS
  = [mkPattern physical_addresses
       (getAddressPatterns ++ getCityPatterns) token].
Proof. vm_compute. reflexivity. Qed.

Lemma redact_step_simulates (cat : RedactionCategory) (res : list RegExp.t) :
  forall st,
    (text_of (fold_left (apply_regex cat token) res st),
     count_of (fold_left (apply_regex cat token) res st))
    = fold_left redact_step res (text_of st, count_of st).
Proof.
  induction res as [|re res IH]; intros st; cbn [fold_left]; [reflexivity|].
  rewrite IH. f_equal. destruct st as [[s n] cs].
  unfold apply_regex, redact_step, text_of, count_of. cbn [fst snd].
  destruct (RegExp.match_all re s); reflexivity.
Qed.

(** X24: the stand-alone address redaction counts what the sanitizer
    counts for the address category alone, and its text is the text of
    the sanitizer with each run of tokens merged into one. *)
Theorem redactAddresses_is_address_category (t : jsstring) :
  let r := sanitizeText t (mkOptions true [physical_addresses]) in
  redactAddresses t
  = (RegExp.replace re_cleanup (str "[REDACTED_ADDRESS] ") (text r),
     redactionCount r).
Proof.
  cbv zeta. destruct t as [|c t]; [vm_compute; reflexivity|].
  unfold sanitizeText. cbn [enabled truthy negb orb].
  rewrite result_of_triple. cbn [text redactionCount].
  rewrite apply_patterns_selected. cbn [categories].
  rewrite address_block. cbn [fold_left category replacement patterns].
  set (init := fold_left (fun o cat => Sanitizer.set cat 0 o)
                 ALL_REDACTION_CATEGORIES []).
  pose proof (redact_step_simulates physical_addresses
                (getAddressPatterns ++ getCityPatterns) (c :: t, 0, init))
    as H.
  unfold redactAddresses. cbv zeta.
  rewrite <- (fold_left_app redact_step getAddressPatterns getCityPatterns).
  unfold text_of at 2, count_of at 2 in H. cbn [fst snd] in H.
  rewrite <- H. reflexivity.
Qed.
